(** * Globe: graph assembly and size-bounded selection

  A shallow embedding of the core of the domain-network tool:
  - [graph_builder.py]  (class [DomainNetworkBuilder]),
  - [node_manager.py]   (class [NodeManager]),
  - [unified_html_generator.py] ([create_html]'s size gate and
    [_smart_optimize_network]),
  together with the few facts of pandas and networkx those files rely on.

  Python [str] values are modelled by [string]; a character stands for the
  code point of the same number, so the model covers the strings whose code
  points lie in U+0000..U+00FF. Python [int] is [Z], and the one float
  computation of the core (the graph density) is carried out in exact
  rationals. *)

From Stdlib Require Import ZArith QArith Qfield List String Ascii Bool Lia DecimalString.
From stdpp Require Import gmap strings.
Import ListNotations.

Local Open Scope string_scope.
Local Open Scope Z_scope.

(* ================================================================== *)
(** * Part I: the program *)
(* ================================================================== *)

(** ** Python string methods used by the core *)

Module PyStr.

(** [str.isspace] on one character (code points below 256). *)
Definition is_space (c : ascii) : bool :=
  let n := N_of_ascii c in
  ((9 <=? n)%N && (n <=? 13)%N) || ((28 <=? n)%N && (n <=? 32)%N)
  || (n =? 133)%N || (n =? 160)%N.

(** [str.lower] on one character below U+0100: A-Z and the upper-case
    letters of U+00C0..U+00DE (all but the multiplication sign U+00D7). *)
Definition lower_char (c : ascii) : ascii :=
  let n := N_of_ascii c in
  if ((65 <=? n)%N && (n <=? 90)%N)
     || ((192 <=? n)%N && (n <=? 222)%N && negb (n =? 215)%N)
  then ascii_of_N (n + 32) else c.

(** [s.lower()] on a string of code points below U+0100. On these strings
    [str.lower] maps each character by itself; the one rule of Python that
    looks at the neighbours of a character (capital sigma, U+03A3, lower-cased
    to the final or to the medial form) concerns a character outside them. So
    what is proved of [lower] is proved of [str.lower] on the strings of the
    model, and of no others. *)
Fixpoint lower (s : string) : string :=
  match s with
  | EmptyString => EmptyString
  | String c s' => String (lower_char c) (lower s')
  end.

(** Strip leading characters that satisfy [p] ([str.lstrip]). *)
Fixpoint lstrip_chars (p : ascii -> bool) (s : string) : string :=
  match s with
  | EmptyString => EmptyString
  | String c s' => if p c then lstrip_chars p s' else s
  end.

Definition is_empty (s : string) : bool :=
  match s with EmptyString => true | _ => false end.

(** Strip trailing characters that satisfy [p] ([str.rstrip]): a character
    goes exactly when everything after it has gone and it satisfies [p]. *)
Fixpoint rstrip_chars (p : ascii -> bool) (s : string) : string :=
  match s with
  | EmptyString => EmptyString
  | String c s' =>
      let r := rstrip_chars p s' in
      if is_empty r && p c then EmptyString else String c r
  end.

(** [s.strip()] *)
Definition strip (s : string) : string :=
  rstrip_chars is_space (lstrip_chars is_space s).

Definition is_slash (c : ascii) : bool := Ascii.eqb c "/".

(** [s.rstrip("/")]: every trailing slash goes, not only one. *)
Definition rstrip_slash (s : string) : string := rstrip_chars is_slash s.

(** [s.startswith(pre)] *)
Fixpoint startswith (s pre : string) {struct pre} : bool :=
  match pre with
  | EmptyString => true
  | String p pre' =>
      match s with
      | EmptyString => false
      | String c s' => Ascii.eqb c p && startswith s' pre'
      end
  end.

(** [pat in s] *)
Fixpoint contains (s pat : string) : bool :=
  startswith s pat
  || match s with
     | EmptyString => false
     | String _ s' => contains s' pat
     end.

(** [s[n:]] for [0 <= n] *)
Fixpoint drop (n : nat) (s : string) : string :=
  match n, s with
  | O, _ => s
  | S _, EmptyString => EmptyString
  | S n', String _ s' => drop n' s'
  end.

(** [s[:n]] for [0 <= n] *)
Fixpoint take (n : nat) (s : string) : string :=
  match n, s with
  | O, _ => EmptyString
  | S _, EmptyString => EmptyString
  | S n', String c s' => String c (take n' s')
  end.

(** [s[-n:]] for [0 < n] *)
Definition take_last (n : nat) (s : string) : string :=
  drop (String.length s - n) s.

(** [s.replace(old, new)] for a non-empty [old] (it is a literal at every
    call site): scan from the left, and at each occurrence of [old] emit
    [new] and resume after the occurrence. [skip] counts the characters of
    the current occurrence still to be passed over. *)
Fixpoint replace_from (old new : string) (skip : nat) (s : string) : string :=
  match s with
  | EmptyString => EmptyString
  | String c s' =>
      match skip with
      | S k => replace_from old new k s'
      | O =>
          if startswith s old
          then new ++ replace_from old new (String.length old - 1) s'
          else String c (replace_from old new 0 s')
      end
  end.

Definition replace (s old new : string) : string := replace_from old new 0 s.

(** [s.split(sep)] for a one-character separator: never the empty list,
    and a trailing separator yields a trailing empty piece. *)
Fixpoint split (sep : ascii) (s : string) : list string :=
  match s with
  | EmptyString => [EmptyString]
  | String c s' =>
      if Ascii.eqb c sep then EmptyString :: split sep s'
      else match split sep s' with
           | [] => [String c EmptyString]
           | piece :: rest => String c piece :: rest
           end
  end.

End PyStr.

(** ** pandas: cells and rows *)

Module Pandas.

(** A cell of a data frame read from CSV: missing ([NaN]), text, or another
    scalar (a number or a boolean), kept with the text [str()] gives. *)
Inductive cell : Type :=
| NaN
| Str (s : string)
| Other (text : string).

(** [pd.isna(v)] and [pd.notna(v)] on a scalar. *)
Definition isna (v : cell) : bool :=
  match v with NaN => true | _ => false end.

Definition notna (v : cell) : bool := negb (isna v).

(** [str(v)] for a cell that is not missing. *)
Definition str (v : cell) : string :=
  match v with
  | NaN => "nan"
  | Str s => s
  | Other t => t
  end.

(** A row ([pd.Series]): column name to cell. [row.get(k, d)] is
    [default d (row !! k)]; [row[k]] raises [KeyError] when [row !! k] is
    [None]. *)
Abbreviation Row := (gmap string cell).

Definition get (row : Row) (k : string) (d : cell) : cell :=
  default d (row !! k).

(** [row.get(k)], whose default is [None]; [pd.notna(None)] is false, so
    for the tests the core makes an absent column behaves like [NaN]. *)
Definition get_none (row : Row) (k : string) : cell :=
  default NaN (row !! k).

End Pandas.

(** ** Python dictionaries

    A [dict] keeps its keys in insertion order; assigning to a key that is
    present replaces the value where it stands, assigning to a new key
    appends. *)

Module PyDict.

Definition dict (V : Type) : Type := list (string * V).

(** [d.get(k)] *)
Fixpoint get {V : Type} (k : string) (d : dict V) : option V :=
  match d with
  | [] => None
  | (k', v) :: d' => if String.eqb k k' then Some v else get k d'
  end.

(** [d[k] = v] *)
Fixpoint set {V : Type} (k : string) (v : V) (d : dict V) : dict V :=
  match d with
  | [] => [(k, v)]
  | (k', v') :: d' =>
      if String.eqb k k' then (k', v) :: d' else (k', v') :: set k v d'
  end.

(** [list(d.keys())] and [list(d.values())] *)
Definition keys {V : Type} (d : dict V) : list string := map fst d.
Definition values {V : Type} (d : dict V) : list V := map snd d.

(** The counting loop [for k in ks: c[k] = c.get(k, 0) + 1], from [c]. *)
Fixpoint count_into (ks : list string) (c : dict Z) : dict Z :=
  match ks with
  | [] => c
  | k :: ks' => count_into ks' (set k (default 0 (get k c) + 1) c)
  end.

End PyDict.

(** ** networkx: the undirected simple graph [nx.Graph]

    Only the structure is kept (the builder reads nothing but the node and
    edge counts back from its graph): nodes in order of first appearance, and
    one edge per unordered pair of endpoints, parallel additions updating the
    edge that is there. A self-loop is one edge. *)

Module Nx.

Record Graph : Type := mkGraph {
  nodes : list string;
  edges : list (string * string)
}.

Definition empty : Graph := mkGraph [] [].

Definition has_node (g : Graph) (n : string) : bool :=
  existsb (String.eqb n) (nodes g).

Definition same_pair (u v : string) (e : string * string) : bool :=
  (String.eqb (fst e) u && String.eqb (snd e) v)
  || (String.eqb (fst e) v && String.eqb (snd e) u).

Definition has_edge (g : Graph) (u v : string) : bool :=
  existsb (same_pair u v) (edges g).

(** [G.add_node(n, **attr)] *)
Definition add_node (n : string) (g : Graph) : Graph :=
  if has_node g n then g else mkGraph (nodes g ++ [n]) (edges g).

(** [G.add_edge(u, v, **attr)] *)
Definition add_edge (u v : string) (g : Graph) : Graph :=
  let g1 := add_node v (add_node u g) in
  if has_edge g1 u v then g1 else mkGraph (nodes g1) (edges g1 ++ [(u, v)]).

(** The distinct unordered pairs among [ps], in order of first appearance:
    what [add_edge] leaves of a sequence of additions. *)
Fixpoint add_pairs (ps acc : list (string * string)) : list (string * string) :=
  match ps with
  | [] => acc
  | p :: ps' =>
      add_pairs ps'
        (if existsb (same_pair (fst p) (snd p)) acc then acc else acc ++ [p])
  end.

Definition distinct_pairs (ps : list (string * string)) : list (string * string) :=
  add_pairs ps [].

Definition number_of_nodes (g : Graph) : Z := Z.of_nat (length (nodes g)).
Definition number_of_edges (g : Graph) : Z := Z.of_nat (length (edges g)).

(** [nx.density(G)] for an undirected graph: [0] when there is no edge or at
    most one node, else [m / (n * (n - 1))] doubled. *)
Definition density (g : Graph) : Q :=
  let n := number_of_nodes g in
  let m := number_of_edges g in
  if (m =? 0) || (n <=? 1) then 0%Q
  else (inject_Z m / inject_Z (n * (n - 1)) * 2)%Q.

End Nx.

(** ** node_manager.py *)

Module NodeManager.

Import Pandas.

(** [NodeStyle] *)
Record NodeStyle : Type := mkNodeStyle {
  style_size : Z;
  style_color : string;
  style_stroke_color : string;
  style_stroke_width : Z;
  style_shape : string;
  style_label_size : Z;
  style_label_color : string;
  style_opacity : Q
}.

(** The ["style"] entry of a node's metadata. *)
Record StyleDict : Type := mkStyleDict {
  stroke_color : string;
  stroke_width : Z;
  label_size : Z;
  label_color : string;
  opacity : Q
}.

(** The metadata dictionary of a node, as [create_domain_node] and
    [create_crypto_node] build it. *)
Inductive Metadata : Type :=
| DomainMeta (domain_type : string)
    (ip_address screenshot url inreach_intel_summary discovery_method : cell)
    (style : StyleDict)
| CryptoMeta (chain full_address : string) (discovery_method : cell)
    (explorer_url : string) (style : StyleDict).

(** [NodeData] *)
Record NodeData : Type := mkNodeData {
  id : string;
  label : string;
  type : string;
  node_type : string;
  size : Z;
  color : string;
  shape : string;
  metadata : Metadata
}.

(** The manager's state: [self.nodes] and [self.node_counter]. *)
Record t : Type := mkManager {
  nodes : PyDict.dict NodeData;
  node_counter : Z
}.

(** [_initialize_node_styles] *)
Definition node_styles : PyDict.dict NodeStyle :=
  [ ("source_domain",
     mkNodeStyle 30 "#e74c3c" "#c0392b" 3 "circle" 16 "#2c3e50" (9 # 10));
    ("lookalike_domain",
     mkNodeStyle 25 "#3498db" "#2980b9" 2 "circle" 14 "#2c3e50" (8 # 10));
    ("same_ip_domain",
     mkNodeStyle 25 "#1abc9c" "#16a085" 2 "circle" 14 "#2c3e50" (8 # 10));
    ("btc_address",
     mkNodeStyle 35 "#f39c12" "#e67e22" 3 "square" 12 "#2c3e50" (9 # 10));
    ("eth_address",
     mkNodeStyle 30 "#9b59b6" "#8e44ad" 2 "circle" 12 "#2c3e50" (9 # 10));
    ("tron_address",
     mkNodeStyle 30 "#e74c3c" "#c0392b" 2 "triangle" 12 "#2c3e50" (9 # 10)) ].

(** [self.node_styles[k]] for a key of the table. *)
Definition style_of (k : string) : NodeStyle :=
  default (mkNodeStyle 20 "#666666" "#333333" 2 "circle" 14 "#333333" (8 # 10))
          (PyDict.get k node_styles).

(** [self.node_styles.get(k, self.node_styles[fallback])] *)
Definition style_or (k fallback : string) : NodeStyle :=
  default (style_of fallback) (PyDict.get k node_styles).

Definition style_dict (s : NodeStyle) : StyleDict :=
  mkStyleDict (style_stroke_color s) (style_stroke_width s)
              (style_label_size s) (style_label_color s) (style_opacity s).

(** [metadata.get(k, "")] on the dictionary a caller passes in. *)
Definition meta_get (metadata : gmap string cell) (k : string) : cell :=
  default (Str "") (metadata !! k).

Definition domain_label (domain_id : string) : string :=
  let label :=
    PyStr.replace
      (PyStr.replace (PyStr.replace domain_id "https://" "") "http://" "")
      "www." "" in
  if (25 <? Z.of_nat (String.length label))
  then PyStr.take 22 label ++ "..."
  else label.

(** [create_domain_node]: the new node, and the manager with the node stored
    under its id (over whatever was there). *)
Definition create_domain_node (domain_id domain_type : string)
    (metadata : gmap string cell) (self : t) : t * NodeData :=
  let style := style_or domain_type "source_domain" in
  let node :=
    mkNodeData domain_id (domain_label domain_id) "domain" domain_type
      (style_size style) (style_color style) (style_shape style)
      (DomainMeta domain_type
         (meta_get metadata "ip_address") (meta_get metadata "screenshot")
         (meta_get metadata "url") (meta_get metadata "inreach_intel_summary")
         (meta_get metadata "discovery_method") (style_dict style)) in
  (mkManager (PyDict.set domain_id node (nodes self)) (node_counter self), node).

Definition crypto_label (address : string) : string :=
  if (12 <? Z.of_nat (String.length address))
  then PyStr.take 6 address ++ "..." ++ PyStr.take_last 6 address
  else address.

(** [create_crypto_node], for a chain that is a string; on any other value
    [chain.lower()] raises (see [Builder.create_crypto_node]). *)
Definition create_crypto_node (address chain : string)
    (metadata : gmap string cell) (self : t) : t * NodeData :=
  let node_type := PyStr.lower chain ++ "_address" in
  let style := style_or node_type "btc_address" in
  let node :=
    mkNodeData address (crypto_label address) "crypto" node_type
      (style_size style) (style_color style) (style_shape style)
      (CryptoMeta chain address (meta_get metadata "discovery_method")
         ("https://alterya_rnd.alterya.io/explorer/" ++ chain ++ "/"
            ++ address ++ "/overview")
         (style_dict style)) in
  (mkManager (PyDict.set address node (nodes self)) (node_counter self), node).

(** [get_node] *)
Definition get_node (node_id : string) (self : t) : option NodeData :=
  PyDict.get node_id (nodes self).

(** [get_all_nodes] *)
Definition get_all_nodes (self : t) : list NodeData := PyDict.values (nodes self).

Definition get_domain_nodes (self : t) : list NodeData :=
  List.filter (fun n => String.eqb (type n) "domain") (get_all_nodes self).

Definition get_crypto_nodes (self : t) : list NodeData :=
  List.filter (fun n => String.eqb (type n) "crypto") (get_all_nodes self).

(** [export_nodes_for_d3]: the nodes in insertion order ([to_dict] only
    flattens a node and its metadata into one dictionary). *)
Definition export_nodes_for_d3 (self : t) : list NodeData := get_all_nodes self.

(** [get_node_statistics] *)
Record NodeStatistics : Type := mkNodeStatistics {
  total_nodes : Z;
  domain_nodes : Z;
  crypto_nodes : Z;
  by_type : PyDict.dict Z
}.

Definition get_node_statistics (self : t) : NodeStatistics :=
  mkNodeStatistics
    (Z.of_nat (length (nodes self)))
    (Z.of_nat (length (get_domain_nodes self)))
    (Z.of_nat (length (get_crypto_nodes self)))
    (PyDict.count_into (map node_type (get_all_nodes self)) []).

(** [clear_all_nodes] *)
Definition clear_all_nodes (self : t) : t := mkManager [] 0.

End NodeManager.

(** ** graph_builder.py *)

Module Builder.

Import Pandas.

(** The exceptions a row can raise: [row[k]] on an absent column, and a method
    call on a value that has no such method. *)
Inductive exn : Type :=
| KeyError (key : string)
| AttributeError (attribute : string).

Inductive result (A : Type) : Type :=
| Ok (a : A)
| Raised (e : exn).

Arguments Ok {A} a.
Arguments Raised {A} e.

(** An entry of [self.edges]; ["chain"] is a key of crypto edges only, and
    holds whatever [row.get("chain", "BTC")] gave. *)
Record Edge : Type := mkEdge {
  source : string;
  target : string;
  type : string;
  chain : option cell;
  discovery_method : cell;
  color : string
}.

(** [DomainNetworkBuilder]'s attributes. *)
Record t : Type := mkBuilder {
  graph : Nx.Graph;
  node_manager : NodeManager.t;
  edges : list Edge;
  processed_rows : Z;
  skipped_rows : Z
}.

Definition init : t := mkBuilder Nx.empty (NodeManager.mkManager [] 0) [] 0 0.

(** A method of the builder: it may change the attributes, and it returns or
    raises. Whatever it changed before raising stays changed. *)
Definition M (A : Type) : Type := t -> t * result A.

Definition ret {A : Type} (a : A) : M A := fun self => (self, Ok a).

Definition raise {A : Type} (e : exn) : M A := fun self => (self, Raised e).

Definition bind {A B : Type} (m : M A) (k : A -> M B) : M B :=
  fun self =>
    match m self with
    | (self', Ok a) => k a self'
    | (self', Raised e) => (self', Raised e)
    end.

Declare Scope builder_scope.
Delimit Scope builder_scope with builder.
Notation "x <- m ;; k" := (bind m (fun x => k))
  (at level 89, m at level 88, k at level 89, right associativity) : builder_scope.
Notation "m ;;; k" := (bind m (fun _ => k))
  (at level 89, k at level 89, right associativity) : builder_scope.
Local Open Scope builder_scope.

(** [for x in xs: body(x)] *)
Fixpoint for_each {A : Type} (xs : list A) (body : A -> M unit) : M unit :=
  match xs with
  | [] => ret tt
  | x :: xs' => body x ;;; for_each xs' body
  end.

(** [row[k]] *)
Definition getitem (row : Row) (k : string) : M cell :=
  match row !! k with
  | Some v => ret v
  | None => raise (KeyError k)
  end.

(** [_normalize_domain] *)
Definition _normalize_domain (domain : cell) : string :=
  if isna domain then ""
  else
    let domain := PyStr.lower (PyStr.strip (str domain)) in
    let domain := PyStr.replace (PyStr.replace domain "https://" "") "http://" "" in
    let domain := if PyStr.startswith domain "www." then PyStr.drop 4 domain else domain in
    PyStr.rstrip_slash domain.

(** [_parse_domain_list] *)
Definition _parse_domain_list (domain_string : cell) : list string :=
  if isna domain_string then []
  else
    List.filter (fun normalized => negb (PyStr.is_empty normalized))
      (map (fun domain => _normalize_domain (Str (PyStr.strip domain)))
           (PyStr.split "," (str domain_string))).

(** [_parse_crypto_list] *)
Definition _parse_crypto_list (crypto_string : cell) : list string :=
  if isna crypto_string then []
  else
    List.filter (fun address => negb (PyStr.is_empty address))
      (map PyStr.strip (PyStr.split "," (str crypto_string))).

(** [_get_edge_color] *)
Definition _get_edge_color (edge_type : string) : string :=
  default "#95a5a6"
    (PyDict.get edge_type
       [ ("lookalike_domain", "#3498db");
         ("same_ip_domain", "#f39c12");
         ("domain_to_crypto", "#e74c3c") ]).

Definition with_manager (self : t) (nm : NodeManager.t) : t :=
  mkBuilder (graph self) nm (edges self) (processed_rows self) (skipped_rows self).

(** [_create_or_get_domain_node]. A [NodeData] is always true in a test, so
    [if existing_node] asks whether the key is there. *)
Definition _create_or_get_domain_node (domain domain_type : string)
    (metadata : gmap string cell) : M NodeManager.NodeData :=
  fun self =>
    match NodeManager.get_node domain (node_manager self) with
    | Some existing_node => (self, Ok existing_node)
    | None =>
        let '(nm, node) :=
          NodeManager.create_domain_node domain domain_type metadata
            (node_manager self) in
        (with_manager self nm, Ok node)
    end.

(** [self.node_manager.create_crypto_node(address, chain, metadata)]: its
    first statement, [chain.lower()], raises unless [chain] is a string. *)
Definition create_crypto_node (address : string) (chain : cell)
    (metadata : gmap string cell) : M NodeManager.NodeData :=
  fun self =>
    match chain with
    | Str c =>
        let '(nm, node) :=
          NodeManager.create_crypto_node address c metadata (node_manager self) in
        (with_manager self nm, Ok node)
    | _ => (self, Raised (AttributeError "lower"))
    end.

(** [_create_or_get_crypto_node] *)
Definition _create_or_get_crypto_node (address : string) (chain : cell)
    (metadata : gmap string cell) : M NodeManager.NodeData :=
  fun self =>
    match NodeManager.get_node address (node_manager self) with
    | Some existing_node => (self, Ok existing_node)
    | None => create_crypto_node address chain metadata self
    end.

(** [self.edges.append(edge)] followed by [self.graph.add_edge(u, v, **edge)] *)
Definition append_edge (edge : Edge) : M unit :=
  fun self =>
    (mkBuilder (Nx.add_edge (source edge) (target edge) (graph self))
       (node_manager self) (edges self ++ [edge])
       (processed_rows self) (skipped_rows self),
     Ok tt).

(** The metadata dictionary both domain paths pass to the manager. *)
Definition domain_metadata (row : Row) (url : string) : gmap string cell :=
  {[ "ip_address" := get row "IPs" (Str "");
     "screenshot" := get row "screenshot" (Str "");
     "url" := Str url;
     "inreach_intel_summary" := get row "inreach_intel_summary" (Str "");
     "discovery_method" := get row "discovery_method" (Str "") ]}.

(** [_create_domain_relationship] *)
Definition _create_domain_relationship (source_domain target_domain
    relationship_type : string) (row : Row) : M unit :=
  let target_domain := _normalize_domain (Str target_domain) in
  if PyStr.is_empty target_domain || String.eqb target_domain source_domain
  then ret tt
  else
    _create_or_get_domain_node target_domain relationship_type
      (domain_metadata row target_domain) ;;;
    append_edge
      (mkEdge source_domain target_domain relationship_type None
         (get row "discovery_method" (Str ""))
         (_get_edge_color relationship_type)).

(** [_create_crypto_relationship] *)
Definition _create_crypto_relationship (source_domain crypto_address : string)
    (chain : cell) (row : Row) : M unit :=
  if PyStr.is_empty crypto_address then ret tt
  else
    _create_or_get_crypto_node crypto_address chain
      {[ "discovery_method" := get row "discovery_method" (Str "");
         "source_domain" := Str source_domain ]} ;;;
    append_edge
      (mkEdge source_domain crypto_address "domain_to_crypto" (Some chain)
         (get row "discovery_method" (Str ""))
         (_get_edge_color "domain_to_crypto")).

(** The two domain columns of [_process_row] share their shape. *)
Definition process_domain_column (source_domain column : string) (row : Row)
    : M unit :=
  if notna (get_none row column) then
    domains <- getitem row column ;;
    for_each (_parse_domain_list domains)
      (fun domain => _create_domain_relationship source_domain domain column row)
  else ret tt.

(** The crypto column of [_process_row]. *)
Definition process_crypto_column (source_domain : string) (row : Row) : M unit :=
  if notna (get_none row "crypto_address") then
    addresses <- getitem row "crypto_address" ;;
    let chain := get row "chain" (Str "BTC") in
    for_each (_parse_crypto_list addresses)
      (fun address => _create_crypto_relationship source_domain address chain row)
  else ret tt.

(** [_process_row] *)
Definition _process_row (row : Row) : M unit :=
  raw <- getitem row "source_domain" ;;
  let source_domain := _normalize_domain raw in
  if PyStr.is_empty source_domain then ret tt
  else
    _create_or_get_domain_node source_domain "source_domain"
      (domain_metadata row source_domain) ;;;
    process_domain_column source_domain "lookalike_domain" row ;;;
    process_domain_column source_domain "same_ip_domain" row ;;;
    process_crypto_column source_domain row.

Definition with_counts (self : t) (processed skipped : Z) : t :=
  mkBuilder (graph self) (node_manager self) (edges self) processed skipped.

(** One turn of [build_graph]'s loop: the [try] around [_process_row]. *)
Definition process_one (row : Row) (self : t) : t :=
  match _process_row row self with
  | (self', Ok _) =>
      with_counts self' (processed_rows self' + 1) (skipped_rows self')
  | (self', Raised _) =>
      with_counts self' (processed_rows self') (skipped_rows self' + 1)
  end.

(** [for index, row in df.iterrows(): ...] *)
Definition process_rows (df : list Row) (self : t) : t :=
  fold_left (fun self row => process_one row self) df self.

(** The statements of [build_graph] under "Clear previous data". *)
Definition clear (self : t) : t :=
  mkBuilder Nx.empty (NodeManager.clear_all_nodes (node_manager self)) [] 0 0.

(** [_add_node_attributes_to_graph] *)
Definition _add_node_attributes_to_graph (self : t) : t :=
  mkBuilder
    (fold_left (fun g node => Nx.add_node (NodeManager.id node) g)
       (NodeManager.get_all_nodes (node_manager self)) (graph self))
    (node_manager self) (edges self) (processed_rows self) (skipped_rows self).

(** The dictionary [_generate_statistics] returns. *)
Record Statistics : Type := mkStatistics {
  stat_nodes : Z;
  stat_edges : Z;
  stat_processed_rows : Z;
  stat_skipped_rows : Z;
  node_breakdown : PyDict.dict Z;
  edge_breakdown : PyDict.dict Z;
  network_density : Q
}.

(** [_generate_statistics] *)
Definition _generate_statistics (self : t) : Statistics :=
  let node_stats := NodeManager.get_node_statistics (node_manager self) in
  mkStatistics
    (NodeManager.total_nodes node_stats)
    (Z.of_nat (length (edges self)))
    (processed_rows self)
    (skipped_rows self)
    (NodeManager.by_type node_stats)
    (PyDict.count_into (map type (edges self)) [])
    (if Nx.number_of_nodes (graph self) >? 0 then Nx.density (graph self) else 0%Q).

(** The endpoints of an edge record. *)
Definition endpoints (e : Edge) : string * string := (source e, target e).

(** What [build_graph] returns. *)
Record Snapshot : Type := mkSnapshot {
  nodes : list NodeManager.NodeData;
  links : list Edge;
  statistics : Statistics
}.

(** The builder as [build_graph] leaves it. *)
Definition built (df : list Row) (self : t) : t :=
  _add_node_attributes_to_graph (process_rows df (clear self)).

(** [build_graph] *)
Definition build_graph (df : list Row) (self : t) : t * Snapshot :=
  let self := built df self in
  (self,
   mkSnapshot (NodeManager.export_nodes_for_d3 (node_manager self))
     (edges self) (_generate_statistics self)).

End Builder.

(** ** unified_html_generator.py: the size-bounded selector *)

Module Selector.

(** A node of [graph_data["nodes"]], by the attributes the selector reads.
    [None] stands for an absent key; the values are strings in every graph
    the builder produces. The other attributes are carried along untouched. *)
Record node : Type := mkNode {
  id : string;
  type : option string;
  node_type : option string;
  domain_type : option string
}.

(** An endpoint of a link: a node id, or a node dictionary (as the renderer's
    layout leaves it) of which ["id"] is read. *)
Inductive endpoint : Type :=
| EpStr (s : string)
| EpNode (n : node).

Record link : Type := mkLink {
  source : endpoint;
  target : endpoint;
  link_type : option string
}.

Record graph_data : Type := mkGraphData {
  nodes : list node;
  links : list link
}.

(** Python's truth value of [d.get(k)] for a string-valued key. *)
Definition truthy (v : option string) : bool :=
  match v with
  | Some s => negb (PyStr.is_empty s)
  | None => false
  end.

(** [node.get("domain_type") or node.get("node_type", "")] *)
Definition role (n : node) : string :=
  if truthy (domain_type n) then default "" (domain_type n)
  else default "" (node_type n).

(** The test chain of the classification loop: source domains, crypto
    addresses and lookalike domains are priority nodes. *)
Definition is_priority (n : node) : bool :=
  let domain_type := role n in
  let node_type := default "" (type n) in
  if String.eqb domain_type "source_domain" then true
  else if String.eqb node_type "crypto" then true
  else if String.eqb domain_type "lookalike_domain" then true
  else false.

(** The classification loop: [(priority_nodes, other_nodes)], each in the
    order of the input. *)
Fixpoint classify (ns : list node) : list node * list node :=
  match ns with
  | [] => ([], [])
  | n :: ns' =>
      let '(priority_nodes, other_nodes) := classify ns' in
      if is_priority n then (n :: priority_nodes, other_nodes)
      else (priority_nodes, n :: other_nodes)
  end.

(** [l[::step]] for [step >= 1]: the elements at 0, step, 2*step, ...
    [wait] is the number of elements to pass over before the next pick. *)
Fixpoint every_from {A : Type} (step wait : nat) (l : list A) : list A :=
  match l with
  | [] => []
  | x :: l' =>
      match wait with
      | O => x :: every_from step (step - 1) l'
      | S w => every_from step w l'
      end
  end.

Definition slice_step {A : Type} (step : Z) (l : list A) : list A :=
  every_from (Z.to_nat step) 0 l.

Definition is_same_ip (n : node) : bool :=
  match domain_type n with
  | Some d => String.eqb d "same_ip_domain"
  | None => false
  end.

(** [target_same_ip] *)
Definition target_same_ip (count : Z) : Z :=
  if count >? 2000 then 1000 else 1200.

(** [sample_rate] *)
Definition sample_rate (count : Z) : Z :=
  Z.max 1 (count / target_same_ip count).

(** [selected_nodes] *)
Definition select_nodes (ns : list node) : list node :=
  let '(priority_nodes, other_nodes) := classify ns in
  if Z.of_nat (length other_nodes) >? 1500 then
    let same_ip_nodes := List.filter is_same_ip other_nodes in
    let selected_same_ip :=
      slice_step (sample_rate (Z.of_nat (length same_ip_nodes))) same_ip_nodes in
    priority_nodes ++ selected_same_ip
  else priority_nodes ++ other_nodes.

(** [link[k] if isinstance(link[k], str) else link[k]["id"]] *)
Definition endpoint_id (e : endpoint) : string :=
  match e with
  | EpStr s => s
  | EpNode n => id n
  end.

(** [{n["id"] for n in selected_nodes}] *)
Definition node_id_set (selected_nodes : list node) : gset string :=
  list_to_set (map id selected_nodes).

(** The link loop. *)
Definition filter_links (node_ids : gset string) (ls : list link) : list link :=
  List.filter
    (fun l => bool_decide (endpoint_id (source l) ∈ node_ids)
              && bool_decide (endpoint_id (target l) ∈ node_ids))
    ls.

(** The stride in the specification's words, [ceil(count / target)], to set
    beside [sample_rate]. *)
Definition ceil_stride (count target : Z) : Z := (count + target - 1) / target.

Definition is_lookalike (n : node) : bool := String.eqb (role n) "lookalike_domain".

(** [_smart_optimize_network] *)
Definition _smart_optimize_network (g : graph_data) : graph_data :=
  let selected_nodes := select_nodes (nodes g) in
  let node_ids := node_id_set selected_nodes in
  mkGraphData selected_nodes (filter_links node_ids (links g)).

(** [optimized_data] in [create_html]: the selector runs on more than 1000
    nodes, and smaller graphs pass as they are. *)
Definition optimized_data (g : graph_data) : graph_data :=
  if Z.of_nat (length (nodes g)) >? 1000 then _smart_optimize_network g else g.

End Selector.

(** ** Sample inputs *)

Module Samples.

Import Selector.

Definition decimal (n : nat) : string := NilEmpty.string_of_uint (Nat.to_uint n).

Definition source_node : node :=
  mkNode "shop.example" (Some "domain") (Some "source_domain") (Some "source_domain").

Definition crypto_node : node :=
  mkNode "1A2b3C" (Some "crypto") (Some "btc_address") None.

Definition lookalike_node (i : nat) : node :=
  mkNode ("shop-" ++ decimal i ++ ".example")
    (Some "domain") (Some "lookalike_domain") (Some "lookalike_domain").

Definition same_ip_node (i : nat) : node :=
  mkNode ("host" ++ decimal i ++ ".example")
    (Some "domain") (Some "same_ip_domain") (Some "same_ip_domain").

Definition link_source_crypto : link :=
  mkLink (EpStr "shop.example") (EpStr "1A2b3C") (Some "domain_to_crypto").

Definition link_source_host0 : link :=
  mkLink (EpStr "shop.example") (EpNode (same_ip_node 0)) (Some "same_ip_domain").

(** One source, one address and 999 same-IP hosts: 1001 nodes. *)
Definition graph_1001 : graph_data :=
  mkGraphData
    (source_node :: crypto_node :: map same_ip_node (seq 0 999))
    [link_source_crypto; link_source_host0].

(** One source, one address, 101 lookalikes and 1501 same-IP hosts. *)
Definition nodes_1604 : list node :=
  source_node :: crypto_node
  :: map lookalike_node (seq 0 101) ++ map same_ip_node (seq 0 1501).

Definition graph_1604 : graph_data := mkGraphData nodes_1604 [].

(** One source and 4001 same-IP hosts. *)
Definition nodes_4002 : list node :=
  source_node :: map same_ip_node (seq 0 4001).

Definition graph_4002 : graph_data := mkGraphData nodes_4002 [link_source_host0].

End Samples.

(** ** Sample rows *)

Module SampleRows.

Import Pandas.

(** The scenario of the specification. *)
Definition evil : Row :=
  {[ "source_domain" := Str "https://Evil.com/";
     "lookalike_domain" := Str "evil-2.com, evil3.com";
     "crypto_address" := Str "1A2b3C";
     "chain" := Str "BTC" ]}.

(** An address on a chain the style table knows, and one on a chain it does
    not know. *)
Definition eth_row : Row :=
  {[ "source_domain" := Str "pay.example";
     "crypto_address" := Str "0xAbC";
     "chain" := Str "ETH" ]}.

Definition sol_row : Row :=
  {[ "source_domain" := Str "pay.example";
     "crypto_address" := Str "So1";
     "chain" := Str "SOL" ]}.

(** No chain column at all. *)
Definition no_chain_row : Row :=
  {[ "source_domain" := Str "pay.example";
     "crypto_address" := Str "bc1q" ]}.

(** A lookalike and an address, the chain cell empty. *)
Definition missing_chain_row : Row :=
  {[ "source_domain" := Str "a.com";
     "lookalike_domain" := Str "b.com";
     "crypto_address" := Str "X1";
     "chain" := NaN ]}.


(** One lookalike of one source. *)
Definition pair_row : Row :=
  {[ "source_domain" := Str "a.com";
     "lookalike_domain" := Str "b.com" ]}.

(** An address spelled like its source domain. *)
Definition same_name_row : Row :=
  {[ "source_domain" := Str "abc";
     "crypto_address" := Str "abc" ]}.


End SampleRows.

(** ** Predicates on the builder's state *)

Module Spec.

Import Pandas Builder.

(** [hoare P m Q]: from a state in [P], method [m] ends in a state in [Q],
    whether it returns or raises. *)
Definition hoare {A : Type} (P : t -> Prop) (m : M A) (Q : t -> Prop) : Prop :=
  forall self, P self -> Q (fst (m self)).

(** Properties that do not look at the row counters. *)
Definition counter_free (I : t -> Prop) : Prop :=
  forall self p s, I self -> I (with_counts self p s).


(** The node registry: [self.node_manager.nodes]. *)
Definition registry (self : t) : PyDict.dict NodeManager.NodeData :=
  NodeManager.nodes (node_manager self).

(** [self'] is [self] with a new entity [node] registered under [k]. *)
Definition adds (k : string) (node : NodeManager.NodeData) (self self' : t) : Prop :=
  PyDict.get k (registry self) = None
  /\ self' = with_manager self
               (NodeManager.mkManager (PyDict.set k node (registry self))
                  (NodeManager.node_counter (node_manager self))).

(** Keys are pairwise distinct, and an entity is stored under its own id. *)
Definition registry_ok (self : t) : Prop :=
  List.NoDup (PyDict.keys (registry self))
  /\ forall k n, In (k, n) (registry self) -> NodeManager.id n = k.

(** The edge list and the networkx graph agree with the registry: every
    endpoint of an edge and every node of the graph is a registered key, the
    graph lists a node once, and its edges are the distinct unordered pairs of
    the edge list. *)
Definition graph_ok (self : t) : Prop :=
  (forall e, In e (edges self) ->
     In (source e) (PyDict.keys (registry self))
     /\ In (target e) (PyDict.keys (registry self)))
  /\ (forall n, In n (Nx.nodes (graph self)) -> In n (PyDict.keys (registry self)))
  /\ List.NoDup (Nx.nodes (graph self))
  /\ Nx.edges (graph self) = Nx.distinct_pairs (map endpoints (edges self)).

(** [k] is a key of the registry. *)
Definition has_key (k : string) (self : t) : Prop :=
  In k (PyDict.keys (registry self)).

(** The entities of a node list that carry the id [k]. *)
Definition entities_with_id (k : string) (ns : list NodeManager.NodeData)
    : list NodeManager.NodeData :=
  List.filter (fun n => String.eqb (NodeManager.id n) k) ns.

(** The chain column of the row is absent or holds a string. *)
Definition chain_usable (row : Row) : Prop :=
  row !! "chain" = None \/ exists c, row !! "chain" = Some (Str c).

(** The edges without a chain tag, which are the domain-to-domain edges, join
    two different identities. *)
Definition domain_edges_proper (self : t) : Prop :=
  forall e, In e (edges self) -> chain e = None -> source e <> target e.

(** No two of the pairs join the same two endpoints. *)
Definition no_parallel (ps : list (string * string)) : Prop :=
  ForallOrdPairs (fun p q => Nx.same_pair (fst p) (snd p) q = false) ps.

(** [new] has every entity of [old], unchanged and under the same key, and
    every edge of [old], in the same place. *)
Definition extends (old new : t) : Prop :=
  (forall k n,
     PyDict.get k (registry old) = Some n -> PyDict.get k (registry new) = Some n)
  /\ exists later, edges new = (edges old ++ later)%list.

(** The row counters stand at [p] and [s]. *)
Definition counts_are (p s : Z) (self : t) : Prop :=
  processed_rows self = p /\ skipped_rows self = s.

(** The chain of a crypto entity, from its metadata. *)
Definition node_chain (n : NodeManager.NodeData) : option string :=
  match NodeManager.metadata n with
  | NodeManager.CryptoMeta chain _ _ _ _ => Some chain
  | NodeManager.DomainMeta _ _ _ _ _ _ _ => None
  end.

Definition node_style_dict (n : NodeManager.NodeData) : NodeManager.StyleDict :=
  match NodeManager.metadata n with
  | NodeManager.CryptoMeta _ _ _ _ style => style
  | NodeManager.DomainMeta _ _ _ _ _ _ style => style
  end.

(** The node is drawn in style [st]. *)
Definition styled_by (st : NodeManager.NodeStyle) (n : NodeManager.NodeData) : Prop :=
  NodeManager.size n = NodeManager.style_size st
  /\ NodeManager.color n = NodeManager.style_color st
  /\ NodeManager.shape n = NodeManager.style_shape st
  /\ node_style_dict n = NodeManager.style_dict st.

(** The crypto entity [n] is as a row with chain field [chain] makes it. *)
Definition crypto_entity_of (chain : string) (n : NodeManager.NodeData) : Prop :=
  node_chain n = Some chain
  /\ NodeManager.node_type n = PyStr.lower chain ++ "_address"
  /\ styled_by
       (match PyDict.get (PyStr.lower chain ++ "_address") NodeManager.node_styles with
        | Some st => st
        | None => NodeManager.style_of "btc_address"
        end) n.


End Spec.

(** ** Shapes of strings *)

Module Shape.

(** Every character of [s] satisfies [p]. *)
Fixpoint all_chars (p : ascii -> bool) (s : string) : bool :=
  match s with
  | EmptyString => true
  | String c s' => p c && all_chars p s'
  end.

(** No comma occurs in [s]. *)
Definition comma_free (s : string) : bool :=
  all_chars (fun c => negb (Ascii.eqb c ",")) s.

End Shape.

(** ** Outcomes of a method *)

Module Outcome.

Import Builder.

(** The method returns from [self]. *)
Definition returns {A : Type} (m : M A) (self : t) : Prop :=
  exists a, snd (m self) = Ok a.

(** Whatever the method raises, from whatever state, satisfies [E]. *)
Definition raises_only {A : Type} (E : exn -> Prop) (m : M A) : Prop :=
  forall self e, snd (m self) = Raised e -> E e.

End Outcome.

(** ** pandas: data frames, and [clean_data] of graph_builder.py *)

Module Frame.

Import Pandas.

(** A data frame: its column labels, and its rows in index order. A row holds
    a cell for each column ([get_none row k] reads it). *)
Record DataFrame : Type := mkDataFrame {
  columns : list string;
  rows : list Row
}.

(** [df.dropna(subset=...)] returns a frame, or raises [KeyError] with the
    labels of [subset] that are not columns. *)
Inductive outcome : Type :=
| Ok (df : DataFrame)
| KeyError (labels : list string).

Definition has_column (df : DataFrame) (k : string) : bool :=
  existsb (String.eqb k) (columns df).

Definition missing (subset : list string) (df : DataFrame) : list string :=
  List.filter (fun k => negb (has_column df k)) subset.

(** The [how] argument: drop a row when any, or when all, of the cells under
    [subset] are missing. *)
Inductive how : Type :=
| any
| all.

(** The rows [dropna] keeps. *)
Definition keeps (h : how) (subset : list string) (row : Row) : bool :=
  match h with
  | any => forallb (fun k => notna (get_none row k)) subset
  | all => existsb (fun k => notna (get_none row k)) subset
  end.

(** [df.dropna(subset=subset, how=h)] *)
Definition dropna (subset : list string) (h : how) (df : DataFrame) : outcome :=
  match missing subset df with
  | [] => Ok (mkDataFrame (columns df) (List.filter (keeps h subset) (rows df)))
  | labels => KeyError labels
  end.

Definition key_columns : list string :=
  ["lookalike_domain"; "same_ip_domain"; "crypto_address"].

(** [clean_data] *)
Definition clean_data (df : DataFrame) : outcome :=
  match dropna ["source_domain"] any df with
  | Ok df => dropna key_columns all df
  | KeyError labels => KeyError labels
  end.

(** The test both [dropna] calls of [clean_data] amount to on one row. *)
Definition is_clean (row : Row) : bool :=
  notna (get_none row "source_domain")
  && (notna (get_none row "lookalike_domain")
      || notna (get_none row "same_ip_domain")
      || notna (get_none row "crypto_address")).

End Frame.

(** ** node_manager.py: queries *)

Module NodeQueries.

Import NodeManager.

(** [get_nodes_by_type] *)
Definition get_nodes_by_type (node_type : string) (self : t) : list NodeData :=
  List.filter (fun node => String.eqb (NodeManager.node_type node) node_type)
    (get_all_nodes self).

(** [sum(d.values())] *)
Definition total (d : PyDict.dict Z) : Z :=
  fold_right Z.add 0 (PyDict.values d).

(** The number of times [k] occurs in [ks]. *)
Definition occurrences (k : string) (ks : list string) : Z :=
  Z.of_nat (length (List.filter (String.eqb k) ks)).

(** The entry a counting loop leaves for a key it met [n] times: none when
    it never met the key. *)
Definition counted (n : Z) : option Z := if n =? 0 then None else Some n.

End NodeQueries.

(** ** Entities and edges as the builder makes them *)

Module Entity.

Import Pandas NodeManager.

Definition is_domain_role (r : string) : bool :=
  String.eqb r "source_domain" || String.eqb r "lookalike_domain"
  || String.eqb r "same_ip_domain".

(** The id is a key [_normalize_domain] gives: not empty, in lower case, no
    slash at its end. *)
Definition domain_key (k : string) : Prop :=
  PyStr.is_empty k = false /\ PyStr.lower k = k /\ PyStr.rstrip_slash k = k.

(** The id is an entry of [_parse_crypto_list]: not empty, no blank at
    either end, no comma. *)
Definition crypto_key (k : string) : Prop :=
  PyStr.is_empty k = false /\ PyStr.strip k = k /\ Shape.comma_free k = true.

(** A domain entity: its role is one of the three domain roles and fixes its
    style, its metadata repeat the role and give the id as URL. *)
Definition domain_entity (n : NodeData) : Prop :=
  type n = "domain"
  /\ is_domain_role (node_type n) = true
  /\ label n = domain_label (id n)
  /\ Spec.styled_by (style_of (node_type n)) n
  /\ domain_key (id n)
  /\ exists ip_address screenshot summary discovery_method style,
       metadata n
       = DomainMeta (node_type n) ip_address screenshot (Str (id n)) summary
           discovery_method style.

(** A crypto entity of some chain: its metadata give the id as full
    address and the explorer page of the chain and address. *)
Definition crypto_entity (n : NodeData) : Prop :=
  type n = "crypto"
  /\ label n = crypto_label (id n)
  /\ crypto_key (id n)
  /\ exists chain discovery_method style,
       Spec.crypto_entity_of chain n
       /\ metadata n
          = CryptoMeta chain (id n) discovery_method
              ("https://alterya_rnd.alterya.io/explorer/" ++ chain ++ "/"
                 ++ id n ++ "/overview")
              style.

Definition entity (n : NodeData) : Prop := domain_entity n \/ crypto_entity n.

(** An edge record: a domain edge of one of the two relationship types,
    without a chain tag, or a crypto edge with one; coloured by its type. *)
Definition edge_shape (e : Builder.Edge) : Prop :=
  Builder.color e = Builder._get_edge_color (Builder.type e)
  /\ domain_key (Builder.source e)
  /\ ((Builder.chain e = None
       /\ (Builder.type e = "lookalike_domain"
           \/ Builder.type e = "same_ip_domain")
       /\ domain_key (Builder.target e))
      \/ ((exists c, Builder.chain e = Some c)
          /\ Builder.type e = "domain_to_crypto"
          /\ crypto_key (Builder.target e))).

(** Every registered entity and every recorded edge has these shapes. *)
Definition sound (self : Builder.t) : Prop :=
  (forall k n, In (k, n) (Spec.registry self) -> entity n)
  /\ (forall e, In e (Builder.edges self) -> edge_shape e).

End Entity.

(** ** unified_html_generator.py: the statistics of the page *)

Module HtmlStats.

Import Selector.

(** The dictionary [_calculate_stats] returns. *)
Record Stats : Type := mkStats {
  total_nodes : Z;
  total_links : Z;
  domain_nodes : Z;
  crypto_nodes : Z;
  node_counts : PyDict.dict Z;
  edge_counts : PyDict.dict Z
}.

(** [node.get("node_type") or node.get("domain_type") or
    node.get("type", "unknown")] *)
Definition node_key (n : node) : string :=
  if truthy (node_type n) then default "" (node_type n)
  else if truthy (domain_type n) then default "" (domain_type n)
  else default "unknown" (type n).

(** [node.get("type") == t] *)
Definition has_type (t : string) (n : node) : bool :=
  match type n with
  | Some s => String.eqb s t
  | None => false
  end.

(** [link.get("type", "unknown")] *)
Definition link_key (l : link) : string := default "unknown" (link_type l).

(** [_calculate_stats] *)
Definition _calculate_stats (g : graph_data) : Stats :=
  mkStats
    (Z.of_nat (length (nodes g)))
    (Z.of_nat (length (links g)))
    (Z.of_nat (length (List.filter (has_type "domain") (nodes g))))
    (Z.of_nat (length (List.filter (has_type "crypto") (nodes g))))
    (PyDict.count_into (map node_key (nodes g)) [])
    (PyDict.count_into (map link_key (links g)) []).

(** The statistics [create_html] passes to the template: those of the graph
    as it is written into the page. *)
Definition page_stats (g : graph_data) : Stats :=
  _calculate_stats (optimized_data g).

(** [is_large] in [create_html] *)
Definition is_large (g : graph_data) : bool :=
  total_nodes (page_stats g) >? 500.

End HtmlStats.

(** ** node_manager.py: [NodeData.to_dict] *)

Module NodeDict.

(** [to_dict], by the keys the selector reads: ["id"], ["type"] and
    ["node_type"] are fields of the node; ["domain_type"] comes from the
    metadata, which have it for a domain and not for an address (no key of
    the metadata repeats a field). *)
Definition to_dict (n : NodeManager.NodeData) : Selector.node :=
  Selector.mkNode (NodeManager.id n)
    (Some (NodeManager.type n))
    (Some (NodeManager.node_type n))
    (match NodeManager.metadata n with
     | NodeManager.DomainMeta domain_type _ _ _ _ _ _ => Some domain_type
     | NodeManager.CryptoMeta _ _ _ _ _ => None
     end).

End NodeDict.

(** ** The links of a row, as a function of the row alone *)

Module RowLinks.

Import Pandas Builder.

(** The edge [_create_domain_relationship] records for one entry of a domain
    list, if it records one. *)
Definition domain_link (source_domain relationship_type : string) (row : Row)
    (target_domain : string) : list Edge :=
  let target_domain := _normalize_domain (Str target_domain) in
  if PyStr.is_empty target_domain || String.eqb target_domain source_domain
  then []
  else [mkEdge source_domain target_domain relationship_type None
          (get row "discovery_method" (Str ""))
          (_get_edge_color relationship_type)].

(** The edge [_create_crypto_relationship] records for one address. *)
Definition crypto_link (source_domain : string) (row : Row) (address : string)
    : list Edge :=
  if PyStr.is_empty address then []
  else [mkEdge source_domain address "domain_to_crypto"
          (Some (get row "chain" (Str "BTC")))
          (get row "discovery_method" (Str ""))
          (_get_edge_color "domain_to_crypto")].

Definition domain_links (source_domain column : string) (row : Row) : list Edge :=
  flat_map (domain_link source_domain column row)
    (_parse_domain_list (get_none row column)).

Definition crypto_links (source_domain : string) (row : Row) : list Edge :=
  flat_map (crypto_link source_domain row)
    (_parse_crypto_list (get_none row "crypto_address")).

(** The edges of a row, in the order [_process_row] visits its columns. *)
Definition row_links (row : Row) : list Edge :=
  let source_domain := _normalize_domain (get_none row "source_domain") in
  if PyStr.is_empty source_domain then []
  else
    (domain_links source_domain "lookalike_domain" row
     ++ domain_links source_domain "same_ip_domain" row
     ++ crypto_links source_domain row)%list.

End RowLinks.

(** ** The keys of a row, as a function of the row alone *)

Module RowKeys.

Import Pandas Builder.

(** Registering [k] in a list of keys: nothing if it is there, else at the
    end. *)
Definition add_key (ks : list string) (k : string) : list string :=
  if existsb (String.eqb k) ks then ks else (ks ++ [k])%list.

(** The keys a row asks the registry for, in the order [_process_row] asks:
    its source, then the target of each of its links. *)
Definition row_keys (row : Row) : list string :=
  let source_domain := _normalize_domain (get_none row "source_domain") in
  if PyStr.is_empty source_domain then []
  else source_domain :: map target (RowLinks.row_links row).

(** The distinct keys of a list, in the order of their first appearance. *)
Definition first_appearances (ks : list string) : list string :=
  fold_left add_key ks [].

End RowKeys.

(** ** Sample frames *)

Module SampleFrames.

Import Pandas Frame.

Definition labels : list string :=
  ["source_domain"; "lookalike_domain"; "same_ip_domain"; "crypto_address";
   "chain"].

(** A row with a cell under each of the five columns. *)
Definition record (source_domain lookalike_domain same_ip_domain crypto_address
    chain : cell) : Row :=
  {[ "source_domain" := source_domain;
     "lookalike_domain" := lookalike_domain;
     "same_ip_domain" := same_ip_domain;
     "crypto_address" := crypto_address;
     "chain" := chain ]}.

Definition complete : Row :=
  record (Str "https://Evil.com/") (Str "evil-2.com, evil3.com") NaN
    (Str "1A2b3C") (Str "BTC").

(** No source. *)
Definition orphan : Row :=
  record NaN (Str "x.com") NaN NaN (Str "BTC").

(** A source and nothing else. *)
Definition lonely : Row :=
  record (Str "lonely.com") NaN NaN NaN (Str "BTC").

Definition raw : DataFrame := mkDataFrame labels [orphan; complete; lonely].

Definition cleaned : DataFrame := mkDataFrame labels [complete].

(** A frame without the crypto columns. *)
Definition domains_only : DataFrame :=
  mkDataFrame ["source_domain"; "lookalike_domain"] [SampleRows.pair_row].

End SampleFrames.

(* ================================================================== *)
(** * Part II: properties *)
(* ================================================================== *)

(** ** Strings *)

#[local] Arguments String.append !_ _ / : simpl nomatch.

Section StringFacts.

Import PyStr.

Lemma append_cons (x : ascii) (a b : string) :
  String x a ++ b = String x (a ++ b).
Proof. reflexivity. Qed.

Lemma append_assoc (a b c : string) : (a ++ b) ++ c = a ++ (b ++ c).
Proof.
  induction a as [|x a IH]; [reflexivity|].
  now rewrite !append_cons, IH.
Qed.

Lemma lower_app (a b : string) : lower (a ++ b) = lower a ++ lower b.
Proof.
  induction a as [|c a IH]; simpl; [reflexivity | now rewrite IH].
Qed.

(** A last character outside [p] protects the whole string. *)
Lemma rstrip_chars_keep (p : ascii -> bool) (s : string) (c : ascii) :
  p c = false ->
  rstrip_chars p (s ++ String c "") = s ++ String c "".
Proof.
  intros Hc. induction s as [|a s IH]; simpl.
  - now rewrite Hc.
  - rewrite IH. destruct s; reflexivity.
Qed.

(** A last character inside [p] goes, and stripping continues. *)
Lemma rstrip_chars_snoc (p : ascii -> bool) (s : string) (c : ascii) :
  p c = true ->
  rstrip_chars p (s ++ String c "") = rstrip_chars p s.
Proof.
  intros Hc. induction s as [|a s IH]; simpl.
  - now rewrite Hc.
  - now rewrite IH.
Qed.

Lemma startswith_app (s t pre : string) :
  startswith s pre = true -> startswith (s ++ t) pre = true.
Proof.
  revert s. induction pre as [|p pre IH]; intros s H; [reflexivity|].
  destruct s as [|c s]; simpl in *; [discriminate|].
  apply andb_prop in H as [H1 H2]. rewrite H1. simpl. now apply IH.
Qed.

Lemma contains_app (s t pat : string) :
  contains s pat = true -> contains (s ++ t) pat = true.
Proof.
  induction s as [|c s IH]; intros H.
  - simpl in H. rewrite orb_false_r in H.
    destruct pat; [|discriminate]. destruct t; reflexivity.
  - change (String c s ++ t) with (String c (s ++ t)).
    cbn [contains] in *. apply orb_prop in H as [H | H].
    + pose proof (startswith_app _ t _ H) as H'.
      change (String c s ++ t) with (String c (s ++ t)) in H'.
      now rewrite H'.
    + rewrite (IH H). apply orb_true_r.
Qed.

Lemma contains_tail (c : ascii) (s pat : string) :
  contains s pat = true -> contains (String c s) pat = true.
Proof.
  intros H. cbn [contains]. rewrite H. apply orb_true_r.
Qed.

(** Where [old] does not occur, [replace] changes nothing. *)
Lemma replace_absent (s old new : string) :
  contains s old = false -> replace s old new = s.
Proof.
  unfold replace. induction s as [|c s IH]; intros H; [reflexivity|].
  cbn [contains] in H. apply orb_false_elim in H as [H1 H2].
  cbn [replace_from]. rewrite H1. now rewrite IH.
Qed.

(** An occurrence of a protocol prefix that ends at an appended slash leaves
    a colon and a slash behind it. *)
Lemma https_needs_colon_slash (s : string) :
  startswith (s ++ "/") "https://" = true -> contains s ":/" = true.
Proof.
  intros H.
  do 7 (destruct s as [|? s]; cbn in H;
        [ repeat (apply andb_prop in H as [? H]); discriminate
        | apply andb_prop in H as [Hc H]; apply Ascii.eqb_eq in Hc; subst ]).
  reflexivity.
Qed.

Lemma http_needs_colon_slash (s : string) :
  startswith (s ++ "/") "http://" = true -> contains s ":/" = true.
Proof.
  intros H.
  do 6 (destruct s as [|? s]; cbn in H;
        [ repeat (apply andb_prop in H as [? H]); discriminate
        | apply andb_prop in H as [Hc H]; apply Ascii.eqb_eq in Hc; subst ]).
  reflexivity.
Qed.

End StringFacts.

(** ** The identity normalizer *)

Section Normalizer.

Import PyStr Pandas.

Lemma contains_snoc_https (s : string) :
  contains (s ++ "/") "https://" = true -> contains s ":/" = true.
Proof.
  induction s as [|c s IH]; intros H; [discriminate H|].
  change (String c s ++ "/") with (String c (s ++ "/")) in H.
  cbn [contains] in H. apply orb_prop in H as [H | H].
  - now apply https_needs_colon_slash.
  - apply contains_tail. now apply IH.
Qed.

Lemma contains_snoc_http (s : string) :
  contains (s ++ "/") "http://" = true -> contains s ":/" = true.
Proof.
  induction s as [|c s IH]; intros H; [discriminate H|].
  change (String c s ++ "/") with (String c (s ++ "/")) in H.
  cbn [contains] in H. apply orb_prop in H as [H | H].
  - now apply http_needs_colon_slash.
  - apply contains_tail. now apply IH.
Qed.

(** No protocol prefix occurs in a string free of [":/"], nor in that string
    followed by a slash. *)
Lemma no_protocol (s pat : string) :
  pat = "https://" \/ pat = "http://" ->
  contains s ":/" = false ->
  contains (s ++ "/") pat = false /\ contains s pat = false.
Proof.
  intros Hpat Hs.
  assert (Hsnoc : contains (s ++ "/") pat = false).
  { destruct (contains (s ++ "/") pat) eqn:E; [|reflexivity].
    rewrite <- Hs. symmetry.
    destruct Hpat; subst pat;
      [now apply contains_snoc_https | now apply contains_snoc_http]. }
  split; [exact Hsnoc|].
  destruct (contains s pat) eqn:E; [|reflexivity].
  now rewrite (contains_app _ "/" _ E) in Hsnoc.
Qed.

(** Lower-casing neither makes nor removes a colon or a slash. *)
Lemma lower_char_colon (c : ascii) :
  Ascii.eqb (lower_char c) ":" = Ascii.eqb c ":".
Proof. destruct c as [[] [] [] [] [] [] [] []]; reflexivity. Qed.

Lemma lower_char_slash (c : ascii) :
  Ascii.eqb (lower_char c) "/" = Ascii.eqb c "/".
Proof. destruct c as [[] [] [] [] [] [] [] []]; reflexivity. Qed.

Lemma contains_lower_colon_slash (s : string) :
  contains (lower s) ":/" = contains s ":/".
Proof.
  induction s as [|c s IH]; [reflexivity|].
  cbn [lower contains]. rewrite IH. f_equal.
  cbn [startswith]. rewrite lower_char_colon.
  destruct s as [|c' s]; [reflexivity|].
  cbn [lower]. now rewrite lower_char_slash.
Qed.

(** The key of a string that has no surrounding blanks, no [":/"] and no
    leading [www.]: its lower-case form less the trailing slashes. *)
Lemma normalize_bare (d : string) :
  strip d = d ->
  contains d ":/" = false ->
  startswith (lower d) "www." = false ->
  Builder._normalize_domain (Str d) = rstrip_slash (lower d).
Proof.
  intros Hstrip Hcs Hwww. unfold Builder._normalize_domain.
  cbn [isna str]. rewrite Hstrip.
  rewrite <- contains_lower_colon_slash in Hcs.
  destruct (no_protocol (lower d) "https://" (or_introl eq_refl) Hcs) as [_ H1].
  destruct (no_protocol (lower d) "http://" (or_intror eq_refl) Hcs) as [_ H2].
  rewrite (replace_absent _ _ _ H1), (replace_absent _ _ _ H2).
  now rewrite Hwww.
Qed.

(** The key of the same string wrapped in ["HTTPS://WWW."] and ["/"]. *)
Lemma normalize_wrapped (d : string) :
  contains d ":/" = false ->
  Builder._normalize_domain (Str ("HTTPS://WWW." ++ d ++ "/"))
  = rstrip_slash (lower d).
Proof.
  intros Hcs. unfold Builder._normalize_domain. cbn [isna str].
  rewrite <- contains_lower_colon_slash in Hcs.
  destruct (no_protocol (lower d) "https://" (or_introl eq_refl) Hcs) as [H1 _].
  destruct (no_protocol (lower d) "http://" (or_intror eq_refl) Hcs) as [H2 _].
  assert (Hs : strip ("HTTPS://WWW." ++ d ++ "/") = "HTTPS://WWW." ++ d ++ "/").
  { unfold strip.
    change (lstrip_chars is_space ("HTTPS://WWW." ++ d ++ "/"))
      with ("HTTPS://WWW." ++ d ++ "/").
    replace ("HTTPS://WWW." ++ d ++ "/") with (("HTTPS://WWW." ++ d) ++ "/")
      by (now rewrite append_assoc).
    now apply rstrip_chars_keep. }
  rewrite Hs, !lower_app.
  change (lower "HTTPS://WWW.") with "https://www.".
  change (lower "/") with "/".
  assert (Hr1 : replace ("https://www." ++ lower d ++ "/") "https://" ""
                = "www." ++ lower d ++ "/").
  { unfold replace. cbn.
    change (replace_from "https://" "" 0 (lower d ++ "/"))
      with (replace (lower d ++ "/") "https://" "").
    now rewrite (replace_absent _ _ _ H1). }
  rewrite Hr1.
  assert (Hr2 : replace ("www." ++ lower d ++ "/") "http://" ""
                = "www." ++ lower d ++ "/").
  { unfold replace. cbn.
    change (replace_from "http://" "" 0 (lower d ++ "/"))
      with (replace (lower d ++ "/") "http://" "").
    now rewrite (replace_absent _ _ _ H2). }
  rewrite Hr2.
  change (startswith ("www." ++ lower d ++ "/") "www.") with true.
  change (drop 4 ("www." ++ lower d ++ "/")) with (lower d ++ "/").
  cbv iota. unfold rstrip_slash. now apply rstrip_chars_snoc.
Qed.

End Normalizer.

Section NormalizerClaims.

Import PyStr Pandas.

(** C4 (as amended). For every domain string [d] of code points
    U+0000..U+00FF that has no leading or trailing whitespace, contains no
    [":/"], and does not begin with ["www."] in any letter case,
    [normalize_domain] applied to ["HTTPS://WWW." + d + "/"] returns the same
    key as applied to [d]. The strings of the model are those of that range;
    outside it [str.lower] depends on the context of a character, and the
    statement is not made. *)
Theorem normalize_wrapped_same_key (d : string) :
  strip d = d ->
  contains d ":/" = false ->
  startswith (lower d) "www." = false ->
  Builder._normalize_domain (Str ("HTTPS://WWW." ++ d ++ "/"))
  = Builder._normalize_domain (Str d).
Proof.
  intros Hstrip Hcs Hwww.
  rewrite (normalize_wrapped d Hcs).
  symmetry. now apply normalize_bare.
Qed.

(** A host with a port and a path. *)
Lemma normalize_wrapped_same_key_witness :
  Builder._normalize_domain (Str ("HTTPS://WWW." ++ "Evil.com:8080/a/" ++ "/"))
  = Builder._normalize_domain (Str "Evil.com:8080/a/").
Proof.
  apply (normalize_wrapped_same_key "Evil.com:8080/a/"); reflexivity.
Defined.

(** C4 as stated fails: a domain that itself begins with ["www."] loses one
    ["www."] on each side, and the two keys differ. *)
Lemma normalize_wrapped_www_differs :
  Builder._normalize_domain (Str ("HTTPS://WWW." ++ "www.a.com" ++ "/")) = "www.a.com"
  /\ Builder._normalize_domain (Str "www.a.com") = "a.com".
Proof. split; reflexivity. Qed.

(** The other two conditions are needed as well: blanks inside the wrapped
    string are not stripped, and a protocol prefix completed by the appended
    slash is removed. *)
Example normalize_wrapped_blank_differs :
  Builder._normalize_domain (Str ("HTTPS://WWW." ++ " a.com" ++ "/")) = " a.com"
  /\ Builder._normalize_domain (Str " a.com") = "a.com".
Proof. split; reflexivity. Qed.

Example normalize_wrapped_protocol_differs :
  Builder._normalize_domain (Str ("HTTPS://WWW." ++ "x.comhttps:/" ++ "/")) = "x.com"
  /\ Builder._normalize_domain (Str "x.comhttps:/") = "x.comhttps:".
Proof. split; reflexivity. Qed.

End NormalizerClaims.

(** ** The size-bounded selector *)

Section SelectorFacts.

Import Selector.

Lemma classify_filter (ns : list node) :
  classify ns
  = (List.filter is_priority ns, List.filter (fun n => negb (is_priority n)) ns).
Proof.
  induction ns as [|n ns IH]; [reflexivity|].
  cbn [classify List.filter]. rewrite IH.
  destruct (is_priority n); reflexivity.
Qed.

(** The priority nodes head the selection, whichever branch is taken. *)
Lemma select_nodes_priority (ns : list node) :
  exists rest, select_nodes ns = (fst (classify ns) ++ rest)%list.
Proof.
  unfold select_nodes. destruct (classify ns) as [priority_nodes other_nodes].
  cbn [fst]. destruct (_ >? 1500); eauto.
Qed.

Lemma priority_selected (ns : list node) (n : node) :
  In n ns -> is_priority n = true -> In n (select_nodes ns).
Proof.
  intros Hin Hp. destruct (select_nodes_priority ns) as [rest ->].
  apply in_or_app. left. rewrite classify_filter. cbn [fst].
  apply filter_In. now split.
Qed.

(** The picks of a stride: the element [k] of the result is the element
    [wait + k * step] of the list. *)
Lemma every_from_nth {A : Type} (step : nat) (l : list A) :
  (1 <= step)%nat ->
  forall wait k,
    nth_error (every_from step wait l) k = nth_error l (wait + k * step).
Proof.
  intros Hstep. induction l as [|x l IH]; intros wait k.
  - cbn [every_from]. now rewrite !nth_error_nil.
  - destruct wait as [|w]; cbn [every_from].
    + destruct k as [|k]; [reflexivity|].
      cbn [nth_error]. rewrite IH.
      replace (0 + S k * step)%nat with (S (step - 1 + k * step)) by lia.
      reflexivity.
    + rewrite IH. reflexivity.
Qed.

Lemma slice_step_nth {A : Type} (step : Z) (l : list A) (k : nat) :
  1 <= step ->
  nth_error (slice_step step l) k = nth_error l (k * Z.to_nat step).
Proof.
  intros Hstep. unfold slice_step.
  rewrite every_from_nth by lia. reflexivity.
Qed.

(** The number of picks: the least [k] with [wait + k * step] past the end. *)
Lemma every_from_length {A : Type} (step : nat) (l : list A) :
  (1 <= step)%nat ->
  forall wait, (wait < step)%nat ->
    (length (every_from step wait l) * step < length l + step - wait
     /\ length l <= wait + length (every_from step wait l) * step)%nat.
Proof.
  intros Hstep. induction l as [|x l IH]; intros wait Hwait.
  - cbn [every_from length]. lia.
  - destruct wait as [|w]; cbn [every_from length].
    + specialize (IH (step - 1)%nat). rewrite Nat.mul_succ_l. lia.
    + specialize (IH w). lia.
Qed.

Lemma sample_rate_pos (count : Z) : 1 <= sample_rate count.
Proof. unfold sample_rate. lia. Qed.

Lemma node_id_set_spec (selected_nodes : list node) (i : string) :
  i ∈ node_id_set selected_nodes <-> In i (map id selected_nodes).
Proof.
  unfold node_id_set. rewrite elem_of_list_to_set. apply list_elem_of_In.
Qed.

Lemma filter_links_spec (node_ids : gset string) (ls : list link) (l : link) :
  In l (filter_links node_ids ls)
  <-> In l ls /\ endpoint_id (source l) ∈ node_ids
      /\ endpoint_id (target l) ∈ node_ids.
Proof.
  unfold filter_links. rewrite filter_In, andb_true_iff.
  now rewrite !bool_decide_eq_true.
Qed.

End SelectorFacts.

Section SelectorClaims.

Import Selector.

Lemma optimized_data_large (g : graph_data) :
  Z.of_nat (length (nodes g)) > 1000 ->
  optimized_data g = _smart_optimize_network g.
Proof.
  intros H. unfold optimized_data.
  destruct (Z.gtb_spec (Z.of_nat (length (nodes g))) 1000); [reflexivity | lia].
Qed.

(** C1. After size-bounded selection of a graph with more than 1000 nodes, an
    edge is in the output edge list if and only if it is an input edge and
    both of its endpoint identities are present in the output node set; in
    particular every output edge has both endpoints among the output nodes
    (no dangling edges). *)
Theorem selected_links_no_dangling (g : graph_data) :
  Z.of_nat (length (nodes g)) > 1000 ->
  let out := optimized_data g in
  (forall l,
     In l (links out)
     <-> In l (links g)
         /\ In (endpoint_id (source l)) (map id (nodes out))
         /\ In (endpoint_id (target l)) (map id (nodes out)))
  /\ (forall l,
        In l (links out) ->
        In (endpoint_id (source l)) (map id (nodes out))
        /\ In (endpoint_id (target l)) (map id (nodes out))).
Proof.
  intros Hlarge. rewrite (optimized_data_large g Hlarge).
  cbn zeta. unfold _smart_optimize_network. cbn [links nodes].
  assert (Hiff : forall l,
     In l (filter_links (node_id_set (select_nodes (nodes g))) (links g))
     <-> In l (links g)
         /\ In (endpoint_id (source l)) (map id (select_nodes (nodes g)))
         /\ In (endpoint_id (target l)) (map id (select_nodes (nodes g)))).
  { intros l. rewrite filter_links_spec. now rewrite !node_id_set_spec. }
  split; [exact Hiff|].
  intros l Hl. now apply Hiff in Hl.
Qed.

(** On the sample graph of 1001 nodes. *)
Lemma selected_links_no_dangling_witness :
  let out := optimized_data Samples.graph_1001 in
  (forall l,
     In l (links out)
     <-> In l (links Samples.graph_1001)
         /\ In (endpoint_id (source l)) (map id (nodes out))
         /\ In (endpoint_id (target l)) (map id (nodes out)))
  /\ (forall l,
        In l (links out) ->
        In (endpoint_id (source l)) (map id (nodes out))
        /\ In (endpoint_id (target l)) (map id (nodes out))).
Proof.
  apply (selected_links_no_dangling Samples.graph_1001).
  vm_compute. reflexivity.
Defined.

(** C5. Whenever the selector runs (more than 1000 nodes), every node whose
    role marks it as a source domain and every crypto entity is in the
    selected output node set. *)
Theorem source_and_crypto_retained (g : graph_data) (n : node) :
  Z.of_nat (length (nodes g)) > 1000 ->
  In n (nodes g) ->
  role n = "source_domain" \/ type n = Some "crypto" ->
  In n (nodes (optimized_data g)).
Proof.
  intros Hlarge Hin Hkind. rewrite (optimized_data_large g Hlarge).
  unfold _smart_optimize_network. cbn [nodes].
  apply priority_selected; [exact Hin|].
  unfold is_priority. destruct Hkind as [-> | ->]; [reflexivity|].
  cbn [default]. now destruct (String.eqb (role n) "source_domain").
Qed.

(** The address of the sample graph of 1001 nodes. *)
Lemma source_and_crypto_retained_witness :
  In Samples.crypto_node (nodes (optimized_data Samples.graph_1001)).
Proof.
  apply (source_and_crypto_retained Samples.graph_1001 Samples.crypto_node).
  - vm_compute. reflexivity.
  - right. left. reflexivity.
  - right. reflexivity.
Defined.

(** C6 (as amended). The selector keeps every lookalike-domain node, with no
    cap. When the other nodes number more than 1500, it keeps of them only the
    same-IP-domain nodes, thinned by a stride that picks every Nth one from
    the first, N = max(1, floor(count / target)) with target 1000 for more
    than 2000 same-IP nodes and 1200 otherwise, which leaves
    ceil(count / N) of them. When the other nodes number at most 1500, all of
    them are kept unchanged after the priority nodes. The selection is a
    function of the sequence of input nodes alone: the same nodes in the same
    order give the same selection. *)
Theorem select_nodes_policy (g : graph_data) :
  let selected := nodes (_smart_optimize_network g) in
  let priority_nodes := fst (classify (nodes g)) in
  let other_nodes := snd (classify (nodes g)) in
  let same_ip_nodes := List.filter is_same_ip other_nodes in
  let count := Z.of_nat (length same_ip_nodes) in
  let step := Z.max 1 (count / (if count >? 2000 then 1000 else 1200)) in
  (forall n, In n (nodes g) -> role n = "lookalike_domain" -> In n selected)
  /\ (Z.of_nat (length other_nodes) <= 1500 ->
      selected = (priority_nodes ++ other_nodes)%list)
  /\ (Z.of_nat (length other_nodes) > 1500 ->
      exists picked,
        selected = (priority_nodes ++ picked)%list
        /\ (forall k,
              nth_error picked k = nth_error same_ip_nodes (k * Z.to_nat step))
        /\ Z.of_nat (length picked) = (count + step - 1) / step)
  /\ (forall g', nodes g' = nodes g -> nodes (_smart_optimize_network g') = selected).
Proof.
  change (nodes (_smart_optimize_network g)) with (select_nodes (nodes g)).
  cbn zeta.
  assert (Hsame : forall g', nodes g' = nodes g ->
            nodes (_smart_optimize_network g') = select_nodes (nodes g)).
  { intros g' Hsame.
    change (nodes (_smart_optimize_network g')) with (select_nodes (nodes g')).
    now rewrite Hsame. }
  split; [|split; [|split; [|exact Hsame]]]; clear Hsame;
    generalize (nodes g) as ns; intros ns.
  - intros n Hin Hrole. apply priority_selected; [exact Hin|].
    unfold is_priority. rewrite Hrole.
    now destruct (String.eqb (default "" (type n)) "crypto").
  - intros Hsmall. unfold select_nodes.
    destruct (classify ns) as [priority_nodes other_nodes]. cbn [fst snd] in *.
    destruct (Z.gtb_spec (Z.of_nat (length other_nodes)) 1500); [lia | reflexivity].
  - intros Hbig. unfold select_nodes.
    destruct (classify ns) as [priority_nodes other_nodes]. cbn [fst snd] in *.
    destruct (Z.gtb_spec (Z.of_nat (length other_nodes)) 1500); [|lia].
    set (same_ip_nodes := List.filter is_same_ip other_nodes).
    set (count := Z.of_nat (length same_ip_nodes)).
    change (Z.max 1 (count / (if count >? 2000 then 1000 else 1200)))
      with (sample_rate count).
    pose proof (sample_rate_pos count) as Hpos.
    exists (slice_step (sample_rate count) same_ip_nodes).
    split; [reflexivity|]. split.
    + intros k. now apply slice_step_nth.
    + unfold slice_step.
      destruct (every_from_length (Z.to_nat (sample_rate count)) same_ip_nodes
                  ltac:(lia) 0%nat ltac:(lia)) as [Hlt Hge].
      set (picked := every_from (Z.to_nat (sample_rate count)) 0 same_ip_nodes) in *.
      assert (Hs : Z.of_nat (Z.to_nat (sample_rate count)) = sample_rate count)
        by lia.
      set (stride := Z.to_nat (sample_rate count)) in *.
      rewrite <- Hs. fold count in Hlt, Hge.
      apply Z.div_unique
        with (r := count + Z.of_nat stride - 1
                   - Z.of_nat (length picked) * Z.of_nat stride).
      * left. subst count. nia.
      * lia.
Qed.

(** The sampling branch on the sample graph of 4001 same-IP hosts. *)
Lemma select_nodes_policy_witness :
  let g := Samples.graph_4002 in
  let selected := nodes (_smart_optimize_network g) in
  let priority_nodes := fst (classify (nodes g)) in
  let other_nodes := snd (classify (nodes g)) in
  let same_ip_nodes := List.filter is_same_ip other_nodes in
  let count := Z.of_nat (length same_ip_nodes) in
  let step := Z.max 1 (count / (if count >? 2000 then 1000 else 1200)) in
  exists picked,
    selected = (priority_nodes ++ picked)%list
    /\ (forall k,
          nth_error picked k = nth_error same_ip_nodes (k * Z.to_nat step))
    /\ Z.of_nat (length picked) = (count + step - 1) / step.
Proof.
  apply (select_nodes_policy Samples.graph_4002).
  vm_compute. reflexivity.
Defined.

(** C6 as stated fails. On 101 lookalike and 1501 same-IP nodes (the others
    number 1501, over the sub-threshold) the stride of the specification,
    ceil(1501 / target), is 2 for either target and would leave 751 same-IP
    nodes; the selector keeps all 1501, and all 101 lookalike nodes. *)
Lemma select_nodes_not_ceil_stride :
  let g := Samples.graph_1604 in
  let selected := nodes (_smart_optimize_network g) in
  let other_nodes := snd (classify (nodes g)) in
  let same_ip_nodes := List.filter is_same_ip other_nodes in
  Z.of_nat (length other_nodes) = 1501
  /\ Z.of_nat (length same_ip_nodes) = 1501
  /\ ceil_stride 1501 1000 = 2
  /\ ceil_stride 1501 1200 = 2
  /\ Z.of_nat (length (slice_step 2 same_ip_nodes)) = 751
  /\ Z.of_nat (length (List.filter is_same_ip selected)) = 1501
  /\ Z.of_nat (length (List.filter is_lookalike selected)) = 101.
Proof.
  cbn zeta.
  change (nodes (_smart_optimize_network Samples.graph_1604))
    with (select_nodes Samples.nodes_1604).
  change (nodes Samples.graph_1604) with Samples.nodes_1604.
  vm_compute. repeat split; reflexivity.
Qed.

(** On 4001 same-IP nodes the target is 1000 and the stride 4: the selector
    keeps the source and 1001 of them. *)
Example select_nodes_stride_four :
  sample_rate 4001 = 4
  /\ length (select_nodes Samples.nodes_4002) = 1002%nat
  /\ map id (firstn 4 (select_nodes Samples.nodes_4002))
     = ["shop.example"; "host0.example"; "host4.example"; "host8.example"].
Proof. vm_compute. repeat split; reflexivity. Qed.

End SelectorClaims.

(** ** Dictionaries *)

Section DictFacts.

Import PyDict.

Context {V : Type}.

Lemma get_set (k k' : string) (v : V) (d : dict V) :
  get k (set k' v d) = if String.eqb k k' then Some v else get k d.
Proof.
  induction d as [|[k0 v0] d IH]; cbn [set get].
  - reflexivity.
  - destruct (String.eqb_spec k' k0) as [-> | Hne]; cbn [get].
    + destruct (String.eqb k k0); reflexivity.
    + rewrite IH.
      destruct (String.eqb_spec k k0) as [-> | Hne'];
        [|reflexivity].
      destruct (String.eqb_spec k0 k'); [congruence | reflexivity].
Qed.

Lemma get_set_same (k : string) (v : V) (d : dict V) :
  get k (set k v d) = Some v.
Proof. now rewrite get_set, String.eqb_refl. Qed.

Lemma get_set_other (k k' : string) (v : V) (d : dict V) :
  k <> k' -> get k (set k' v d) = get k d.
Proof.
  intros Hne. rewrite get_set.
  destruct (String.eqb_spec k k'); [contradiction | reflexivity].
Qed.

Lemma get_None_keys (k : string) (d : dict V) :
  get k d = None <-> ~ In k (keys d).
Proof.
  induction d as [|[k0 v0] d IH]; cbn [get keys map fst In].
  - tauto.
  - destruct (String.eqb_spec k k0) as [-> | Hne].
    + split; [discriminate | intros H; exfalso; apply H; now left].
    + rewrite IH. unfold keys. split.
      * intros H [E | E]; [congruence | tauto].
      * tauto.
Qed.

Lemma get_Some_In (k : string) (v : V) (d : dict V) :
  get k d = Some v -> In (k, v) d.
Proof.
  induction d as [|[k0 v0] d IH]; cbn [get]; [discriminate|].
  destruct (String.eqb_spec k k0) as [-> | Hne].
  - intros [= ->]. now left.
  - intros H. right. now apply IH.
Qed.

Lemma get_Some_keys (k : string) (v : V) (d : dict V) :
  get k d = Some v -> In k (keys d).
Proof.
  intros H. apply get_Some_In in H.
  unfold keys. change k with (fst (k, v)). now apply in_map.
Qed.

Lemma In_get (k : string) (v : V) (d : dict V) :
  List.NoDup (keys d) -> In (k, v) d -> get k d = Some v.
Proof.
  induction d as [|[k0 v0] d IH]; cbn [keys map fst get In]; [tauto|].
  intros Hnd [E | Hin].
  - injection E as -> ->. now rewrite String.eqb_refl.
  - apply List.NoDup_cons_iff in Hnd as [Hk0 Hnd].
    destruct (String.eqb_spec k k0) as [-> | Hne].
    + exfalso. apply Hk0. change k0 with (fst (k0, v)). now apply in_map.
    + now apply IH.
Qed.

(** Assigning to a key that is present keeps the keys; assigning to a new
    key appends it. *)
Lemma keys_set (k : string) (v : V) (d : dict V) :
  keys (set k v d)
  = match get k d with
    | Some _ => keys d
    | None => (keys d ++ [k])%list
    end.
Proof.
  induction d as [|[k0 v0] d IH]; cbn [set get keys map fst app].
  - reflexivity.
  - destruct (String.eqb_spec k k0) as [-> | Hne]; cbn [map fst].
    + reflexivity.
    + unfold keys in IH. rewrite IH. now destruct (get k d).
Qed.

Lemma set_fresh (k : string) (v : V) (d : dict V) :
  get k d = None -> set k v d = (d ++ [(k, v)])%list.
Proof.
  induction d as [|[k0 v0] d IH]; cbn [set get app]; [reflexivity|].
  destruct (String.eqb_spec k k0) as [-> | Hne]; [discriminate|].
  intros H. now rewrite IH.
Qed.

Lemma NoDup_keys_set (k : string) (v : V) (d : dict V) :
  List.NoDup (keys d) -> List.NoDup (keys (set k v d)).
Proof.
  intros Hnd. rewrite keys_set. destruct (get k d) eqn:E; [exact Hnd|].
  apply get_None_keys in E.
  apply List.NoDup_app; [exact Hnd | |].
  - apply List.NoDup_cons; [intros [] | constructor].
  - intros x Hx [<- | []]. contradiction.
Qed.

End DictFacts.

(** ** Reasoning about the builder's methods *)

Section BuilderLogic.

Import Pandas Builder Spec.
Local Open Scope builder_scope.

Lemma hoare_ret {A : Type} (P : t -> Prop) (a : A) : hoare P (ret a) P.
Proof. intros self HP. exact HP. Qed.

Lemma hoare_raise {A : Type} (P : t -> Prop) (e : exn) :
  hoare P (@raise A e) P.
Proof. intros self HP. exact HP. Qed.

Lemma hoare_bind {A B : Type} (P R Q : t -> Prop) (m : M A) (k : A -> M B) :
  hoare P m R ->
  (forall a, hoare R (k a) Q) ->
  (forall self, R self -> Q self) ->
  hoare P (bind m k) Q.
Proof.
  intros Hm Hk Hweak self HP. unfold bind.
  specialize (Hm self HP). destruct (m self) as [self' [a | e]]; cbn [fst] in *.
  - now apply Hk.
  - now apply Hweak.
Qed.

Lemma hoare_seq {A B : Type} (P : t -> Prop) (m : M A) (k : A -> M B) :
  hoare P m P -> (forall a, hoare P (k a) P) -> hoare P (bind m k) P.
Proof. intros Hm Hk. apply (hoare_bind P P P); auto. Qed.

Lemma hoare_for_each {A : Type} (P : t -> Prop) (xs : list A)
    (body : A -> M unit) :
  (forall x, hoare P (body x) P) -> hoare P (for_each xs body) P.
Proof.
  intros Hbody. induction xs as [|x xs IH]; cbn [for_each].
  - apply hoare_ret.
  - apply hoare_seq; auto.
Qed.

Lemma hoare_getitem (P : t -> Prop) (row : Row) (k : string) :
  hoare P (getitem row k) P.
Proof.
  unfold getitem. destruct (row !! k); [apply hoare_ret | apply hoare_raise].
Qed.

Lemma hoare_domain_relationship (P : t -> Prop) (row : Row)
    (source_domain target_domain relationship_type : string) :
  (forall d ty md, hoare P (_create_or_get_domain_node d ty md) P) ->
  (forall e, hoare P (append_edge e) P) ->
  hoare P
    (_create_domain_relationship source_domain target_domain
       relationship_type row) P.
Proof.
  intros Hnode Hedge. unfold _create_domain_relationship.
  destruct (_ || _); [apply hoare_ret|].
  apply hoare_seq; auto.
Qed.

Lemma hoare_crypto_relationship (P : t -> Prop) (row : Row)
    (source_domain crypto_address : string) (chain : cell) :
  (forall md, hoare P (_create_or_get_crypto_node crypto_address chain md) P) ->
  (forall e, hoare P (append_edge e) P) ->
  hoare P
    (_create_crypto_relationship source_domain crypto_address chain row) P.
Proof.
  intros Hnode Hedge. unfold _create_crypto_relationship.
  destruct (PyStr.is_empty crypto_address); [apply hoare_ret|].
  apply hoare_seq; auto.
Qed.

Lemma hoare_domain_column (P : t -> Prop) (row : Row)
    (source_domain column : string) :
  (forall d, hoare P (_create_domain_relationship source_domain d column row) P) ->
  hoare P (process_domain_column source_domain column row) P.
Proof.
  intros Hrel. unfold process_domain_column.
  destruct (notna _); [|apply hoare_ret].
  apply hoare_seq; [apply hoare_getitem|].
  intros domains. now apply hoare_for_each.
Qed.

Lemma hoare_crypto_column (P : t -> Prop) (row : Row) (source_domain : string) :
  (forall a,
     hoare P (_create_crypto_relationship source_domain a
                (get row "chain" (Str "BTC")) row) P) ->
  hoare P (process_crypto_column source_domain row) P.
Proof.
  intros Hrel. unfold process_crypto_column.
  destruct (notna _); [|apply hoare_ret].
  apply hoare_seq; [apply hoare_getitem|].
  intros addresses. now apply hoare_for_each.
Qed.

(** [_process_row]: the source node takes [I] to [J s], which the
    relationships of the row keep. *)
Lemma hoare_process_row (I : t -> Prop) (J : string -> t -> Prop) (row : Row) :
  (forall s,
     hoare I (_create_or_get_domain_node s "source_domain"
                (domain_metadata row s)) (J s)) ->
  (forall s d col, hoare (J s) (_create_domain_relationship s d col row) (J s)) ->
  (forall s a,
     hoare (J s)
       (_create_crypto_relationship s a (get row "chain" (Str "BTC")) row)
       (J s)) ->
  (forall s self, J s self -> I self) ->
  hoare I (_process_row row) I.
Proof.
  intros Hsrc Hdom Hcry Hweak. unfold _process_row.
  apply hoare_seq; [apply hoare_getitem|]. intros raw.
  set (s := _normalize_domain raw).
  destruct (PyStr.is_empty s); [apply hoare_ret|].
  apply (hoare_bind I (J s) I); [apply Hsrc | | apply Hweak].
  intros _. intros self HJ. apply (Hweak s). revert self HJ.
  apply hoare_seq; [apply hoare_domain_column; auto|]. intros _.
  apply hoare_seq; [apply hoare_domain_column; auto|]. intros _.
  apply hoare_crypto_column. auto.
Qed.

(** An invariant that every primitive step keeps is kept by [_process_row]. *)
Lemma hoare_process_row_simple (I : t -> Prop) (row : Row) :
  (forall d ty md, hoare I (_create_or_get_domain_node d ty md) I) ->
  (forall a md,
     hoare I (_create_or_get_crypto_node a (get row "chain" (Str "BTC")) md) I) ->
  (forall e, hoare I (append_edge e) I) ->
  hoare I (_process_row row) I.
Proof.
  intros Hdom Hcry Hedge.
  apply (hoare_process_row I (fun _ => I)); auto.
  - intros. now apply hoare_domain_relationship.
  - intros. now apply hoare_crypto_relationship.
Qed.

Lemma process_one_keeps (I : t -> Prop) (row : Row) :
  counter_free I -> hoare I (_process_row row) I ->
  forall self, I self -> I (process_one row self).
Proof.
  intros Hfree Hrow self HI. unfold process_one.
  specialize (Hrow self HI).
  destruct (_process_row row self) as [self' [[] | e]]; now apply Hfree.
Qed.

Lemma process_rows_keeps (I : t -> Prop) (df : list Row) :
  counter_free I -> (forall row, hoare I (_process_row row) I) ->
  forall self, I self -> I (process_rows df self).
Proof.
  intros Hfree Hrow. unfold process_rows.
  induction df as [|row df IH]; intros self HI; cbn [fold_left]; [exact HI|].
  apply IH. now apply process_one_keeps.
Qed.


End BuilderLogic.

(** ** The primitive steps of a row *)

Section BuilderSteps.

Import Pandas Builder Spec.

(** Get-or-create of a domain: nothing changes, or a domain entity with the
    asked id, role and style is added. *)
Lemma create_or_get_domain_cases (d ty : string) (md : gmap string cell) (self : t) :
  let self' := fst (_create_or_get_domain_node d ty md self) in
  (exists n, PyDict.get d (registry self) = Some n /\ self' = self)
  \/ adds d (snd (NodeManager.create_domain_node d ty md (node_manager self)))
          self self'.
Proof.
  unfold _create_or_get_domain_node, NodeManager.get_node.
  fold (registry self).
  destruct (PyDict.get d (registry self)) as [n|] eqn:E; cbn [fst].
  - left. now exists n.
  - right. split; [exact E | reflexivity].
Qed.

(** Get-or-create of a crypto address: nothing changes (the key is there, or
    the chain is not a string and the call raises), or the crypto entity of
    that chain is added. *)
Lemma create_or_get_crypto_cases (a : string) (chain : cell)
    (md : gmap string cell) (self : t) :
  let self' := fst (_create_or_get_crypto_node a chain md self) in
  self' = self
  \/ exists c,
       chain = Str c
       /\ adds a (snd (NodeManager.create_crypto_node a c md (node_manager self)))
               self self'.
Proof.
  unfold _create_or_get_crypto_node, create_crypto_node, NodeManager.get_node.
  fold (registry self).
  destruct (PyDict.get a (registry self)) as [n|] eqn:E; cbn [fst].
  - now left.
  - destruct chain as [|c|t]; cbn [fst]; [now left | | now left].
    right. exists c. split; [reflexivity|]. split; [exact E | reflexivity].
Qed.

Lemma registry_adds (k : string) (node : NodeManager.NodeData) (self self' : t) :
  adds k node self self' ->
  registry self' = PyDict.set k node (registry self)
  /\ edges self' = edges self /\ graph self' = graph self
  /\ processed_rows self' = processed_rows self
  /\ skipped_rows self' = skipped_rows self.
Proof. intros [_ ->]. repeat split. Qed.

Lemma registry_ok_adds (k : string) (node : NodeManager.NodeData) (self self' : t) :
  NodeManager.id node = k ->
  adds k node self self' -> registry_ok self -> registry_ok self'.
Proof.
  intros Hid Hadd [Hnd Hids].
  destruct (registry_adds _ _ _ _ Hadd) as (Hreg & _).
  destruct Hadd as [Hfresh _]. unfold registry_ok. rewrite Hreg. split.
  - now apply NoDup_keys_set.
  - intros k' n Hin. rewrite (set_fresh _ _ _ Hfresh) in Hin.
    apply in_app_or in Hin as [Hin | [[= <- <-] | []]]; auto.
Qed.

Lemma extends_refl (self : t) : extends self self.
Proof. split; [auto | exists []; now rewrite app_nil_r]. Qed.

Lemma extends_trans (a b c : t) : extends a b -> extends b c -> extends a c.
Proof.
  intros [Hab [l1 E1]] [Hbc [l2 E2]]. split; [auto|].
  exists (l1 ++ l2)%list. now rewrite E2, E1, app_assoc.
Qed.

Lemma extends_adds (k : string) (node : NodeManager.NodeData) (self self' : t) :
  adds k node self self' -> extends self self'.
Proof.
  intros Hadd. destruct (registry_adds _ _ _ _ Hadd) as (Hreg & Hedges & _).
  destruct Hadd as [Hfresh _]. split.
  - intros k' n Hget. rewrite Hreg. rewrite get_set_other; [exact Hget|].
    intros ->. congruence.
  - exists []. now rewrite app_nil_r.
Qed.

Lemma extends_create_or_get_domain (d ty : string) (md : gmap string cell)
    (self : t) :
  extends self (fst (_create_or_get_domain_node d ty md self)).
Proof.
  destruct (create_or_get_domain_cases d ty md self) as [(n & _ & ->) | Hadd].
  - apply extends_refl.
  - now apply extends_adds in Hadd.
Qed.

Lemma extends_create_or_get_crypto (a : string) (chain : cell)
    (md : gmap string cell) (self : t) :
  extends self (fst (_create_or_get_crypto_node a chain md self)).
Proof.
  destruct (create_or_get_crypto_cases a chain md self) as [-> | (c & _ & Hadd)].
  - apply extends_refl.
  - now apply extends_adds in Hadd.
Qed.

Lemma extends_append_edge (e : Edge) (self : t) :
  extends self (fst (append_edge e self)).
Proof. split; [auto | now exists [e]]. Qed.

Lemma extends_with_counts (self : t) (p s : Z) :
  extends self (with_counts self p s).
Proof. split; [auto | exists []; cbn; now rewrite app_nil_r]. Qed.

(** Every method of a row only extends the state it starts from. *)
Lemma extends_process_row (row : Row) (self0 : t) :
  hoare (extends self0) (_process_row row) (extends self0).
Proof.
  apply hoare_process_row_simple.
  - intros d ty md self H. eapply extends_trans; [exact H|].
    apply extends_create_or_get_domain.
  - intros a md self H. eapply extends_trans; [exact H|].
    apply extends_create_or_get_crypto.
  - intros e self H. eapply extends_trans; [exact H|].
    apply extends_append_edge.
Qed.

Lemma extends_process_one (row : Row) (self : t) :
  extends self (process_one row self).
Proof.
  apply (process_one_keeps (extends self)).
  - intros b p s H. eapply extends_trans; [exact H | apply extends_with_counts].
  - apply extends_process_row.
  - apply extends_refl.
Qed.


(** No method of a row touches the row counters. *)
Lemma counts_process_row (row : Row) (p s : Z) :
  hoare (counts_are p s) (_process_row row) (counts_are p s).
Proof.
  apply hoare_process_row_simple.
  - intros d ty md self H.
    destruct (create_or_get_domain_cases d ty md self) as [(n & _ & ->) | Hadd];
      [exact H|].
    destruct (registry_adds _ _ _ _ Hadd) as (_ & _ & _ & Hp & Hs).
    unfold counts_are. now rewrite Hp, Hs.
  - intros a md self H.
    destruct (create_or_get_crypto_cases a (get row "chain" (Str "BTC")) md self)
      as [-> | (c & _ & Hadd)]; [exact H|].
    destruct (registry_adds _ _ _ _ Hadd) as (_ & _ & _ & Hp & Hs).
    unfold counts_are. now rewrite Hp, Hs.
  - intros e self H. exact H.
Qed.

(** The registry stays well formed. *)
Lemma registry_ok_process_row (row : Row) :
  hoare registry_ok (_process_row row) registry_ok.
Proof.
  apply hoare_process_row_simple.
  - intros d ty md self H.
    destruct (create_or_get_domain_cases d ty md self) as [(n & _ & ->) | Hadd];
      [exact H|].
    eapply registry_ok_adds; [| exact Hadd | exact H]. reflexivity.
  - intros a md self H.
    destruct (create_or_get_crypto_cases a (get row "chain" (Str "BTC")) md self)
      as [-> | (c & _ & Hadd)]; [exact H|].
    eapply registry_ok_adds; [| exact Hadd | exact H]. reflexivity.
  - intros e self H. exact H.
Qed.

Lemma registry_ok_clear (self : t) : registry_ok (clear self).
Proof. split; [constructor | intros k n []]. Qed.

Lemma registry_ok_process_rows (df : list Row) (self : t) :
  registry_ok self -> registry_ok (process_rows df self).
Proof.
  apply (process_rows_keeps registry_ok).
  - intros b p s H. exact H.
  - apply registry_ok_process_row.
Qed.

End BuilderSteps.

(** ** Crypto entities *)

Section CryptoClaims.

Import Pandas Builder Spec.

(** What [create_crypto_node] makes of a chain. *)
Lemma created_crypto_entity (a c : string) (md : gmap string cell)
    (nm : NodeManager.t) :
  crypto_entity_of c (snd (NodeManager.create_crypto_node a c md nm)).
Proof. repeat split. Qed.

(** C9. For every row, each crypto entity created while the row is processed
    carries the row's chain field when the row has one, and ["BTC"] when it
    has none; its style key (node type) is the lower-cased chain followed by
    ["_address"], and it is drawn in the style of that key, or in the BTC
    style when the style table has no such key. *)
Theorem crypto_entity_chain (row : Row) (self : t) (k : string)
    (n : NodeManager.NodeData) :
  PyDict.get k (registry self) = None ->
  PyDict.get k (registry (fst (_process_row row self))) = Some n ->
  NodeManager.type n = "crypto" ->
  exists chain,
    get row "chain" (Str "BTC") = Str chain
    /\ (row !! "chain" = None -> chain = "BTC")
    /\ (forall v, row !! "chain" = Some v -> v = Str chain)
    /\ crypto_entity_of chain n.
Proof.
  intros Hfresh Hget Hty.
  set (I := fun b : t =>
    forall k n,
      PyDict.get k (registry self) = None ->
      PyDict.get k (registry b) = Some n ->
      NodeManager.type n = "crypto" ->
      exists chain,
        get row "chain" (Str "BTC") = Str chain /\ crypto_entity_of chain n).
  assert (HI : I (fst (_process_row row self))).
  { apply (hoare_process_row_simple I row).
    - intros d ty md b Hb k' n' Hf Hg Ht.
      destruct (create_or_get_domain_cases d ty md b) as [(n0 & _ & E) | Hadd].
      + rewrite E in Hg. eauto.
      + destruct (registry_adds _ _ _ _ Hadd) as (Hreg & _).
        rewrite Hreg, get_set in Hg.
        destruct (String.eqb k' d); [|eauto].
        injection Hg as <-. cbn in Ht. discriminate.
    - intros a md b Hb k' n' Hf Hg Ht.
      destruct (create_or_get_crypto_cases a (get row "chain" (Str "BTC")) md b)
        as [E | (c & Hc & Hadd)].
      + rewrite E in Hg. eauto.
      + destruct (registry_adds _ _ _ _ Hadd) as (Hreg & _).
        rewrite Hreg, get_set in Hg.
        destruct (String.eqb k' a); [|eauto].
        injection Hg as <-. exists c. split; [exact Hc|].
        exact (created_crypto_entity a c md (node_manager b)).
    - intros e b Hb. exact Hb.
    - intros k' n' Hf Hg. congruence. }
  destruct (HI k n Hfresh Hget Hty) as (chain & Hchain & Hent).
  exists chain. split; [exact Hchain|]. split; [|split; [|exact Hent]].
  - intros Hnone. unfold get in Hchain. rewrite Hnone in Hchain.
    now injection Hchain.
  - intros v Hv. unfold get in Hchain. rewrite Hv in Hchain. exact Hchain.
Qed.

(** The address of the ETH sample row, processed from the empty builder. *)
Lemma crypto_entity_chain_witness :
  exists chain,
    get SampleRows.eth_row "chain" (Str "BTC") = Str chain
    /\ (SampleRows.eth_row !! "chain" = None -> chain = "BTC")
    /\ (forall v, SampleRows.eth_row !! "chain" = Some v -> v = Str chain)
    /\ crypto_entity_of chain
         (snd (NodeManager.create_crypto_node "0xAbC" "ETH"
                 {[ "discovery_method" := Str ""; "source_domain" := Str "pay.example" ]}
                 (NodeManager.mkManager [] 0))).
Proof.
  apply (crypto_entity_chain SampleRows.eth_row init "0xAbC"); reflexivity.
Defined.

(** The three cases of the chain on the sample rows: a chain of the style
    table, a chain outside it (BTC style), and no chain column (["BTC"]). *)
Example crypto_entity_eth :
  map (fun n => (NodeManager.id n, NodeManager.node_type n, node_chain n,
                 NodeManager.shape n, NodeManager.color n))
      (nodes (snd (build_graph [SampleRows.eth_row] init)))
  = [ ("pay.example", "source_domain", None, "circle", "#e74c3c");
      ("0xAbC", "eth_address", Some "ETH", "circle", "#9b59b6") ].
Proof. reflexivity. Qed.

Example crypto_entity_unknown_chain :
  map (fun n => (NodeManager.id n, NodeManager.node_type n, node_chain n,
                 NodeManager.shape n, NodeManager.color n))
      (nodes (snd (build_graph [SampleRows.sol_row] init)))
  = [ ("pay.example", "source_domain", None, "circle", "#e74c3c");
      ("So1", "sol_address", Some "SOL", "square", "#f39c12") ].
Proof. reflexivity. Qed.

Example crypto_entity_default_chain :
  map (fun n => (NodeManager.id n, NodeManager.node_type n, node_chain n,
                 NodeManager.shape n, NodeManager.color n))
      (nodes (snd (build_graph [SampleRows.no_chain_row] init)))
  = [ ("pay.example", "source_domain", None, "circle", "#e74c3c");
      ("bc1q", "btc_address", Some "BTC", "square", "#f39c12") ].
Proof. reflexivity. Qed.

End CryptoClaims.

(** ** Row accounting *)

Section RowAccounting.

Import Pandas Builder Spec.
Local Open Scope builder_scope.













End RowAccounting.

Section RowClaims.

Import Pandas Builder Spec.









(** The row of the witness: its source and lookalike nodes and the edge
    between them were made before the chain raised, and they are in the
    snapshot of a build that counts the row as skipped. *)
Example raised_row_snapshot :
  let snap := snd (build_graph [SampleRows.missing_chain_row] init) in
  map NodeManager.id (nodes snap) = ["a.com"; "b.com"]
  /\ map endpoints (links snap) = [("a.com", "b.com")]
  /\ stat_processed_rows (statistics snap) = 0
  /\ stat_skipped_rows (statistics snap) = 1.
Proof. cbn zeta. repeat split; reflexivity. Qed.

End RowClaims.

(** ** The networkx graph *)

Section GraphFacts.

Import Nx.

Lemma has_node_In (g : Graph) (n : string) :
  has_node g n = true <-> In n (nodes g).
Proof.
  unfold has_node. rewrite existsb_exists. split.
  - intros (x & Hx & E). apply String.eqb_eq in E. now subst.
  - intros H. exists n. split; [exact H | apply String.eqb_refl].
Qed.

Lemma add_node_edges (n : string) (g : Graph) :
  edges (add_node n g) = edges g.
Proof. unfold add_node. now destruct (has_node g n). Qed.

Lemma add_node_In (n x : string) (g : Graph) :
  In x (nodes (add_node n g)) <-> In x (nodes g) \/ x = n.
Proof.
  unfold add_node. destruct (has_node g n) eqn:E; cbn [nodes].
  - apply has_node_In in E. split; [auto | intros [H | ->]; auto].
  - rewrite in_app_iff. cbn [In]. intuition congruence.
Qed.

Lemma add_node_NoDup (n : string) (g : Graph) :
  List.NoDup (nodes g) -> List.NoDup (nodes (add_node n g)).
Proof.
  intros Hnd. unfold add_node. destruct (has_node g n) eqn:E; cbn [nodes].
  - exact Hnd.
  - apply List.NoDup_app; [exact Hnd | |].
    + apply List.NoDup_cons; [intros [] | constructor].
    + intros x Hx [<- | []]. apply has_node_In in Hx. congruence.
Qed.

Lemma add_edge_In (u v x : string) (g : Graph) :
  In x (nodes (add_edge u v g)) <-> In x (nodes g) \/ x = u \/ x = v.
Proof.
  unfold add_edge. destruct (has_edge _ u v); cbn [nodes];
    rewrite !add_node_In; tauto.
Qed.

Lemma add_edge_NoDup (u v : string) (g : Graph) :
  List.NoDup (nodes g) -> List.NoDup (nodes (add_edge u v g)).
Proof.
  intros Hnd. unfold add_edge. destruct (has_edge _ u v); cbn [nodes];
    now do 2 apply add_node_NoDup.
Qed.

Lemma add_edge_edges (u v : string) (g : Graph) :
  edges (add_edge u v g)
  = if existsb (same_pair u v) (edges g) then edges g
    else (edges g ++ [(u, v)])%list.
Proof.
  unfold add_edge, has_edge. rewrite !add_node_edges.
  destruct (existsb (same_pair u v) (edges g)); cbn [edges];
    now rewrite ?add_node_edges.
Qed.

Lemma add_pairs_app (ps qs acc : list (string * string)) :
  add_pairs (ps ++ qs) acc = add_pairs qs (add_pairs ps acc).
Proof.
  revert acc. induction ps as [|p ps IH]; intros acc; cbn [add_pairs app];
    [reflexivity | apply IH].
Qed.

Lemma distinct_pairs_snoc (ps : list (string * string)) (u v : string) :
  distinct_pairs (ps ++ [(u, v)])
  = if existsb (same_pair u v) (distinct_pairs ps) then distinct_pairs ps
    else (distinct_pairs ps ++ [(u, v)])%list.
Proof. unfold distinct_pairs. now rewrite add_pairs_app. Qed.

Lemma add_pairs_length (ps acc : list (string * string)) :
  (length (add_pairs ps acc) <= length acc + length ps)%nat.
Proof.
  revert acc. induction ps as [|p ps IH]; intros acc; cbn [add_pairs length];
    [lia|].
  etransitivity; [apply IH|].
  destruct (existsb _ acc); [lia|]. rewrite length_app. cbn [length]. lia.
Qed.

Lemma same_pair_sym (p q : string * string) :
  same_pair (fst p) (snd p) q = same_pair (fst q) (snd q) p.
Proof.
  destruct p as [a b], q as [c d]. unfold same_pair. cbn [fst snd].
  rewrite (String.eqb_sym c a), (String.eqb_sym d b).
  rewrite (String.eqb_sym c b), (String.eqb_sym d a).
  destruct (String.eqb a c), (String.eqb b d), (String.eqb b c),
    (String.eqb a d); reflexivity.
Qed.

(** Pairs that are pairwise unlike, and unlike the pairs already there, are
    all added. *)
Lemma add_pairs_no_parallel (ps acc : list (string * string)) :
  Spec.no_parallel ps ->
  (forall p q, In p ps -> In q acc -> same_pair (fst p) (snd p) q = false) ->
  add_pairs ps acc = (acc ++ ps)%list.
Proof.
  unfold Spec.no_parallel. revert acc.
  induction ps as [|p ps IH]; intros acc Hord Hacc; cbn [add_pairs].
  - now rewrite app_nil_r.
  - inversion Hord as [|? ? Hp Hps]; subst.
    assert (E : existsb (same_pair (fst p) (snd p)) acc = false).
    { apply not_true_is_false. intros H. apply existsb_exists in H as (q & Hq & E).
      rewrite Hacc in E; [discriminate | now left | exact Hq]. }
    rewrite E, IH; [now rewrite <- app_assoc | exact Hps |].
    intros p' q Hp' Hq. apply in_app_or in Hq as [Hq | [<- | []]].
    + apply Hacc; [now right | exact Hq].
    + rewrite List.Forall_forall in Hp. specialize (Hp p' Hp').
      now rewrite same_pair_sym.
Qed.

End GraphFacts.

(** ** The graph invariant of the builder *)

Section GraphInvariant.

Import Pandas Builder Spec.
Local Open Scope builder_scope.

Lemma keys_get {V : Type} (k : string) (d : PyDict.dict V) :
  In k (PyDict.keys d) -> exists v, PyDict.get k d = Some v.
Proof.
  intros Hin. destruct (PyDict.get k d) as [v|] eqn:E; [now exists v|].
  apply get_None_keys in E. contradiction.
Qed.

Lemma has_key_extends (k : string) (a b : t) :
  extends a b -> has_key k a -> has_key k b.
Proof.
  intros [Hreg _] Hk. apply keys_get in Hk as [n Hn].
  apply Hreg in Hn. now apply get_Some_keys in Hn.
Qed.

Lemma has_key_adds (k : string) (node : NodeManager.NodeData) (self self' : t) :
  adds k node self self' -> has_key k self'.
Proof.
  intros Hadd. destruct (registry_adds _ _ _ _ Hadd) as (Hreg & _).
  unfold has_key. rewrite Hreg.
  apply (get_Some_keys k node). apply get_set_same.
Qed.

Lemma graph_ok_adds (k : string) (node : NodeManager.NodeData) (self self' : t) :
  adds k node self self' -> graph_ok self -> graph_ok self'.
Proof.
  intros Hadd (Hedges & Hnodes & Hnd & Hpairs).
  pose proof (extends_adds _ _ _ _ Hadd) as Hext.
  destruct (registry_adds _ _ _ _ Hadd) as (_ & He & Hg & _).
  unfold graph_ok. rewrite He, Hg. repeat split; auto.
  - apply (has_key_extends _ self); [exact Hext | now apply Hedges].
  - apply (has_key_extends _ self); [exact Hext | now apply Hedges].
  - intros n Hn. apply (has_key_extends _ self); [exact Hext | now apply Hnodes].
Qed.

Lemma graph_ok_append_edge (e : Edge) (self : t) :
  graph_ok self -> has_key (source e) self -> has_key (target e) self ->
  graph_ok (fst (append_edge e self)).
Proof.
  intros (Hedges & Hnodes & Hnd & Hpairs) Hs Ht.
  unfold graph_ok, append_edge.
  cbn [fst edges graph node_manager registry].
  change (NodeManager.nodes (node_manager self)) with (registry self).
  split; [|split; [|split]].
  - intros e' Hin. apply in_app_or in Hin as [Hin | [<- | []]]; auto.
  - intros n Hn. apply add_edge_In in Hn as [Hn | [-> | ->]]; auto.
  - now apply add_edge_NoDup.
  - rewrite add_edge_edges, map_app. cbn [map].
    unfold endpoints at 2. rewrite distinct_pairs_snoc. now rewrite Hpairs.
Qed.

Lemma create_or_get_domain_returns (d ty : string) (md : gmap string cell)
    (self : t) :
  (exists n, snd (_create_or_get_domain_node d ty md self) = Ok n)
  /\ has_key d (fst (_create_or_get_domain_node d ty md self)).
Proof.
  split.
  - unfold _create_or_get_domain_node.
    destruct (NodeManager.get_node d (node_manager self)); cbn [snd]; eauto.
  - destruct (create_or_get_domain_cases d ty md self) as [(n & Hn & ->) | Hadd].
    + now apply get_Some_keys in Hn.
    + now apply has_key_adds in Hadd.
Qed.

Lemma create_or_get_crypto_returned (a : string) (chain : cell)
    (md : gmap string cell) (self : t) (n : NodeManager.NodeData) :
  snd (_create_or_get_crypto_node a chain md self) = Ok n ->
  has_key a (fst (_create_or_get_crypto_node a chain md self)).
Proof.
  unfold _create_or_get_crypto_node, create_crypto_node, NodeManager.get_node.
  fold (registry self).
  destruct (PyDict.get a (registry self)) as [n0|] eqn:E; cbn [fst snd].
  - intros _. now apply get_Some_keys in E.
  - destruct chain as [|c|t]; cbn [fst snd]; try discriminate.
    intros _. apply (has_key_adds a
      (snd (NodeManager.create_crypto_node a c md (node_manager self))) self).
    split; [exact E | reflexivity].
Qed.

Lemma graph_ok_create_or_get_domain (d ty : string) (md : gmap string cell)
    (self : t) :
  graph_ok self -> graph_ok (fst (_create_or_get_domain_node d ty md self)).
Proof.
  intros H.
  destruct (create_or_get_domain_cases d ty md self) as [(n & _ & ->) | Hadd];
    [exact H | now apply (graph_ok_adds _ _ _ _ Hadd)].
Qed.

Lemma graph_ok_create_or_get_crypto (a : string) (chain : cell)
    (md : gmap string cell) (self : t) :
  graph_ok self -> graph_ok (fst (_create_or_get_crypto_node a chain md self)).
Proof.
  intros H.
  destruct (create_or_get_crypto_cases a chain md self) as [-> | (c & _ & Hadd)];
    [exact H | now apply (graph_ok_adds _ _ _ _ Hadd)].
Qed.

(** Get-or-create of the target, then the edge: the invariant and the source
    key stay, whether the first step returns or raises. *)
Lemma link_keeps_graph_ok (s : string) (m : M NodeManager.NodeData) (e : Edge) :
  source e = s ->
  (forall self, graph_ok self -> graph_ok (fst (m self))) ->
  (forall self, extends self (fst (m self))) ->
  (forall self n, snd (m self) = Ok n -> has_key (target e) (fst (m self))) ->
  hoare (fun b => graph_ok b /\ has_key s b)
        (bind m (fun _ => append_edge e))
        (fun b => graph_ok b /\ has_key s b).
Proof.
  intros Hsrc Hok Hext Hkey self [Hg Hs]. unfold bind.
  specialize (Hok self Hg). specialize (Hext self). specialize (Hkey self).
  destruct (m self) as [self' [n | err]]; cbn [fst snd] in *.
  - pose proof (has_key_extends s _ _ Hext Hs) as Hs'.
    split.
    + apply graph_ok_append_edge; [exact Hok | now rewrite Hsrc | now apply (Hkey n)].
    + exact Hs'.
  - split; [exact Hok | now apply (has_key_extends s self)].
Qed.

Lemma graph_ok_process_row (row : Row) :
  hoare graph_ok (_process_row row) graph_ok.
Proof.
  apply (hoare_process_row graph_ok (fun s b => graph_ok b /\ has_key s b)).
  - intros s self H. split.
    + now apply graph_ok_create_or_get_domain.
    + apply create_or_get_domain_returns.
  - intros s d col. unfold _create_domain_relationship.
    destruct (_ || _); [apply hoare_ret|].
    apply link_keeps_graph_ok; [reflexivity | | |].
    + intros self. apply graph_ok_create_or_get_domain.
    + intros self. apply extends_create_or_get_domain.
    + intros self n _. apply create_or_get_domain_returns.
  - intros s a. unfold _create_crypto_relationship.
    destruct (PyStr.is_empty a); [apply hoare_ret|].
    apply link_keeps_graph_ok; [reflexivity | | |].
    + intros self. apply graph_ok_create_or_get_crypto.
    + intros self. apply extends_create_or_get_crypto.
    + intros self n. apply create_or_get_crypto_returned.
  - intros s self [H _]. exact H.
Qed.

Lemma graph_ok_process_rows (df : list Row) (self : t) :
  graph_ok (process_rows df (clear self)).
Proof.
  apply (process_rows_keeps graph_ok).
  - intros b p s H. exact H.
  - apply graph_ok_process_row.
  - split; [|split; [|split]].
    + intros e [].
    + intros n [].
    + constructor.
    + reflexivity.
Qed.

End GraphInvariant.

(** ** Statistics: the density *)

Section DensityClaims.

Import Pandas Builder Spec.

Lemma Qdiv_double (a b : Q) : ~ (b == 0)%Q -> (a / b * 2 == (2 * a) / b)%Q.
Proof. intros Hb. field. exact Hb. Qed.

(** [nx.density] behind the builder's guard, in closed form. *)
Lemma guarded_density (g : Nx.Graph) :
  let n := Nx.number_of_nodes g in
  let m := Nx.number_of_edges g in
  ((if n >? 0 then Nx.density g else 0)
   == (if n >? 1 then inject_Z (2 * m) / inject_Z (n * (n - 1)) else 0))%Q.
Proof.
  cbn zeta. unfold Nx.density.
  set (n := Nx.number_of_nodes g). set (m := Nx.number_of_edges g).
  destruct (Z.gtb_spec n 1) as [Hn | Hn].
  - destruct (Z.gtb_spec n 0); [|lia].
    destruct (Z.leb_spec n 1); [lia|]. rewrite orb_false_r.
    assert (Hd : ~ (inject_Z (n * (n - 1)) == 0)%Q).
    { unfold Qeq. cbn. nia. }
    destruct (Z.eqb_spec m 0) as [-> | Hm].
    + cbn [Z.mul]. unfold Qdiv. now rewrite Qmult_0_l.
    + rewrite (inject_Z_mult 2 m). now apply Qdiv_double.
  - destruct (n >? 0); [|reflexivity].
    destruct (Z.leb_spec n 1); [|lia]. now rewrite orb_true_r.
Qed.

(** Adding the registered nodes to the graph: the edges stay, no node is
    listed twice, and the nodes are those of before and the added ids. *)
Lemma add_attributes_graph (l : list NodeManager.NodeData) (g : Nx.Graph) :
  let g' := fold_left (fun g node => Nx.add_node (NodeManager.id node) g) l g in
  Nx.edges g' = Nx.edges g
  /\ (List.NoDup (Nx.nodes g) -> List.NoDup (Nx.nodes g'))
  /\ (forall x, In x (Nx.nodes g')
                <-> In x (Nx.nodes g) \/ In x (map NodeManager.id l)).
Proof.
  cbn zeta. revert g. induction l as [|node l IH]; intros g; cbn [fold_left map In].
  - repeat split; tauto.
  - destruct (IH (Nx.add_node (NodeManager.id node) g)) as (He & Hnd & Hin).
    split; [|split].
    + now rewrite He, add_node_edges.
    + intros H. apply Hnd. now apply add_node_NoDup.
    + intros x. rewrite Hin, add_node_In. intuition congruence.
Qed.

Lemma values_ids (self : t) :
  registry_ok self ->
  map NodeManager.id (PyDict.values (registry self)) = PyDict.keys (registry self).
Proof.
  intros [_ Hids]. unfold PyDict.values, PyDict.keys. rewrite map_map.
  apply map_ext_in. intros [k n] Hin. cbn [fst snd]. now apply Hids.
Qed.

(** After [build_graph] the graph has one node per registered entity, and one
    edge per distinct unordered pair of the edge list. *)
Lemma built_graph_counts (df : list Row) (self : t) :
  let final := built df self in
  Nx.number_of_nodes (graph final) = Z.of_nat (length (registry final))
  /\ Nx.number_of_edges (graph final)
     = Z.of_nat (length (Nx.distinct_pairs (map endpoints (edges final)))).
Proof.
  cbn zeta. unfold built.
  set (b := process_rows df (clear self)).
  pose proof (graph_ok_process_rows df self) as (Hedges & Hnodes & Hnd & Hpairs).
  pose proof (registry_ok_process_rows df (clear self) (registry_ok_clear self))
    as Hreg.
  fold b in Hedges, Hnodes, Hnd, Hpairs, Hreg.
  destruct (add_attributes_graph
              (NodeManager.get_all_nodes (node_manager b)) (graph b))
    as (He & Hnd' & Hin).
  change (registry (_add_node_attributes_to_graph b)) with (registry b).
  change (edges (_add_node_attributes_to_graph b)) with (edges b).
  unfold _add_node_attributes_to_graph. cbn [graph].
  unfold Nx.number_of_nodes, Nx.number_of_edges. split.
  - f_equal.
    unfold NodeManager.get_all_nodes in Hin.
    change (NodeManager.nodes (node_manager b)) with (registry b) in Hin.
    rewrite (values_ids b Hreg) in Hin.
    rewrite <- (length_map fst (registry b)).
    change (map fst (registry b)) with (PyDict.keys (registry b)).
    apply Nat.le_antisymm.
    + apply NoDup_incl_length; [now apply Hnd'|].
      intros x Hx. apply Hin in Hx as [Hx | Hx]; auto.
    + apply NoDup_incl_length; [apply Hreg|].
      intros x Hx. apply Hin. now right.
  - now rewrite He, Hpairs.
Qed.

(** C8 (as amended). The network_density statistic equals 2M / (N(N-1)) for
    N > 1 and 0 otherwise, where N is the node count of the same statistics
    and M is the number of distinct unordered endpoint pairs among the edges
    the statistics count, so M is at most the edge count E and equals it when
    no two edges join the same pair; in particular N = 4 with three edges on
    distinct pairs gives 0.5. *)
Theorem network_density_formula (df : list Row) (self : t) :
  let snap := snd (build_graph df self) in
  let st := statistics snap in
  let N := stat_nodes st in
  let E := stat_edges st in
  let M := Z.of_nat (length (Nx.distinct_pairs (map endpoints (links snap)))) in
  (network_density st
   == if N >? 1 then inject_Z (2 * M) / inject_Z (N * (N - 1)) else 0)%Q
  /\ M <= E
  /\ (no_parallel (map endpoints (links snap)) -> M = E)
  /\ (N = 4 -> M = 3 -> (network_density st == 1 # 2)%Q).
Proof.
  cbn zeta. unfold build_graph. cbn [snd links statistics].
  unfold _generate_statistics.
  cbn [stat_nodes stat_edges network_density].
  unfold NodeManager.get_node_statistics. cbn [NodeManager.total_nodes].
  destruct (built_graph_counts df self) as [HN HM]. cbn zeta in HN, HM.
  set (final := built df self) in *.
  change (NodeManager.nodes (node_manager final)) with (registry final).
  set (N := Z.of_nat (length (registry final))) in *.
  set (M := Z.of_nat (length (Nx.distinct_pairs (map endpoints (edges final))))) in *.
  assert (Hformula :
    ((if Nx.number_of_nodes (graph final) >? 0 then Nx.density (graph final) else 0)
     == (if N >? 1 then inject_Z (2 * M) / inject_Z (N * (N - 1)) else 0))%Q).
  { pose proof (guarded_density (graph final)) as H. cbn zeta in H.
    rewrite <- HN, <- HM. exact H. }
  split; [exact Hformula|]. split; [|split].
  - subst M. pose proof (add_pairs_length (map endpoints (edges final)) []) as H.
    unfold Nx.distinct_pairs. rewrite length_map in H. cbn [length] in H. lia.
  - intros Hsimple. subst M. unfold Nx.distinct_pairs.
    rewrite add_pairs_no_parallel; [| exact Hsimple | intros p q _ []].
    cbn [app]. now rewrite length_map.
  - intros HN4 HM3. rewrite Hformula, HN4, HM3. reflexivity.
Qed.

(** The scenario of the specification, through the formula: N = 4 and M = 3
    give one half. *)
Lemma network_density_formula_witness :
  (network_density (statistics (snd (build_graph [SampleRows.evil] init)))
   == 1 # 2)%Q.
Proof.
  destruct (network_density_formula [SampleRows.evil] init) as (_ & _ & _ & H).
  apply H; reflexivity.
Defined.

(** C8 as stated fails: the same pair listed by two rows is two edges in the
    statistics and one edge in the graph, so with N = 2 and E = 2 the density
    is 1 where 2E / (N(N-1)) is 2. *)
Lemma parallel_edges_density :
  let st := statistics (snd (build_graph [SampleRows.pair_row; SampleRows.pair_row] init)) in
  stat_nodes st = 2
  /\ stat_edges st = 2
  /\ (network_density st == 1)%Q
  /\ (inject_Z (2 * stat_edges st) / inject_Z (stat_nodes st * (stat_nodes st - 1))
      == 2)%Q.
Proof. cbn zeta. repeat split. Qed.

(** The scenario of the specification: four nodes, three edges on distinct
    pairs, density one half. *)
Example scenario_density :
  let st := statistics (snd (build_graph [SampleRows.evil] init)) in
  stat_nodes st = 4 /\ stat_edges st = 3 /\ (network_density st == 1 # 2)%Q.
Proof. cbn zeta. repeat split. Qed.

End DensityClaims.

(** ** What a row registers *)

Section RowRegisters.

Import Pandas Builder Spec.
Local Open Scope builder_scope.

Lemma bind_returns {A B : Type} (m : M A) (k : A -> M B) (self : t) (a : A) :
  snd (m self) = Ok a -> bind m k self = k a (fst (m self)).
Proof.
  unfold bind. destruct (m self) as [self' [a' | e]]; cbn [fst snd];
    [now intros [= ->] | discriminate].
Qed.



Lemma extends_for_each {A : Type} (xs : list A) (body : A -> M unit) (self : t) :
  (forall x b, extends b (fst (body x b))) ->
  extends self (fst (for_each xs body self)).
Proof.
  intros Hbody.
  apply (hoare_for_each (extends self)); [|apply extends_refl].
  intros x b H. eapply extends_trans; [exact H | apply Hbody].
Qed.



(** One address under a chain that is a string: the call returns, and the
    address is registered. *)
Lemma crypto_relationship_registers (s a c : string) (row : Row) (self : t) :
  (exists u, snd (_create_crypto_relationship s a (Str c) row self) = Ok u)
  /\ (a <> "" ->
      has_key a (fst (_create_crypto_relationship s a (Str c) row self))).
Proof.
  unfold _create_crypto_relationship.
  destruct (PyStr.is_empty a) eqn:Eempty.
  { split; [now exists tt|]. intros Hne. destruct a; [contradiction | discriminate]. }
  set (md := {[ "discovery_method" := get row "discovery_method" (Str "");
                "source_domain" := Str s ]}).
  assert (Hret : exists n, snd (_create_or_get_crypto_node a (Str c) md self) = Ok n).
  { unfold _create_or_get_crypto_node, create_crypto_node.
    destruct (NodeManager.get_node a (node_manager self)); cbn [snd]; eauto. }
  destruct Hret as [n Hn]. rewrite (bind_returns _ _ _ _ Hn).
  split; [now exists tt|]. intros _.
  now apply (create_or_get_crypto_returned a (Str c) md self n).
Qed.





End RowRegisters.

(** ** Uniqueness and first-write-wins *)

Section RegistryClaims.

Import Pandas Builder Spec.
Local Open Scope builder_scope.




Lemma built_registry (df : list Row) (self : t) :
  registry (built df self) = registry (process_rows df (clear self)).
Proof. reflexivity. Qed.

Lemma snapshot_nodes (df : list Row) (self : t) :
  nodes (snd (build_graph df self)) = PyDict.values (registry (built df self)).
Proof. reflexivity. Qed.






(** It fails for addresses too: a row whose chain cell is empty raises at
    its address, so the address it names has no entity either. *)
Lemma missing_chain_address_unregistered :
  let snap := snd (build_graph [SampleRows.missing_chain_row] init) in
  SampleRows.missing_chain_row !! "crypto_address" = Some (Str "X1")
  /\ _parse_crypto_list (Str "X1") = ["X1"]
  /\ map NodeManager.id (nodes snap) = ["a.com"; "b.com"]
  /\ entities_with_id "X1" (nodes snap) = [].
Proof. cbn zeta. repeat split. Qed.

(** First-write-wins on the scenario of the specification: two rows name the
    same source with different discovery methods, and the node keeps the
    first. *)
Example first_write_wins_scenario :
  let row1 : Row := {[ "source_domain" := Str "a.com";
                       "lookalike_domain" := Str "b.com";
                       "discovery_method" := Str "manual intel" ]} in
  let row2 : Row := {[ "source_domain" := Str "a.com";
                       "lookalike_domain" := Str "c.com";
                       "discovery_method" := Str "automated scan" ]} in
  map (fun n => (NodeManager.id n,
                 match NodeManager.metadata n with
                 | NodeManager.DomainMeta _ _ _ _ _ dm _ => dm
                 | NodeManager.CryptoMeta _ _ dm _ _ => dm
                 end))
      (nodes (snd (build_graph [row1; row2] init)))
  = [ ("a.com", Str "manual intel"); ("b.com", Str "manual intel");
      ("c.com", Str "automated scan") ].
Proof. reflexivity. Qed.

End RegistryClaims.

(** ** Self-loops *)

Section SelfLoops.

Import Pandas Builder Spec.
Local Open Scope builder_scope.

Lemma edges_create_or_get_domain (d ty : string) (md : gmap string cell)
    (self : t) :
  edges (fst (_create_or_get_domain_node d ty md self)) = edges self.
Proof.
  destruct (create_or_get_domain_cases d ty md self) as [(n & _ & ->) | Hadd];
    [reflexivity | apply (registry_adds _ _ _ _ Hadd)].
Qed.

Lemma edges_create_or_get_crypto (a : string) (chain : cell)
    (md : gmap string cell) (self : t) :
  edges (fst (_create_or_get_crypto_node a chain md self)) = edges self.
Proof.
  destruct (create_or_get_crypto_cases a chain md self) as [-> | (c & _ & Hadd)];
    [reflexivity | apply (registry_adds _ _ _ _ Hadd)].
Qed.

(** The guard of [_create_domain_relationship] keeps self-loops out of the
    domain-to-domain edges, for every row set. *)
Lemma domain_edges_no_self_loop (df : list Row) (self : t) (e : Edge) :
  In e (links (snd (build_graph df self))) ->
  chain e = None ->
  source e <> target e.
Proof.
  change (links (snd (build_graph df self)))
    with (edges (process_rows df (clear self))).
  revert e. change (domain_edges_proper (process_rows df (clear self))).
  apply (process_rows_keeps domain_edges_proper).
  - intros b p s H. exact H.
  - intros row.
    apply (hoare_process_row domain_edges_proper (fun _ => domain_edges_proper)).
    + intros s b H e. rewrite edges_create_or_get_domain. apply H.
    + intros s d col b H. unfold _create_domain_relationship.
      destruct (PyStr.is_empty (_normalize_domain (Str d))
                || String.eqb (_normalize_domain (Str d)) s) eqn:Eguard;
        [exact H|].
      apply orb_false_elim in Eguard as [_ Hdiff].
      apply String.eqb_neq in Hdiff.
      destruct (create_or_get_domain_returns (_normalize_domain (Str d)) col
                  (domain_metadata row (_normalize_domain (Str d))) b)
        as [[n Hn] _].
      rewrite (bind_returns _ _ _ _ Hn).
      intros e He Hchain. cbn [append_edge fst edges] in He.
      rewrite edges_create_or_get_domain in He.
      apply in_app_or in He as [He | [<- | []]]; [now apply H|].
      cbn [source target]. congruence.
    + intros s a b H. unfold _create_crypto_relationship.
      destruct (PyStr.is_empty a); [exact H|].
      intros e He Hchain. unfold bind in He.
      pose proof (edges_create_or_get_crypto a (get row "chain" (Str "BTC"))
                    {[ "discovery_method" := get row "discovery_method" (Str "");
                       "source_domain" := Str s ]} b) as Hedges.
      destruct (_create_or_get_crypto_node a _ _ b) as [b' [n | err]];
        cbn [fst append_edge edges] in He, Hedges; rewrite Hedges in He.
      * apply in_app_or in He as [He | [<- | []]]; [now apply H|].
        discriminate Hchain.
      * now apply H.
    + intros s b H. exact H.
  - intros e [].
Qed.

(** C3 on the failing input: an address spelled like its source domain is
    joined to it by a domain-to-crypto edge whose two ends are the same
    identity, under the one node both names share. *)
Lemma crypto_edge_self_loop :
  let snap := snd (build_graph [SampleRows.same_name_row] init) in
  map NodeManager.id (nodes snap) = ["abc"]
  /\ map (fun e => (source e, target e, type e)) (links snap)
     = [("abc", "abc", "domain_to_crypto")].
Proof. cbn zeta. split; reflexivity. Qed.

End SelfLoops.

(** ** Further properties of the build *)

Section BuildFacts.

Import Pandas Builder Spec.

(** The first edge of the scenario of the specification. *)
Lemma domain_edges_no_self_loop_witness :
  let e := mkEdge "evil.com" "evil-2.com" "lookalike_domain" None (Str "")
             "#3498db" in
  In e (links (snd (build_graph [SampleRows.evil] init)))
  /\ source e <> target e.
Proof.
  cbn zeta. split.
  - vm_compute. left. reflexivity.
  - apply (domain_edges_no_self_loop [SampleRows.evil] init).
    + vm_compute. left. reflexivity.
    + reflexivity.
Defined.

Lemma counters_process_rows (df : list Row) (self : t) :
  processed_rows (process_rows df self) + skipped_rows (process_rows df self)
  = processed_rows self + skipped_rows self + Z.of_nat (length df).
Proof.
  unfold process_rows. revert self.
  induction df as [|row df IH]; intros self; cbn [fold_left length]; [lia|].
  rewrite IH. unfold process_one.
  pose proof (counts_process_row row _ _ self (conj eq_refl eq_refl)) as [Hp Hs].
  destruct (_process_row row self) as [self' [[] | e]]; cbn in *; lia.
Qed.

(** Row accounting: every row of the input is counted once, as processed or
    as skipped. *)
Theorem row_accounting (df : list Row) (self : t) :
  let st := statistics (snd (build_graph df self)) in
  stat_processed_rows st + stat_skipped_rows st = Z.of_nat (length df).
Proof.
  cbn zeta.
  change (stat_processed_rows (statistics (snd (build_graph df self))))
    with (processed_rows (process_rows df (clear self))).
  change (stat_skipped_rows (statistics (snd (build_graph df self))))
    with (skipped_rows (process_rows df (clear self))).
  rewrite counters_process_rows. cbn. lia.
Qed.

End BuildFacts.

(* ================================================================== *)
(** * Part III: further properties of the code *)
(* ================================================================== *)

(** ** Normalized keys and parsed lists *)

Section KeyShape.

Import PyStr Pandas Shape.

Lemma is_space_lower_char (c : ascii) : is_space (lower_char c) = is_space c.
Proof. destruct c as [[] [] [] [] [] [] [] []]; reflexivity. Qed.

Lemma lower_char_idem (c : ascii) : lower_char (lower_char c) = lower_char c.
Proof. destruct c as [[] [] [] [] [] [] [] []]; reflexivity. Qed.

Lemma lower_char_comma (c : ascii) :
  Ascii.eqb (lower_char c) "," = Ascii.eqb c ",".
Proof. destruct c as [[] [] [] [] [] [] [] []]; reflexivity. Qed.

Lemma lower_idem (s : string) : lower (lower s) = lower s.
Proof.
  induction s as [|c s IH]; cbn [lower]; [reflexivity|].
  now rewrite lower_char_idem, IH.
Qed.

Lemma is_empty_lower (s : string) : is_empty (lower s) = is_empty s.
Proof. now destruct s. Qed.

Lemma lower_lstrip (s : string) :
  lower (lstrip_chars is_space s) = lstrip_chars is_space (lower s).
Proof.
  induction s as [|c s IH]; cbn [lower lstrip_chars]; [reflexivity|].
  rewrite is_space_lower_char. now destruct (is_space c).
Qed.

Lemma lower_rstrip (s : string) :
  lower (rstrip_chars is_space s) = rstrip_chars is_space (lower s).
Proof.
  induction s as [|c s IH]; cbn [lower rstrip_chars]; [reflexivity|].
  rewrite <- IH, is_empty_lower, is_space_lower_char.
  now destruct (is_empty (rstrip_chars is_space s) && is_space c).
Qed.

(** Lower-casing and stripping commute. *)
Lemma lower_strip (s : string) : lower (strip s) = strip (lower s).
Proof. unfold strip. now rewrite lower_rstrip, lower_lstrip. Qed.

Lemma rstrip_chars_idem (p : ascii -> bool) (s : string) :
  rstrip_chars p (rstrip_chars p s) = rstrip_chars p s.
Proof.
  induction s as [|c s IH]; cbn [rstrip_chars]; [reflexivity|].
  destruct (is_empty (rstrip_chars p s) && p c) eqn:E; [reflexivity|].
  cbn [rstrip_chars]. now rewrite IH, E.
Qed.

(** What is left of [lstrip] is empty or begins outside [p]. *)
Lemma lstrip_chars_head (p : ascii -> bool) (s : string) :
  lstrip_chars p s = ""
  \/ exists c r, lstrip_chars p s = String c r /\ p c = false.
Proof.
  induction s as [|c s IH]; cbn [lstrip_chars]; [now left|].
  destruct (p c) eqn:E; [exact IH|]. right. now exists c, s.
Qed.

Lemma strip_idem (s : string) : strip (strip s) = strip s.
Proof.
  unfold strip.
  destruct (lstrip_chars_head is_space s) as [-> | (c & r & -> & Hc)];
    [reflexivity|].
  assert (E : rstrip_chars is_space (String c r)
              = String c (rstrip_chars is_space r)).
  { cbn [rstrip_chars]. now rewrite Hc, andb_false_r. }
  rewrite E. cbn [lstrip_chars]. rewrite Hc, <- E.
  apply rstrip_chars_idem.
Qed.

Lemma all_chars_lstrip (p q : ascii -> bool) (s : string) :
  all_chars p s = true -> all_chars p (lstrip_chars q s) = true.
Proof.
  induction s as [|c s IH]; cbn [lstrip_chars all_chars]; [auto|].
  intros H. apply andb_prop in H as [Hc Hs].
  destruct (q c); [auto|]. cbn [all_chars]. now rewrite Hc, Hs.
Qed.

Lemma all_chars_rstrip (p q : ascii -> bool) (s : string) :
  all_chars p s = true -> all_chars p (rstrip_chars q s) = true.
Proof.
  induction s as [|c s IH]; cbn [rstrip_chars all_chars]; [auto|].
  intros H. apply andb_prop in H as [Hc Hs].
  destruct (is_empty (rstrip_chars q s) && q c); [reflexivity|].
  cbn [all_chars]. now rewrite Hc, IH.
Qed.

Lemma all_chars_drop (p : ascii -> bool) (n : nat) (s : string) :
  all_chars p s = true -> all_chars p (drop n s) = true.
Proof.
  revert s. induction n as [|n IH]; intros s H; [exact H|].
  destruct s as [|c s]; [exact H|]. cbn [drop].
  apply andb_prop in H as [_ Hs]. now apply IH.
Qed.

(** Removing the occurrences of a pattern keeps what held of every
    character. *)
Lemma all_chars_remove (p : ascii -> bool) (old s : string) :
  all_chars p s = true -> all_chars p (replace s old "") = true.
Proof.
  unfold replace. generalize 0%nat as skip.
  induction s as [|c s IH]; intros skip H; cbn [replace_from]; [reflexivity|].
  apply andb_prop in H as [Hc Hs].
  destruct skip as [|k]; [|now apply IH].
  destruct (startswith (String c s) old).
  - cbn [append]. now apply IH.
  - cbn [all_chars]. now rewrite Hc, IH.
Qed.

Lemma all_chars_lower_fixed (s : string) :
  all_chars (fun c => Ascii.eqb (lower_char c) c) (lower s) = true.
Proof.
  induction s as [|c s IH]; cbn [lower all_chars]; [reflexivity|].
  now rewrite lower_char_idem, Ascii.eqb_refl, IH.
Qed.

Lemma all_chars_fixed_lower (s : string) :
  all_chars (fun c => Ascii.eqb (lower_char c) c) s = true -> lower s = s.
Proof.
  induction s as [|c s IH]; cbn [lower all_chars]; [reflexivity|].
  intros H. apply andb_prop in H as [Hc Hs].
  apply Ascii.eqb_eq in Hc. now rewrite Hc, IH.
Qed.

Lemma comma_free_lower (s : string) : comma_free (lower s) = comma_free s.
Proof.
  unfold comma_free. induction s as [|c s IH]; cbn [lower all_chars];
    [reflexivity|].
  now rewrite lower_char_comma, IH.
Qed.

(** The steps of the normalizer after lower-casing only remove characters. *)
Lemma normalize_keeps (p : ascii -> bool) (v : cell) :
  all_chars p (lower (strip (str v))) = true ->
  all_chars p (Builder._normalize_domain v) = true.
Proof.
  intros H. unfold Builder._normalize_domain.
  destruct (isna v); [reflexivity|].
  unfold rstrip_slash. apply all_chars_rstrip.
  set (r := replace (replace (lower (strip (str v))) "https://" "") "http://" "").
  assert (Hr : all_chars p r = true) by now do 2 apply all_chars_remove.
  destruct (startswith r "www."); [now apply all_chars_drop | exact Hr].
Qed.

End KeyShape.

Section KeyClaims.

Import PyStr Pandas Shape.

Lemma normalize_lowered (v : cell) :
  lower (Builder._normalize_domain v) = Builder._normalize_domain v.
Proof.
  apply all_chars_fixed_lower, normalize_keeps, all_chars_lower_fixed.
Qed.

Lemma normalize_rstripped (v : cell) :
  rstrip_slash (Builder._normalize_domain v) = Builder._normalize_domain v.
Proof.
  unfold Builder._normalize_domain. destruct (isna v); [reflexivity|].
  apply rstrip_chars_idem.
Qed.

Lemma lstrip_padding (before s : string) :
  all_chars is_space before = true ->
  lstrip_chars is_space (before ++ s) = lstrip_chars is_space s.
Proof.
  induction before as [|c before IH]; intros H; [reflexivity|].
  cbn [all_chars] in H. apply andb_true_iff in H as [Hc H].
  rewrite append_cons. cbn [lstrip_chars]. rewrite Hc. now apply IH.
Qed.

Lemma rstrip_padding (s after : string) :
  all_chars is_space after = true ->
  rstrip_chars is_space (s ++ after) = rstrip_chars is_space s.
Proof.
  intros H. induction s as [|c s IH].
  - cbn [String.append]. induction after as [|a after IHa]; [reflexivity|].
    cbn [all_chars] in H. apply andb_true_iff in H as [Ha H].
    cbn [rstrip_chars]. rewrite (IHa H), Ha. reflexivity.
  - rewrite append_cons. cbn [rstrip_chars]. now rewrite IH.
Qed.

Lemma strip_padding (before s after : string) :
  all_chars is_space before = true ->
  all_chars is_space after = true ->
  strip (before ++ s ++ after) = strip s.
Proof.
  intros Hb Ha. unfold strip. rewrite (lstrip_padding before _ Hb). clear Hb.
  induction s as [|c s IH].
  - cbn [String.append lstrip_chars rstrip_chars].
    replace (lstrip_chars is_space after) with EmptyString; [reflexivity|].
    clear -Ha. induction after as [|a after IHa]; [reflexivity|].
    cbn [all_chars] in Ha. apply andb_true_iff in Ha as [Hc Ha].
    cbn [lstrip_chars]. rewrite Hc. now apply IHa.
  - rewrite append_cons. cbn [lstrip_chars].
    destruct (is_space c); [exact IH|].
    rewrite <- append_cons. now apply rstrip_padding.
Qed.

(** The key ignores letter case and padding: a text and any respelling of
    it in other letter case (the two have the same lower-case form), with any
    blanks put before and after it, get the same key. *)
Theorem normalize_ignores_case_and_padding (a b before after : string) :
  lower a = lower b ->
  all_chars is_space before = true ->
  all_chars is_space after = true ->
  Builder._normalize_domain (Str (before ++ a ++ after))
  = Builder._normalize_domain (Str b).
Proof.
  intros Hcase Hb Ha. unfold Builder._normalize_domain. cbn [isna str].
  rewrite (strip_padding before a after Hb Ha).
  now rewrite !lower_strip, Hcase.
Qed.

(** Two spellings of one host, the first in capitals between a tab and
    blanks. *)
Lemma normalize_ignores_case_and_padding_witness :
  Builder._normalize_domain
    (Str (String "009" " " ++ "HTTP://Www.Evil.COM/" ++ "  "))
  = Builder._normalize_domain (Str "http://www.evil.com/").
Proof.
  apply (normalize_ignores_case_and_padding
           "HTTP://Www.Evil.COM/" "http://www.evil.com/"
           (String "009" " ") "  "); reflexivity.
Defined.

(** Every key is in lower case and does not end in a slash (lower-casing it
    or stripping slashes again changes nothing), and a missing cell has the
    empty key. *)
Theorem normalize_key_shape (v : cell) :
  let key := Builder._normalize_domain v in
  lower key = key
  /\ rstrip_slash key = key
  /\ (isna v = true -> key = "").
Proof.
  cbn zeta. split; [apply normalize_lowered|].
  split; [apply normalize_rstripped|].
  intros H. unfold Builder._normalize_domain. now rewrite H.
Qed.

Lemma split_comma_free (s piece : string) :
  In piece (split "," s) -> comma_free piece = true.
Proof.
  revert piece. induction s as [|c s IH]; intros piece; cbn [split].
  - intros [<- | []]. reflexivity.
  - destruct (Ascii.eqb c ",") eqn:E.
    + intros [<- | H]; [reflexivity | now apply IH].
    + destruct (split "," s) as [|h t] eqn:Es.
      * intros [<- | []]. unfold comma_free. cbn [all_chars]. now rewrite E.
      * intros [<- | H].
        -- unfold comma_free. cbn [all_chars]. rewrite E. cbn [negb andb].
           apply IH. now left.
        -- apply IH. now right.
Qed.

Lemma comma_free_strip (s : string) :
  comma_free s = true -> comma_free (strip s) = true.
Proof.
  intros H. unfold strip, comma_free. now apply all_chars_rstrip, all_chars_lstrip.
Qed.

(** Every address [_parse_crypto_list] returns is non-empty, has no blanks
    around it and no comma in it. *)
Theorem parse_crypto_list_entries (v : cell) (a : string) :
  In a (Builder._parse_crypto_list v) ->
  is_empty a = false /\ strip a = a /\ comma_free a = true.
Proof.
  unfold Builder._parse_crypto_list. destruct (isna v); [intros []|].
  intros H. apply filter_In in H as [H Hne].
  apply in_map_iff in H as (piece & <- & Hpiece).
  split; [now apply negb_true_iff in Hne|].
  split; [apply strip_idem|].
  apply comma_free_strip. now apply (split_comma_free (str v)).
Qed.

Lemma parse_crypto_list_entries_witness :
  is_empty "b2" = false /\ strip "b2" = "b2" /\ comma_free "b2" = true.
Proof.
  apply (parse_crypto_list_entries (Str " a1, ,b2 ,") "b2").
  vm_compute. tauto.
Defined.

(** Every entry [_parse_domain_list] returns is a non-empty key in lower
    case, with no trailing slash and no comma. *)
Theorem parse_domain_list_entries (v : cell) (d : string) :
  In d (Builder._parse_domain_list v) ->
  is_empty d = false
  /\ lower d = d /\ rstrip_slash d = d /\ comma_free d = true.
Proof.
  unfold Builder._parse_domain_list. destruct (isna v); [intros []|].
  intros H. apply filter_In in H as [H Hne].
  apply in_map_iff in H as (piece & <- & Hpiece).
  split; [now apply negb_true_iff in Hne|].
  split; [apply normalize_lowered|].
  split; [apply normalize_rstripped|].
  unfold comma_free. apply normalize_keeps. cbn [str].
  fold (comma_free (lower (strip (strip piece)))).
  rewrite comma_free_lower. do 2 apply comma_free_strip.
  now apply (split_comma_free (str v)).
Qed.

Lemma parse_domain_list_entries_witness :
  is_empty "evil3.com" = false
  /\ lower "evil3.com" = "evil3.com"
  /\ rstrip_slash "evil3.com" = "evil3.com"
  /\ comma_free "evil3.com" = true.
Proof.
  apply (parse_domain_list_entries (Str "evil-2.com, HTTPS://Evil3.com/ ,")
           "evil3.com").
  vm_compute. tauto.
Defined.

End KeyClaims.

(** ** How a row ends *)

Section Outcomes.

Import Pandas Builder Spec Outcome.
Local Open Scope builder_scope.

Lemma bind_raised {A B : Type} (m : M A) (k : A -> M B) (self : t) (e : exn) :
  snd (bind m k self) = Raised e ->
  snd (m self) = Raised e
  \/ exists a, snd (m self) = Ok a /\ snd (k a (fst (m self))) = Raised e.
Proof.
  unfold bind. destruct (m self) as [self' [a | e']]; cbn [fst snd]; intros H.
  - right. exists a. split; [reflexivity | exact H].
  - left. now injection H as ->.
Qed.

Lemma for_each_raised {A : Type} (xs : list A) (body : A -> M unit) (self : t)
    (e : exn) :
  snd (for_each xs body self) = Raised e ->
  exists x b, In x xs /\ snd (body x b) = Raised e.
Proof.
  revert self. induction xs as [|x xs IH]; intros self; cbn [for_each].
  - discriminate.
  - intros H. apply bind_raised in H as [H | (a & _ & H)].
    + exists x, self. split; [now left | exact H].
    + apply IH in H as (y & b & Hin & H). exists y, b. split; [now right | exact H].
Qed.

Lemma domain_relationship_returns (s d col : string) (row : Row) (self : t) :
  snd (_create_domain_relationship s d col row self) = Ok tt.
Proof.
  unfold _create_domain_relationship.
  destruct (_ || _); [reflexivity|].
  set (m := _create_or_get_domain_node _ _ _).
  destruct (create_or_get_domain_returns (_normalize_domain (Str d)) col
              (domain_metadata row (_normalize_domain (Str d))) self)
    as [[n Hn] _].
  fold m in Hn. now rewrite (bind_returns _ _ _ _ Hn).
Qed.

Lemma domain_column_returns (s col : string) (row : Row) (self : t) :
  snd (process_domain_column s col row self) = Ok tt.
Proof.
  unfold process_domain_column, get_none, getitem.
  destruct (row !! col) as [v|]; cbn [default id]; [|reflexivity].
  destruct (notna v); [|reflexivity].
  unfold bind, ret.
  destruct (for_each _ _ self) as [self' [[] | e]] eqn:E; [reflexivity|].
  exfalso.
  assert (H : snd (for_each (_parse_domain_list v)
                     (fun domain => _create_domain_relationship s domain col row)
                     self) = Raised e) by now rewrite E.
  apply for_each_raised in H as (x & b & _ & H).
  now rewrite domain_relationship_returns in H.
Qed.

Lemma crypto_relationship_raised (s a : string) (chain : cell) (row : Row)
    (self : t) (e : exn) :
  snd (_create_crypto_relationship s a chain row self) = Raised e ->
  e = AttributeError "lower" /\ forall c, chain <> Str c.
Proof.
  unfold _create_crypto_relationship.
  destruct (PyStr.is_empty a); [discriminate|].
  intros H. apply bind_raised in H as [H | (n & _ & H)]; [|discriminate].
  unfold _create_or_get_crypto_node, create_crypto_node in H.
  destruct (NodeManager.get_node a (node_manager self)); [discriminate|].
  destruct chain as [|c|t]; cbn [snd] in H.
  - injection H as <-. split; [reflexivity | discriminate].
  - destruct (NodeManager.create_crypto_node _ _ _ _). discriminate.
  - injection H as <-. split; [reflexivity | discriminate].
Qed.

Lemma crypto_column_raised (s : string) (row : Row) (self : t) (e : exn) :
  snd (process_crypto_column s row self) = Raised e ->
  e = AttributeError "lower"
  /\ notna (get_none row "crypto_address") = true
  /\ exists v, row !! "chain" = Some v /\ forall c, v <> Str c.
Proof.
  unfold process_crypto_column, getitem.
  destruct (notna (get_none row "crypto_address")) eqn:Hna; [|discriminate].
  unfold get_none in Hna.
  destruct (row !! "crypto_address") as [v|]; [|discriminate].
  clear Hna.
  intros H. apply bind_raised in H as [H | (a & _ & H)]; [discriminate|].
  apply for_each_raised in H as (x & b & _ & H).
  apply crypto_relationship_raised in H as [-> Hc].
  split; [reflexivity|]. split; [reflexivity|].
  unfold get in Hc. destruct (row !! "chain") as [w|]; cbn [default] in Hc.
  - now exists w.
  - now destruct (Hc "BTC").
Qed.

Lemma process_row_raised (row : Row) (self : t) (e : exn) :
  snd (_process_row row self) = Raised e ->
  (e = KeyError "source_domain"
   /\ row !! "source_domain" = None
   /\ fst (_process_row row self) = self)
  \/ (e = AttributeError "lower"
      /\ notna (get_none row "crypto_address") = true
      /\ exists v, row !! "chain" = Some v /\ forall c, v <> Str c).
Proof.
  unfold _process_row, getitem.
  destruct (row !! "source_domain") as [raw|].
  - intros H. right. apply bind_raised in H as [H | (a & _ & H)]; [discriminate|].
    destruct (PyStr.is_empty _); [discriminate|].
    apply bind_raised in H as [H | (n & _ & H)].
    { destruct (create_or_get_domain_returns (_normalize_domain a) "source_domain"
                  (domain_metadata row (_normalize_domain a)) (fst (ret raw self)))
        as [[n Hn] _]. rewrite Hn in H. discriminate. }
    apply bind_raised in H as [H | (u & _ & H)];
      [now rewrite domain_column_returns in H|].
    apply bind_raised in H as [H | (u' & _ & H)];
      [now rewrite domain_column_returns in H|].
    now apply crypto_column_raised in H.
  - intros H. left. cbn in H |- *. injection H as <-. auto.
Qed.

(** A row is given up for one of two reasons only: the frame has no
    [source_domain] column, and then nothing has changed; or the row has a
    crypto address while its chain cell holds something that is not text. *)
Theorem process_row_raises (row : Row) (self : t) (e : exn) :
  snd (_process_row row self) = Raised e ->
  (e = KeyError "source_domain"
   /\ row !! "source_domain" = None
   /\ fst (_process_row row self) = self)
  \/ (e = AttributeError "lower"
      /\ notna (get_none row "crypto_address") = true
      /\ exists v, row !! "chain" = Some v /\ forall c, v <> Str c).
Proof. apply process_row_raised. Qed.

Lemma process_row_raises_witness :
  (AttributeError "lower" = KeyError "source_domain"
   /\ SampleRows.missing_chain_row !! "source_domain" = None
   /\ fst (_process_row SampleRows.missing_chain_row init) = init)
  \/ (AttributeError "lower" = AttributeError "lower"
      /\ notna (get_none SampleRows.missing_chain_row "crypto_address") = true
      /\ exists v, SampleRows.missing_chain_row !! "chain" = Some v
                   /\ forall c, v <> Str c).
Proof.
  apply (process_row_raises SampleRows.missing_chain_row init
           (AttributeError "lower")).
  reflexivity.
Defined.

Lemma process_row_ok (row : Row) (raw : cell) (self : t) :
  row !! "source_domain" = Some raw -> chain_usable row ->
  snd (_process_row row self) = Ok tt.
Proof.
  intros Hsrc Hchain.
  destruct (snd (_process_row row self)) as [[] | e] eqn:E; [reflexivity|].
  exfalso. apply process_row_raised in E as [(_ & H & _) | (_ & _ & v & Hv & Hc)].
  - congruence.
  - destruct Hchain as [H | [c H]]; [congruence|].
    rewrite H in Hv. injection Hv as <-. now destruct (Hc c).
Qed.

(** A row of a frame that has the [source_domain] column, and whose chain is
    absent or text, is processed to the end. *)
Theorem process_row_returns (row : Row) (raw : cell) (self : t) :
  row !! "source_domain" = Some raw -> chain_usable row ->
  returns (_process_row row) self.
Proof. intros Hsrc Hchain. exists tt. now apply (process_row_ok row raw). Qed.

Lemma process_row_returns_witness :
  returns (_process_row SampleRows.evil) init.
Proof.
  apply (process_row_returns SampleRows.evil (Str "https://Evil.com/") init).
  - reflexivity.
  - right. exists "BTC". reflexivity.
Defined.

Lemma no_skips (df : list Row) (self : t) :
  (forall row, In row df ->
     (exists raw, row !! "source_domain" = Some raw) /\ chain_usable row) ->
  processed_rows (process_rows df self)
  = processed_rows self + Z.of_nat (length df)
  /\ skipped_rows (process_rows df self) = skipped_rows self.
Proof.
  revert self. induction df as [|row df IH]; intros self Hall.
  - cbn. split; lia.
  - change (process_rows (row :: df) self)
      with (process_rows df (process_one row self)).
    destruct (IH (process_one row self)) as [Hp Hs].
    { intros r Hr. apply Hall. now right. }
    rewrite Hp, Hs.
    destruct (Hall row (or_introl eq_refl)) as [[raw Hraw] Hchain].
    pose proof (process_row_ok row raw self Hraw Hchain) as Hok.
    pose proof (counts_process_row row (processed_rows self) (skipped_rows self)
                  self (conj eq_refl eq_refl)) as [Hp' Hs'].
    unfold process_one.
    destruct (_process_row row self) as [self' [[] | e]]; cbn [fst snd] in *;
      [|discriminate].
    cbn [with_counts processed_rows skipped_rows length]. split; lia.
Qed.

(** When every row has the source column and a chain that is absent or
    text, [build_graph] skips none: all rows count as processed. *)
Theorem usable_rows_never_skipped (df : list Row) (self : t) :
  (forall row, In row df ->
     (exists raw, row !! "source_domain" = Some raw) /\ chain_usable row) ->
  let st := statistics (snd (build_graph df self)) in
  stat_skipped_rows st = 0
  /\ stat_processed_rows st = Z.of_nat (length df).
Proof.
  intros Hall. cbn zeta.
  change (stat_skipped_rows (statistics (snd (build_graph df self))))
    with (skipped_rows (process_rows df (clear self))).
  change (stat_processed_rows (statistics (snd (build_graph df self))))
    with (processed_rows (process_rows df (clear self))).
  destruct (no_skips df (clear self) Hall) as [-> ->]. split; reflexivity.
Qed.

Lemma usable_rows_never_skipped_witness :
  let st := statistics (snd (build_graph [SampleRows.evil; SampleRows.no_chain_row] init)) in
  stat_skipped_rows st = 0
  /\ stat_processed_rows st = Z.of_nat (length [SampleRows.evil; SampleRows.no_chain_row]).
Proof.
  apply (usable_rows_never_skipped [SampleRows.evil; SampleRows.no_chain_row] init).
  intros row [<- | [<- | []]].
  - split; [now exists (Str "https://Evil.com/") | right; now exists "BTC"].
  - split; [now exists (Str "pay.example") | now left].
Defined.

End Outcomes.

(** ** The edge list as a function of the rows *)

Section LinksOfRows.

Import Pandas Builder Spec RowLinks.
Local Open Scope builder_scope.

Lemma edges_domain_relationship (s d col : string) (row : Row) (self : t) :
  edges (fst (_create_domain_relationship s d col row self))
  = (edges self ++ domain_link s col row d)%list.
Proof.
  unfold _create_domain_relationship, domain_link.
  destruct (_ || _); [cbn; now rewrite app_nil_r|].
  destruct (create_or_get_domain_returns (_normalize_domain (Str d)) col
              (domain_metadata row (_normalize_domain (Str d))) self)
    as [[n Hn] _].
  rewrite (bind_returns _ _ _ _ Hn). cbn [append_edge fst edges].
  now rewrite edges_create_or_get_domain.
Qed.

Lemma edges_crypto_relationship (s a c : string) (row : Row) (self : t) :
  get row "chain" (Str "BTC") = Str c ->
  edges (fst (_create_crypto_relationship s a (Str c) row self))
  = (edges self ++ crypto_link s row a)%list.
Proof.
  intros Hc. unfold _create_crypto_relationship, crypto_link.
  destruct (PyStr.is_empty a); [cbn; now rewrite app_nil_r|].
  set (md := ({[ "discovery_method" := get row "discovery_method" (Str "");
                 "source_domain" := Str s ]} : gmap string cell)).
  assert (Hn : exists n, snd (_create_or_get_crypto_node a (Str c) md self) = Ok n).
  { unfold _create_or_get_crypto_node, create_crypto_node.
    destruct (NodeManager.get_node a (node_manager self)) as [n|]; [now exists n|].
    destruct (NodeManager.create_crypto_node a c md (node_manager self)) as [nm n].
    now exists n. }
  destruct Hn as [n Hn].
  rewrite (bind_returns _ _ _ _ Hn). cbn [append_edge fst edges].
  now rewrite edges_create_or_get_crypto, Hc.
Qed.

Lemma edges_for_each {A : Type} (f : A -> list Edge) (xs : list A)
    (body : A -> M unit) (self : t) :
  (forall x b, snd (body x b) = Ok tt) ->
  (forall x b, edges (fst (body x b)) = (edges b ++ f x)%list) ->
  snd (for_each xs body self) = Ok tt
  /\ edges (fst (for_each xs body self)) = (edges self ++ flat_map f xs)%list.
Proof.
  intros Hok Hedges. revert self.
  induction xs as [|x xs IH]; intros self; cbn [for_each flat_map].
  - cbn. now rewrite app_nil_r.
  - rewrite (bind_returns _ _ _ _ (Hok x self)).
    destruct (IH (fst (body x self))) as [-> ->].
    now rewrite Hedges, app_assoc.
Qed.

Lemma edges_domain_column (s col : string) (row : Row) (self : t) :
  edges (fst (process_domain_column s col row self))
  = (edges self ++ domain_links s col row)%list.
Proof.
  unfold process_domain_column, domain_links, get_none, getitem.
  destruct (row !! col) as [v|]; cbn [default id];
    [|cbn; now rewrite app_nil_r].
  destruct (notna v) eqn:Hv.
  - change (bind (ret v) ?k self) with (k v self). cbv beta.
    apply (edges_for_each (domain_link s col row)).
    + intros. apply domain_relationship_returns.
    + intros. apply edges_domain_relationship.
  - destruct v; try discriminate. cbn. now rewrite app_nil_r.
Qed.

Lemma crypto_column_ok (s : string) (row : Row) (self : t) :
  chain_usable row ->
  snd (process_crypto_column s row self) = Ok tt
  /\ edges (fst (process_crypto_column s row self))
     = (edges self ++ crypto_links s row)%list.
Proof.
  intros Hchain.
  assert (Hc : exists c, get row "chain" (Str "BTC") = Str c).
  { unfold get. destruct Hchain as [-> | [c ->]]; cbn [default id]; eauto. }
  destruct Hc as [c Hc].
  unfold process_crypto_column, crypto_links, get_none, getitem.
  destruct (row !! "crypto_address") as [v|]; cbn [default id];
    [|cbn; now rewrite app_nil_r].
  destruct (notna v) eqn:Hv.
  - change (bind (ret v) ?k self) with (k v self). cbv beta. rewrite Hc.
    apply (edges_for_each (crypto_link s row)).
    + intros a b.
      destruct (crypto_relationship_registers s a c row b) as [[[] Hu] _].
      exact Hu.
    + intros a b. now apply edges_crypto_relationship.
  - destruct v; try discriminate. cbn. now rewrite app_nil_r.
Qed.

Lemma edges_process_row (row : Row) (self : t) :
  chain_usable row ->
  edges (fst (_process_row row self)) = (edges self ++ row_links row)%list.
Proof.
  intros Hchain. unfold _process_row, row_links, get_none, getitem.
  destruct (row !! "source_domain") as [raw|]; cbn [default id];
    [|cbn; now rewrite app_nil_r].
  change (bind (ret raw) ?k self) with (k raw self). cbv beta.
  destruct (PyStr.is_empty (_normalize_domain raw));
    [cbn; now rewrite app_nil_r|].
  set (s := _normalize_domain raw).
  destruct (create_or_get_domain_returns s "source_domain"
              (domain_metadata row s) self) as [[n Hn] _].
  rewrite (bind_returns _ _ _ _ Hn).
  set (b1 := fst (_create_or_get_domain_node s "source_domain"
                    (domain_metadata row s) self)).
  assert (E1 : edges b1 = edges self) by apply edges_create_or_get_domain.
  rewrite (bind_returns _ _ _ _ (domain_column_returns s "lookalike_domain" row b1)).
  set (b2 := fst (process_domain_column s "lookalike_domain" row b1)).
  assert (E2 : edges b2 = (edges b1 ++ domain_links s "lookalike_domain" row)%list)
    by apply edges_domain_column.
  rewrite (bind_returns _ _ _ _ (domain_column_returns s "same_ip_domain" row b2)).
  set (b3 := fst (process_domain_column s "same_ip_domain" row b2)).
  assert (E3 : edges b3 = (edges b2 ++ domain_links s "same_ip_domain" row)%list)
    by apply edges_domain_column.
  destruct (crypto_column_ok s row b3 Hchain) as [_ ->].
  rewrite E3, E2, E1. now rewrite <- !app_assoc.
Qed.

Lemma edges_process_rows (df : list Row) (self : t) :
  (forall row, In row df -> chain_usable row) ->
  edges (process_rows df self) = (edges self ++ flat_map row_links df)%list.
Proof.
  revert self. induction df as [|row df IH]; intros self Hall.
  - cbn. now rewrite app_nil_r.
  - change (process_rows (row :: df) self)
      with (process_rows df (process_one row self)).
    rewrite IH by (intros r Hr; apply Hall; now right).
    cbn [flat_map]. rewrite app_assoc. f_equal.
    pose proof (edges_process_row row self (Hall row (or_introl eq_refl))) as E.
    unfold process_one.
    destruct (_process_row row self) as [self' [[] | e]]; exact E.
Qed.

(** When the chain of every row is absent or text, the link list of the
    build is the concatenation over the rows, in order, of the links each row
    describes by itself: per entry of its lookalike list, of its same-IP list
    and of its address list one link from its source, entries that name the
    source itself left out. It does not depend on which entities earlier rows
    registered. *)
Theorem links_of_build (df : list Row) (self : t) :
  (forall row, In row df -> chain_usable row) ->
  links (snd (build_graph df self)) = flat_map row_links df.
Proof.
  intros Hall.
  change (links (snd (build_graph df self)))
    with (edges (process_rows df (clear self))).
  now rewrite edges_process_rows.
Qed.

Lemma links_of_build_witness :
  links (snd (build_graph [SampleRows.evil; SampleRows.no_chain_row] init))
  = flat_map row_links [SampleRows.evil; SampleRows.no_chain_row].
Proof.
  apply (links_of_build [SampleRows.evil; SampleRows.no_chain_row] init).
  intros row [<- | [<- | []]].
  - right. now exists "BTC".
  - now left.
Defined.

End LinksOfRows.

(** ** Cleaning the frame *)

Section Cleaning.

Import Pandas Frame.

Lemma filter_filter {A : Type} (p q : A -> bool) (l : list A) :
  List.filter p (List.filter q l) = List.filter (fun x => q x && p x) l.
Proof.
  induction l as [|x l IH]; [reflexivity|].
  cbn [List.filter]. destruct (q x); cbn [List.filter andb]; now rewrite IH.
Qed.

Lemma filter_idem {A : Type} (p : A -> bool) (l : list A) :
  List.filter p (List.filter p l) = List.filter p l.
Proof.
  rewrite filter_filter. apply filter_ext. intros x. now destruct (p x).
Qed.

Lemma flat_map_filter {A B : Type} (f : A -> list B) (p : A -> bool)
    (l : list A) :
  (forall x, p x = false -> f x = []) ->
  flat_map f (List.filter p l) = flat_map f l.
Proof.
  intros H. induction l as [|x l IH]; [reflexivity|].
  cbn [List.filter flat_map]. destruct (p x) eqn:E.
  - cbn [flat_map]. now rewrite IH.
  - now rewrite (H x E), IH.
Qed.

Lemma missing_nil (subset : list string) (df : DataFrame) :
  missing subset df = [] <-> forallb (has_column df) subset = true.
Proof.
  unfold missing. induction subset as [|k ks IH]; cbn [List.filter forallb].
  - tauto.
  - destruct (has_column df k); cbn [negb andb].
    + exact IH.
    + split; discriminate.
Qed.

Lemma clean_data_cases (df : DataFrame) :
  clean_data df
  = if has_column df "source_domain" then
      match missing key_columns df with
      | [] => Ok (mkDataFrame (columns df) (List.filter is_clean (rows df)))
      | labels => KeyError labels
      end
    else KeyError ["source_domain"].
Proof.
  unfold clean_data, dropna at 1. unfold missing at 1.
  cbn [List.filter]. destruct (has_column df "source_domain"); cbn [negb];
    [|reflexivity].
  unfold dropna, missing, has_column. cbn [columns rows].
  destruct (List.filter _ key_columns); [|reflexivity].
  rewrite filter_filter. do 2 f_equal. apply filter_ext. intros row.
  unfold keeps, is_clean, key_columns. cbn [forallb existsb].
  now rewrite andb_true_r, orb_false_r, orb_assoc.
Qed.

Lemma clean_data_ok (df c : DataFrame) :
  clean_data df = Ok c ->
  columns c = columns df /\ rows c = List.filter is_clean (rows df)
  /\ has_column df "source_domain" = true
  /\ missing key_columns df = [].
Proof.
  rewrite clean_data_cases.
  destruct (has_column df "source_domain"); [|discriminate].
  destruct (missing key_columns df); [|discriminate].
  intros [= <-]. auto.
Qed.

(** [clean_data] returns exactly when the frame has the source column and
    the three key columns; otherwise it raises for the source column alone if
    that is missing, else for the key columns that are. What it returns has
    the same columns and, in their order, the rows whose source cell is
    present and that have a cell present under at least one key column. *)
Theorem clean_data_outcome (df : DataFrame) :
  ((exists c, clean_data df = Ok c)
   <-> forallb (has_column df) ("source_domain" :: key_columns) = true)
  /\ (forall c,
        clean_data df = Ok c ->
        columns c = columns df /\ rows c = List.filter is_clean (rows df))
  /\ (forall labels,
        clean_data df = KeyError labels ->
        labels = (if has_column df "source_domain"
                  then missing key_columns df else ["source_domain"])
        /\ labels <> []).
Proof.
  split; [|split].
  - rewrite clean_data_cases. cbn [forallb].
    destruct (has_column df "source_domain"); cbn [andb].
    + rewrite <- missing_nil.
      destruct (missing key_columns df); split; eauto; try discriminate.
      intros [c H]. discriminate.
    + split; [intros [c H]|]; discriminate.
  - intros c H. apply clean_data_ok in H. tauto.
  - intros labels. rewrite clean_data_cases.
    destruct (has_column df "source_domain").
    + destruct (missing key_columns df); [discriminate|].
      intros [= <-]. split; [reflexivity | discriminate].
    + intros [= <-]. split; [reflexivity | discriminate].
Qed.

(** Cleaning a cleaned frame changes nothing. *)
Theorem clean_data_idempotent (df c : DataFrame) :
  clean_data df = Ok c -> clean_data c = Ok c.
Proof.
  intros H. apply clean_data_ok in H as (Hcols & Hrows & Hsrc & Hkey).
  rewrite clean_data_cases.
  unfold has_column, missing, has_column in *. rewrite Hcols, Hsrc, Hkey.
  rewrite Hrows at 1. rewrite filter_idem, <- Hrows, <- Hcols.
  now destruct c.
Qed.

Lemma clean_data_idempotent_witness :
  clean_data SampleFrames.cleaned = Ok SampleFrames.cleaned.
Proof.
  apply (clean_data_idempotent SampleFrames.raw SampleFrames.cleaned).
  reflexivity.
Defined.

Lemma is_clean_source (row : Row) :
  is_clean row = true ->
  exists raw, row !! "source_domain" = Some raw /\ isna raw = false.
Proof.
  unfold is_clean, get_none. intros H. apply andb_true_iff in H as [H _].
  destruct (row !! "source_domain") as [raw|]; [|discriminate].
  exists raw. split; [reflexivity|]. now apply negb_true_iff in H.
Qed.

Lemma row_links_unclean (row : Row) :
  is_clean row = false -> RowLinks.row_links row = [].
Proof.
  unfold is_clean, RowLinks.row_links. intros H.
  apply andb_false_iff in H as [H | H].
  - apply negb_false_iff in H. unfold Builder._normalize_domain. now rewrite H.
  - apply orb_false_iff in H as [H H3]. apply orb_false_iff in H as [H1 H2].
    apply negb_false_iff in H1, H2, H3.
    destruct (PyStr.is_empty _); [reflexivity|].
    unfold RowLinks.domain_links, RowLinks.crypto_links,
      Builder._parse_domain_list, Builder._parse_crypto_list.
    now rewrite H1, H2, H3.
Qed.

(** A cleaned frame whose chain cells are text is built without a skipped
    row: every row that [clean_data] keeps has its source cell, so none can
    fail on the lookup of the source. *)
Theorem cleaned_rows_never_skipped (df c : DataFrame) (self : Builder.t) :
  clean_data df = Ok c ->
  (forall row, In row (rows c) -> Spec.chain_usable row) ->
  let st := Builder.statistics (snd (Builder.build_graph (rows c) self)) in
  Builder.stat_skipped_rows st = 0
  /\ Builder.stat_processed_rows st = Z.of_nat (length (rows c)).
Proof.
  intros Hc Hchain. cbn zeta.
  apply clean_data_ok in Hc as (_ & Hrows & _).
  change (Builder.stat_skipped_rows
            (Builder.statistics (snd (Builder.build_graph (rows c) self))))
    with (Builder.skipped_rows
            (Builder.process_rows (rows c) (Builder.clear self))).
  change (Builder.stat_processed_rows
            (Builder.statistics (snd (Builder.build_graph (rows c) self))))
    with (Builder.processed_rows
            (Builder.process_rows (rows c) (Builder.clear self))).
  destruct (no_skips (rows c) (Builder.clear self)) as [-> ->].
  - intros row Hin. split; [|now apply Hchain].
    rewrite Hrows in Hin. apply filter_In in Hin as [_ Hclean].
    destruct (is_clean_source row Hclean) as (raw & Hraw & _). now exists raw.
  - split; reflexivity.
Qed.

Lemma cleaned_rows_never_skipped_witness :
  let st :=
    Builder.statistics
      (snd (Builder.build_graph (rows SampleFrames.cleaned) Builder.init)) in
  Builder.stat_skipped_rows st = 0
  /\ Builder.stat_processed_rows st
     = Z.of_nat (length (rows SampleFrames.cleaned)).
Proof.
  apply (cleaned_rows_never_skipped SampleFrames.raw SampleFrames.cleaned
           Builder.init).
  - reflexivity.
  - intros row [<- | []]. right. now exists "BTC".
Defined.

(** Cleaning loses no link: when the chain cells are text, the rows that
    [clean_data] drops would not have added a link, so the build of the
    cleaned frame has the links of the build of the frame as read. *)
Theorem cleaning_keeps_links (df c : DataFrame) (self : Builder.t) :
  clean_data df = Ok c ->
  (forall row, In row (rows df) -> Spec.chain_usable row) ->
  Builder.links (snd (Builder.build_graph (rows c) self))
  = Builder.links (snd (Builder.build_graph (rows df) self)).
Proof.
  intros Hc Hchain. apply clean_data_ok in Hc as (_ & Hrows & _).
  change (Builder.edges (Builder.process_rows (rows c) (Builder.clear self))
          = Builder.edges (Builder.process_rows (rows df) (Builder.clear self))).
  rewrite !edges_process_rows.
  - rewrite Hrows. f_equal. apply flat_map_filter, row_links_unclean.
  - exact Hchain.
  - intros row Hin. apply Hchain. rewrite Hrows in Hin.
    now apply filter_In in Hin.
Qed.

Lemma cleaning_keeps_links_witness :
  Builder.links (snd (Builder.build_graph (rows SampleFrames.cleaned) Builder.init))
  = Builder.links (snd (Builder.build_graph (rows SampleFrames.raw) Builder.init)).
Proof.
  apply (cleaning_keeps_links SampleFrames.raw SampleFrames.cleaned Builder.init).
  - reflexivity.
  - intros row [<- | [<- | [<- | []]]]; right; now exists "BTC".
Defined.

End Cleaning.

(** ** What the snapshot is made of *)

Section SnapshotShape.

Import Pandas Builder Spec Entity.
Local Open Scope builder_scope.

Lemma hoare_for_each_in {A : Type} (P : t -> Prop) (xs : list A)
    (body : A -> M unit) :
  (forall x, In x xs -> hoare P (body x) P) -> hoare P (for_each xs body) P.
Proof.
  induction xs as [|x xs IH]; intros Hbody; cbn [for_each].
  - apply hoare_ret.
  - apply hoare_seq; [apply Hbody; now left|].
    intros _. apply IH. intros y Hy. apply Hbody. now right.
Qed.

Lemma normalize_domain_key (v : cell) :
  PyStr.is_empty (_normalize_domain v) = false -> domain_key (_normalize_domain v).
Proof.
  intros H. split; [exact H|].
  split; [apply normalize_lowered | apply normalize_rstripped].
Qed.

Lemma crypto_list_key (v : cell) (a : string) :
  In a (_parse_crypto_list v) -> crypto_key a.
Proof.
  unfold _parse_crypto_list. destruct (isna v); [intros []|].
  intros H. apply filter_In in H as [H Hne].
  apply in_map_iff in H as (piece & <- & Hpiece).
  split; [now apply negb_true_iff in Hne|].
  split; [apply strip_idem|].
  apply comma_free_strip. now apply (split_comma_free (str v)).
Qed.

Lemma role_style (ty : string) :
  is_domain_role ty = true ->
  NodeManager.style_or ty "source_domain" = NodeManager.style_of ty.
Proof.
  unfold is_domain_role. intros H.
  apply orb_true_iff in H as [H | H]; [apply orb_true_iff in H as [H | H]|];
    apply String.eqb_eq in H; subst ty; reflexivity.
Qed.

Lemma created_domain_entity (d ty : string) (row : Row) (nm : NodeManager.t) :
  domain_key d -> is_domain_role ty = true ->
  domain_entity
    (snd (NodeManager.create_domain_node d ty (domain_metadata row d) nm)).
Proof.
  intros Hd Hty. unfold NodeManager.create_domain_node. cbn [snd].
  rewrite (role_style ty Hty).
  split; [reflexivity|]. split; [exact Hty|]. split; [reflexivity|].
  split; [repeat split|]. split; [exact Hd|].
  cbn [NodeManager.metadata NodeManager.node_type NodeManager.id].
  replace (NodeManager.meta_get (domain_metadata row d) "url") with (Str d)
    by reflexivity.
  repeat eexists.
Qed.

Lemma created_crypto_is_entity (a c : string) (md : gmap string cell)
    (nm : NodeManager.t) :
  crypto_key a ->
  crypto_entity (snd (NodeManager.create_crypto_node a c md nm)).
Proof.
  intros Ha. split; [reflexivity|]. split; [reflexivity|]. split; [exact Ha|].
  exists c. eexists. eexists. split; [apply created_crypto_entity | reflexivity].
Qed.

Lemma sound_adds (k : string) (node : NodeManager.NodeData) (self self' : t) :
  entity node -> adds k node self self' -> sound self -> sound self'.
Proof.
  intros Hnode Hadd [Hn He].
  destruct (registry_adds _ _ _ _ Hadd) as (Hreg & Hedges & _).
  destruct Hadd as [Hfresh _]. split.
  - intros k' n. rewrite Hreg, (set_fresh _ _ _ Hfresh).
    intros Hin. apply in_app_or in Hin as [Hin | [[= <- <-] | []]]; eauto.
  - intros e. rewrite Hedges. apply He.
Qed.

Lemma sound_create_or_get_domain (d ty : string) (row : Row) :
  domain_key d -> is_domain_role ty = true ->
  hoare sound (_create_or_get_domain_node d ty (domain_metadata row d)) sound.
Proof.
  intros Hd Hty self H.
  destruct (create_or_get_domain_cases d ty (domain_metadata row d) self)
    as [(n & _ & ->) | Hadd]; [exact H|].
  eapply sound_adds; [| exact Hadd | exact H].
  left. now apply created_domain_entity.
Qed.

Lemma sound_create_or_get_crypto (a : string) (chain : cell)
    (md : gmap string cell) :
  crypto_key a -> hoare sound (_create_or_get_crypto_node a chain md) sound.
Proof.
  intros Ha self H.
  destruct (create_or_get_crypto_cases a chain md self)
    as [-> | (c & _ & Hadd)]; [exact H|].
  eapply sound_adds; [| exact Hadd | exact H].
  right. now apply created_crypto_is_entity.
Qed.

Lemma sound_append_edge (e : Edge) :
  edge_shape e -> hoare sound (append_edge e) sound.
Proof.
  intros Hshape self [Hn He]. split; [exact Hn|].
  intros e'. cbn [append_edge fst edges]. intros Hin.
  apply in_app_or in Hin as [Hin | [<- | []]]; auto.
Qed.

Lemma sound_domain_relationship (s d col : string) (row : Row) :
  domain_key s -> col = "lookalike_domain" \/ col = "same_ip_domain" ->
  hoare sound (_create_domain_relationship s d col row) sound.
Proof.
  intros Hs Hcol. unfold _create_domain_relationship.
  destruct (_ || _) eqn:Hguard; [apply hoare_ret|].
  apply orb_false_iff in Hguard as [Hne _].
  pose proof (normalize_domain_key (Str d) Hne) as Hkey.
  apply hoare_seq.
  - apply sound_create_or_get_domain; [exact Hkey|].
    destruct Hcol as [-> | ->]; reflexivity.
  - intros _. apply sound_append_edge.
    split; [reflexivity|]. split; [exact Hs|]. left. auto.
Qed.

Lemma sound_crypto_relationship (s a : string) (chain : cell) (row : Row) :
  domain_key s -> crypto_key a ->
  hoare sound (_create_crypto_relationship s a chain row) sound.
Proof.
  intros Hs Ha. unfold _create_crypto_relationship.
  destruct (PyStr.is_empty a); [apply hoare_ret|].
  apply hoare_seq.
  - now apply sound_create_or_get_crypto.
  - intros _. apply sound_append_edge.
    split; [reflexivity|]. split; [exact Hs|]. right.
    split; [now exists chain|]. auto.
Qed.

Lemma sound_domain_column (s col : string) (row : Row) :
  domain_key s -> col = "lookalike_domain" \/ col = "same_ip_domain" ->
  hoare sound (process_domain_column s col row) sound.
Proof.
  intros Hs Hcol. apply hoare_domain_column.
  intros d. now apply sound_domain_relationship.
Qed.

Lemma sound_crypto_column (s : string) (row : Row) :
  domain_key s -> hoare sound (process_crypto_column s row) sound.
Proof.
  intros Hs. unfold process_crypto_column.
  destruct (notna _); [|apply hoare_ret].
  apply hoare_seq; [apply hoare_getitem|].
  intros addresses. apply hoare_for_each_in.
  intros a Ha. apply sound_crypto_relationship; [exact Hs|].
  now apply (crypto_list_key addresses).
Qed.

Lemma sound_process_row (row : Row) : hoare sound (_process_row row) sound.
Proof.
  unfold _process_row.
  apply hoare_seq; [apply hoare_getitem|]. intros raw.
  destruct (PyStr.is_empty (_normalize_domain raw)) eqn:Hne; [apply hoare_ret|].
  pose proof (normalize_domain_key raw Hne) as Hs.
  apply hoare_seq; [now apply sound_create_or_get_domain|]. intros _.
  apply hoare_seq; [apply sound_domain_column; auto|]. intros _.
  apply hoare_seq; [apply sound_domain_column; auto|]. intros _.
  now apply sound_crypto_column.
Qed.

Lemma sound_built (df : list Row) (self : t) : sound (built df self).
Proof.
  assert (H : sound (process_rows df (clear self))).
  { apply (process_rows_keeps sound).
    - intros b p s H. exact H.
    - apply sound_process_row.
    - split; [intros k n [] | intros e []]. }
  exact H.
Qed.

Lemma registry_values {V : Type} (d : PyDict.dict V) (v : V) :
  In v (PyDict.values d) <-> exists k, In (k, v) d.
Proof.
  unfold PyDict.values. rewrite in_map_iff. split.
  - intros ([k v'] & <- & Hin). now exists k.
  - intros [k Hin]. now exists (k, v).
Qed.

(** Every node of the snapshot is a domain entity in one of the three
    domain roles or a crypto entity, with the label, style and metadata its
    id and role (or chain) determine; the id of a domain is a non-empty
    lower-case key without trailing slash, that of an address is non-empty
    with no blanks around it and no comma. *)
Theorem snapshot_entities (df : list Row) (self : t) (n : NodeManager.NodeData) :
  In n (nodes (snd (build_graph df self))) ->
  domain_entity n \/ crypto_entity n.
Proof.
  rewrite snapshot_nodes. intros Hin.
  apply registry_values in Hin as [k Hin].
  exact (proj1 (sound_built df self) k n Hin).
Qed.

(** Every link of the snapshot is coloured by its type and starts at a
    domain key; it is a lookalike or same-IP link to another domain key,
    without chain tag, or a crypto link with a chain tag to an address. *)
Theorem snapshot_link_shapes (df : list Row) (self : t) (e : Edge) :
  In e (links (snd (build_graph df self))) -> edge_shape e.
Proof. exact (proj2 (sound_built df self) e). Qed.

Lemma snapshot_entities_witness :
  let n :=
    snd (NodeManager.create_domain_node "evil.com" "source_domain"
           (domain_metadata SampleRows.evil "evil.com")
           (NodeManager.mkManager [] 0)) in
  domain_entity n \/ crypto_entity n.
Proof.
  apply (snapshot_entities [SampleRows.evil] init).
  vm_compute. left. reflexivity.
Defined.

Lemma snapshot_link_shapes_witness :
  edge_shape
    (mkEdge "evil.com" "1A2b3C" "domain_to_crypto" (Some (Str "BTC")) (Str "")
       "#e74c3c").
Proof.
  apply (snapshot_link_shapes [SampleRows.evil] init).
  vm_compute. right. right. left. reflexivity.
Defined.

Lemma snapshot_ids (df : list Row) (self : t) :
  map NodeManager.id (nodes (snd (build_graph df self)))
  = PyDict.keys (registry (process_rows df (clear self))).
Proof.
  rewrite snapshot_nodes, built_registry.
  apply values_ids, registry_ok_process_rows, registry_ok_clear.
Qed.

Lemma links_join_keys (df : list Row) (self : t) (e : Edge) :
  In e (links (snd (build_graph df self))) ->
  In (source e) (map NodeManager.id (nodes (snd (build_graph df self))))
  /\ In (target e) (map NodeManager.id (nodes (snd (build_graph df self)))).
Proof.
  rewrite snapshot_ids.
  exact (proj1 (graph_ok_process_rows df self) e).
Qed.

(** No link of the snapshot dangles: both its ends are ids of nodes of the
    snapshot, also when rows were given up half-way. *)
Theorem snapshot_links_join_nodes (df : list Row) (self : t) (e : Edge) :
  let snap := snd (build_graph df self) in
  In e (links snap) ->
  In (source e) (map NodeManager.id (nodes snap))
  /\ In (target e) (map NodeManager.id (nodes snap)).
Proof. cbn zeta. apply links_join_keys. Qed.

Lemma snapshot_links_join_nodes_witness :
  let snap := snd (build_graph [SampleRows.missing_chain_row] init) in
  In "a.com" (map NodeManager.id (nodes snap))
  /\ In "b.com" (map NodeManager.id (nodes snap)).
Proof.
  apply (snapshot_links_join_nodes [SampleRows.missing_chain_row] init
           (mkEdge "a.com" "b.com" "lookalike_domain" None (Str "") "#3498db")).
  vm_compute. left. reflexivity.
Defined.

(** The graph handed to the page generator has the ids of the snapshot's
    nodes as its nodes, each once, and one edge for each unordered pair of
    ids that some link joins. *)
Theorem networkx_graph_of_build (df : list Row) (self : t) :
  let final := fst (build_graph df self) in
  let snap := snd (build_graph df self) in
  List.NoDup (Nx.nodes (graph final))
  /\ (forall k, In k (Nx.nodes (graph final))
                <-> In k (map NodeManager.id (nodes snap)))
  /\ Nx.edges (graph final) = Nx.distinct_pairs (map endpoints (links snap)).
Proof.
  cbn zeta. rewrite snapshot_ids.
  change (fst (build_graph df self)) with (built df self).
  change (links (snd (build_graph df self)))
    with (edges (process_rows df (clear self))).
  unfold built. set (b := process_rows df (clear self)).
  pose proof (graph_ok_process_rows df self) as (Hedges & Hnodes & Hnd & Hpairs).
  pose proof (registry_ok_process_rows df (clear self) (registry_ok_clear self))
    as Hreg.
  fold b in Hedges, Hnodes, Hnd, Hpairs, Hreg.
  destruct (add_attributes_graph
              (NodeManager.get_all_nodes (node_manager b)) (graph b))
    as (He & Hnd' & Hin).
  unfold NodeManager.get_all_nodes in Hin.
  change (NodeManager.nodes (node_manager b)) with (registry b) in Hin.
  rewrite (values_ids b Hreg) in Hin.
  unfold _add_node_attributes_to_graph. cbn [graph].
  split; [now apply Hnd'|]. split.
  - intros k. rewrite Hin. split; [intros [H | H]; auto | auto].
  - now rewrite He, Hpairs.
Qed.

Lemma type_count (ns : list NodeManager.NodeData) :
  (forall n, In n ns -> entity n) ->
  (length (List.filter (fun n => String.eqb (NodeManager.type n) "domain") ns)
   + length (List.filter (fun n => String.eqb (NodeManager.type n) "crypto") ns)
   = length ns)%nat.
Proof.
  induction ns as [|n ns IH]; intros H; [reflexivity|].
  cbn [List.filter].
  assert (IH' := IH (fun m Hm => H m (or_intror Hm))).
  destruct (H n (or_introl eq_refl)) as [[-> _] | [-> _]];
    cbn [String.eqb Ascii.eqb Bool.eqb length]; cbn [length]; lia.
Qed.

(** After a build, the node statistics split the nodes into domains and
    addresses with nothing left over. *)
Theorem node_statistics_split (df : list Row) (self : t) :
  let st := NodeManager.get_node_statistics (node_manager (fst (build_graph df self))) in
  NodeManager.domain_nodes st + NodeManager.crypto_nodes st
  = NodeManager.total_nodes st
  /\ NodeManager.total_nodes st
     = Z.of_nat (length (nodes (snd (build_graph df self)))).
Proof.
  cbn zeta. unfold NodeManager.get_node_statistics.
  cbn [NodeManager.domain_nodes NodeManager.crypto_nodes NodeManager.total_nodes].
  unfold NodeManager.get_domain_nodes, NodeManager.get_crypto_nodes.
  change (fst (build_graph df self)) with (built df self).
  rewrite snapshot_nodes.
  change (NodeManager.get_all_nodes (node_manager (built df self)))
    with (PyDict.values (registry (built df self))).
  change (NodeManager.nodes (node_manager (built df self)))
    with (registry (built df self)).
  assert (Hlen : length (PyDict.values (registry (built df self)))
                 = length (registry (built df self)))
    by apply length_map.
  split; [|now rewrite Hlen].
  rewrite <- Hlen, <- Nat2Z.inj_add. f_equal. apply type_count.
  intros n Hn. apply registry_values in Hn as [k Hn].
  exact (proj1 (sound_built df self) k n Hn).
Qed.

End SnapshotShape.

(** ** Counting by type *)

Section Counting.

Import PyDict NodeQueries.

Lemma total_set (k : string) (v : Z) (c : dict Z) :
  total (set k v c) = total c - default 0 (get k c) + v.
Proof.
  unfold total, values.
  induction c as [|[k0 v0] c IH]; cbn [set get map snd fold_right default id].
  - lia.
  - destruct (String.eqb k k0); cbn [map snd fold_right default id]; lia.
Qed.

Lemma total_count_into (ks : list string) (c : dict Z) :
  total (count_into ks c) = total c + Z.of_nat (length ks).
Proof.
  revert c. induction ks as [|k ks IH]; intros c; cbn [count_into length].
  - lia.
  - rewrite IH, total_set. lia.
Qed.

Lemma occurrences_cons (k k0 : string) (ks : list string) :
  occurrences k (k0 :: ks)
  = (if String.eqb k k0 then 1 else 0) + occurrences k ks.
Proof.
  unfold occurrences. cbn [List.filter].
  destruct (String.eqb k k0); cbn [length]; lia.
Qed.

Lemma occurrences_nonneg (k : string) (ks : list string) : 0 <= occurrences k ks.
Proof. unfold occurrences. lia. Qed.

Lemma get_count_into (k : string) (ks : list string) (c : dict Z) :
  get k (count_into ks c)
  = if occurrences k ks =? 0 then get k c
    else Some (default 0 (get k c) + occurrences k ks).
Proof.
  revert c. induction ks as [|k0 ks IH]; intros c; cbn [count_into].
  - reflexivity.
  - rewrite IH, occurrences_cons, get_set.
    pose proof (occurrences_nonneg k ks) as Hnn.
    destruct (String.eqb_spec k k0) as [-> | Hne].
    + cbn [default id].
      destruct (Z.eqb_spec (occurrences k0 ks) 0) as [E | E];
        destruct (Z.eqb_spec (1 + occurrences k0 ks) 0); try lia.
      * f_equal. lia.
      * f_equal. lia.
    + reflexivity.
Qed.

Lemma get_count (k : string) (ks : list string) :
  get k (count_into ks []) = counted (occurrences k ks).
Proof.
  rewrite get_count_into. unfold counted. cbn [get default id].
  now destruct (occurrences k ks =? 0).
Qed.

Lemma occurrences_map {A : Type} (f : A -> string) (k : string) (l : list A) :
  occurrences k (map f l)
  = Z.of_nat (length (List.filter (fun x => String.eqb (f x) k) l)).
Proof.
  unfold occurrences. f_equal.
  induction l as [|x l IH]; [reflexivity|].
  cbn [map List.filter]. rewrite (String.eqb_sym k (f x)).
  destruct (String.eqb (f x) k); cbn [length]; now rewrite IH.
Qed.

(** The per-type counts of the node statistics agree with the queries of
    the manager: a type has an entry exactly when some node has it, the entry
    is the number of nodes [get_nodes_by_type] returns for it, and the
    entries add up to the number of nodes. *)
Theorem node_statistics_by_type (self : NodeManager.t) :
  let st := NodeManager.get_node_statistics self in
  (forall ty,
     get ty (NodeManager.by_type st)
     = counted (Z.of_nat (length (get_nodes_by_type ty self))))
  /\ total (NodeManager.by_type st)
     = Z.of_nat (length (NodeManager.get_all_nodes self))
  /\ NodeManager.total_nodes st
     = Z.of_nat (length (NodeManager.get_all_nodes self)).
Proof.
  cbn zeta. unfold NodeManager.get_node_statistics.
  cbn [NodeManager.by_type NodeManager.total_nodes]. split; [|split].
  - intros ty. rewrite get_count, occurrences_map. reflexivity.
  - rewrite total_count_into. cbn. now rewrite length_map.
  - unfold NodeManager.get_all_nodes, values. now rewrite length_map.
Qed.

(** The breakdowns of the build statistics: the node counts per role and
    the edge counts per type each add up to the totals beside them, and the
    entry of an edge type is the number of links of that type. *)
Theorem statistics_breakdowns (df : list Pandas.Row) (self : Builder.t) :
  let snap := snd (Builder.build_graph df self) in
  let st := Builder.statistics snap in
  total (Builder.node_breakdown st) = Builder.stat_nodes st
  /\ total (Builder.edge_breakdown st) = Builder.stat_edges st
  /\ (forall ty,
        get ty (Builder.edge_breakdown st)
        = counted (Z.of_nat (length (List.filter
                     (fun e => String.eqb (Builder.type e) ty)
                     (Builder.links snap)))))
  /\ (forall ty,
        get ty (Builder.node_breakdown st)
        = counted (Z.of_nat (length (List.filter
                     (fun n => String.eqb (NodeManager.node_type n) ty)
                     (Builder.nodes snap))))).
Proof.
  cbn zeta. unfold Builder.build_graph. cbn [snd Builder.statistics
    Builder.links Builder.nodes].
  unfold Builder._generate_statistics, NodeManager.get_node_statistics.
  cbn [Builder.node_breakdown Builder.edge_breakdown Builder.stat_nodes
       Builder.stat_edges NodeManager.by_type NodeManager.total_nodes].
  split; [|split; [|split]].
  - rewrite total_count_into. cbn.
    unfold NodeManager.get_all_nodes, values. now rewrite !length_map.
  - rewrite total_count_into. cbn. now rewrite length_map.
  - intros ty. now rewrite get_count, occurrences_map.
  - intros ty. now rewrite get_count, occurrences_map.
Qed.

(** The statistics of the page: the counts per node key and per link type
    each add up to the totals, and domains and addresses together are at
    most the nodes. *)
Theorem page_statistics_add_up (g : Selector.graph_data) :
  let st := HtmlStats._calculate_stats g in
  total (HtmlStats.node_counts st) = HtmlStats.total_nodes st
  /\ total (HtmlStats.edge_counts st) = HtmlStats.total_links st
  /\ HtmlStats.domain_nodes st + HtmlStats.crypto_nodes st
     <= HtmlStats.total_nodes st.
Proof.
  cbn zeta. unfold HtmlStats._calculate_stats.
  cbn [HtmlStats.node_counts HtmlStats.edge_counts HtmlStats.total_nodes
       HtmlStats.total_links HtmlStats.domain_nodes HtmlStats.crypto_nodes].
  split; [|split].
  - rewrite total_count_into. cbn. now rewrite length_map.
  - rewrite total_count_into. cbn. now rewrite length_map.
  - rewrite <- Nat2Z.inj_add. apply inj_le.
    induction (Selector.nodes g) as [|n ns IH]; [reflexivity|].
    cbn [List.filter].
    assert (H : HtmlStats.has_type "domain" n && HtmlStats.has_type "crypto" n
                = false).
    { unfold HtmlStats.has_type. destruct (Selector.type n) as [s|]; [|reflexivity].
      destruct (String.eqb_spec s "domain") as [-> | _]; reflexivity. }
    destruct (HtmlStats.has_type "domain" n), (HtmlStats.has_type "crypto" n);
      cbn [length]; try lia; discriminate.
Qed.

End Counting.

(** ** The selection as a part of its input *)

Section SelectionBounds.

Import Selector.

Lemma every_from_In {A : Type} (step : nat) (l : list A) (x : A) :
  forall wait, In x (every_from step wait l) -> In x l.
Proof.
  induction l as [|y l IH]; intros wait; cbn [every_from]; [tauto|].
  destruct wait as [|w].
  - intros [<- | H]; [now left | right; eauto].
  - intros H. right. eauto.
Qed.

Lemma every_from_NoDup {A B : Type} (f : A -> B) (step : nat) (l : list A) :
  List.NoDup (map f l) -> forall wait, List.NoDup (map f (every_from step wait l)).
Proof.
  induction l as [|y l IH]; intros Hnd wait; cbn [every_from map];
    [constructor|].
  cbn [map] in Hnd. apply List.NoDup_cons_iff in Hnd as [Hy Hnd].
  destruct wait as [|w]; [|now apply IH].
  cbn [map]. apply List.NoDup_cons; [|now apply IH].
  intros Hin. apply Hy. apply in_map_iff in Hin as (x & <- & Hx).
  apply in_map. now apply every_from_In in Hx.
Qed.

Lemma every_from_le {A : Type} (step : nat) (l : list A) :
  forall wait, (length (every_from step wait l) <= length l)%nat.
Proof.
  induction l as [|y l IH]; intros wait; cbn [every_from length]; [lia|].
  destruct wait as [|w]; cbn [length].
  - specialize (IH (step - 1)%nat). lia.
  - specialize (IH w). lia.
Qed.

Lemma every_from_one {A : Type} (l : list A) : every_from 1 0 l = l.
Proof.
  induction l as [|y l IH]; cbn [every_from]; [reflexivity|].
  cbn [Nat.sub]. now rewrite IH.
Qed.

Lemma filter_NoDup_map {A B : Type} (f : A -> B) (p : A -> bool) (l : list A) :
  List.NoDup (map f l) -> List.NoDup (map f (List.filter p l)).
Proof.
  induction l as [|y l IH]; intros Hnd; cbn [List.filter map]; [constructor|].
  cbn [map] in Hnd. apply List.NoDup_cons_iff in Hnd as [Hy Hnd].
  destruct (p y); [|now apply IH].
  cbn [map]. apply List.NoDup_cons; [|now apply IH].
  intros Hin. apply Hy. apply in_map_iff in Hin as (x & <- & Hx).
  apply in_map. now apply filter_In in Hx.
Qed.

(** The tail of the selection: what is kept of the other nodes. *)
Lemma select_nodes_parts (ns : list node) :
  exists kept,
    select_nodes ns = (List.filter is_priority ns ++ kept)%list
    /\ (forall n, In n kept -> In n ns /\ is_priority n = false)
    /\ (length kept
        <= length (List.filter (fun n => negb (is_priority n)) ns))%nat
    /\ (forall (B : Type) (f : node -> B),
          List.NoDup (map f ns) -> List.NoDup (map f kept))
    /\ (Z.of_nat (length (List.filter (fun n => negb (is_priority n)) ns)) > 1500 ->
        forall n, In n kept -> is_same_ip n = true).
Proof.
  unfold select_nodes. rewrite classify_filter.
  set (others := List.filter (fun n => negb (is_priority n)) ns).
  assert (Hothers : forall n, In n others -> In n ns /\ is_priority n = false).
  { intros n Hn. apply filter_In in Hn as [Hn Hp].
    split; [exact Hn | now apply negb_true_iff in Hp]. }
  destruct (Z.gtb_spec (Z.of_nat (length others)) 1500) as [Hbig | Hsmall].
  - eexists. split; [reflexivity|]. split; [|split; [|split]].
    + intros n Hn. apply every_from_In in Hn. apply filter_In in Hn as [Hn _].
      now apply Hothers.
    + unfold slice_step. etransitivity; [apply every_from_le|].
      apply filter_length_le.
    + intros B f Hnd. unfold slice_step. apply every_from_NoDup.
      now do 2 apply filter_NoDup_map.
    + intros _ n Hn. apply every_from_In in Hn. now apply filter_In in Hn.
  - exists others. split; [reflexivity|]. split; [exact Hothers|].
    split; [lia|]. split.
    + intros B f Hnd. now apply filter_NoDup_map.
    + lia.
Qed.

Lemma select_nodes_In (ns : list node) (n : node) :
  In n (select_nodes ns) -> In n ns.
Proof.
  destruct (select_nodes_parts ns) as (kept & -> & Hkept & _).
  intros H. apply in_app_or in H as [H | H].
  - now apply filter_In in H.
  - now apply Hkept.
Qed.

Lemma filter_split_length {A : Type} (p : A -> bool) (l : list A) :
  (length (List.filter p l) + length (List.filter (fun x => negb (p x)) l)
   = length l)%nat.
Proof.
  induction l as [|x l IH]; [reflexivity|].
  cbn [List.filter]. destruct (p x); cbn [negb length]; lia.
Qed.

Lemma select_nodes_length (ns : list node) :
  (length (select_nodes ns) <= length ns)%nat.
Proof.
  destruct (select_nodes_parts ns) as (kept & -> & _ & Hlen & _).
  rewrite length_app. pose proof (filter_split_length is_priority ns). lia.
Qed.

Lemma select_nodes_NoDup {B : Type} (f : node -> B) (ns : list node) :
  List.NoDup (map f ns) -> List.NoDup (map f (select_nodes ns)).
Proof.
  intros Hnd.
  destruct (select_nodes_parts ns) as (kept & E & Hkept & _ & Hk & _).
  rewrite E, map_app. apply List.NoDup_app.
  - now apply filter_NoDup_map.
  - now apply Hk.
  - intros b Hb Hb'.
    apply in_map_iff in Hb as (x & <- & Hx).
    apply in_map_iff in Hb' as (y & Hxy & Hy).
    apply filter_In in Hx as [Hx Hpx].
    destruct (Hkept y Hy) as [Hy' Hpy].
    assert (x = y); [|congruence].
    clear -Hnd Hx Hy' Hxy. induction ns as [|z ns IH]; [destruct Hx|].
    cbn [map] in Hnd. apply List.NoDup_cons_iff in Hnd as [Hz Hnd].
    destruct Hx as [-> | Hx], Hy' as [-> | Hy']; auto.
    + exfalso. apply Hz. rewrite <- Hxy. now apply in_map.
    + exfalso. apply Hz. rewrite Hxy. now apply in_map.
Qed.

(** The graph written into the page is a part of the graph given: its nodes
    are nodes and its links are links of the input, neither list grows, and
    nodes with pairwise distinct ids stay so. *)
Theorem optimized_data_within_input (g : graph_data) :
  let out := optimized_data g in
  (forall n, In n (nodes out) -> In n (nodes g))
  /\ (forall l, In l (links out) -> In l (links g))
  /\ (length (nodes out) <= length (nodes g))%nat
  /\ (length (links out) <= length (links g))%nat
  /\ (List.NoDup (map id (nodes g)) -> List.NoDup (map id (nodes out))).
Proof.
  cbn zeta. unfold optimized_data.
  destruct (_ >? 1000); [|repeat split; auto].
  unfold _smart_optimize_network. cbn [nodes links].
  split; [|split; [|split; [|split]]].
  - intros n. apply select_nodes_In.
  - intros l Hl. now apply filter_links_spec in Hl.
  - apply select_nodes_length.
  - unfold filter_links. apply filter_length_le.
  - apply select_nodes_NoDup.
Qed.

Lemma sample_rate_small (count : Z) : 0 <= count <= 2000 -> sample_rate count = 1.
Proof.
  intros H. unfold sample_rate, target_same_ip.
  destruct (Z.gtb_spec count 2000); [lia|].
  assert (count / 1200 <= 1) by (apply Z.lt_succ_r, Z.div_lt_upper_bound; lia).
  lia.
Qed.

Lemma sampled_bound (l : list node) :
  Z.of_nat (length (slice_step (sample_rate (Z.of_nat (length l))) l)) <= 2000.
Proof.
  set (count := Z.of_nat (length l)).
  destruct (Z.le_gt_cases count 2000) as [Hsmall | Hbig].
  - rewrite sample_rate_small by lia.
    unfold slice_step. pose proof (every_from_le (Z.to_nat 1) l 0%nat). lia.
  - unfold sample_rate, target_same_ip.
    destruct (Z.gtb_spec count 2000); [|lia].
    pose proof (Z.div_mod count 1000 ltac:(lia)) as Hdiv.
    pose proof (Z.mod_pos_bound count 1000 ltac:(lia)) as Hmod.
    set (r := count / 1000) in *.
    assert (Hr : 2 <= r) by lia.
    replace (Z.max 1 r) with r by lia.
    unfold slice_step.
    destruct (every_from_length (Z.to_nat r) l ltac:(lia) 0%nat ltac:(lia))
      as [Hlt _].
    set (picked := length (every_from (Z.to_nat r) 0 l)) in *.
    assert (Z.of_nat picked * r < count + r) by (subst count; nia).
    nia.
Qed.

Lemma select_nodes_kept (ns : list node) :
  exists kept,
    select_nodes ns = (List.filter is_priority ns ++ kept)%list
    /\ (forall n, In n kept -> is_priority n = false)
    /\ Z.of_nat (length kept) <= 2000
    /\ (Z.of_nat (length kept) > 1500 ->
        forall n, In n kept -> is_same_ip n = true).
Proof.
  unfold select_nodes. rewrite classify_filter.
  set (others := List.filter (fun n => negb (is_priority n)) ns).
  assert (Hothers : forall n, In n others -> is_priority n = false).
  { intros n Hn. apply filter_In in Hn as [_ Hp]. now apply negb_true_iff in Hp. }
  destruct (Z.gtb_spec (Z.of_nat (length others)) 1500) as [Hbig | Hsmall].
  - eexists. split; [reflexivity|]. split; [|split].
    + intros n Hn. apply every_from_In in Hn. apply filter_In in Hn as [Hn _].
      now apply Hothers.
    + apply sampled_bound.
    + intros _ n Hn. apply every_from_In in Hn. now apply filter_In in Hn.
  - exists others. split; [reflexivity|]. split; [exact Hothers|].
    split; lia.
Qed.

(** However large the input, the selection is the priority nodes (every
    node of the input that the classification loop puts first: source
    domains, crypto addresses, lookalike domains), followed by at most 2000 of
    the other nodes of the input. *)
Theorem selection_size_bound (g : graph_data) :
  let selected := nodes (_smart_optimize_network g) in
  let priority_nodes := fst (classify (nodes g)) in
  let other_nodes := snd (classify (nodes g)) in
  (forall n, In n priority_nodes <-> In n (nodes g) /\ is_priority n = true)
  /\ (forall n, In n other_nodes <-> In n (nodes g) /\ is_priority n = false)
  /\ exists kept,
       selected = (priority_nodes ++ kept)%list
       /\ (forall n, In n kept -> In n other_nodes)
       /\ Z.of_nat (length kept) <= 2000
       /\ Z.of_nat (length selected)
          <= Z.of_nat (length priority_nodes) + 2000.
Proof.
  cbn zeta. change (nodes (_smart_optimize_network g)) with (select_nodes (nodes g)).
  unfold select_nodes. rewrite classify_filter. cbn [fst snd].
  set (others := List.filter (fun n => negb (is_priority n)) (nodes g)).
  split; [intros n; apply filter_In|]. split.
  { intros n. unfold others. rewrite filter_In, negb_true_iff. reflexivity. }
  destruct (Z.gtb_spec (Z.of_nat (length others)) 1500) as [Hbig | Hsmall].
  - pose proof (sampled_bound (List.filter is_same_ip others)) as Hlen.
    eexists. split; [reflexivity|]. split; [|split; [exact Hlen|]].
    + intros n Hn. apply every_from_In in Hn. now apply filter_In in Hn.
    + rewrite length_app. lia.
  - exists others. split; [reflexivity|]. split; [auto|]. split; [lia|].
    rewrite length_app. lia.
Qed.

Lemma filter_all {A : Type} (p : A -> bool) (l : list A) :
  (forall x, In x l -> p x = true) -> List.filter p l = l.
Proof.
  induction l as [|x l IH]; intros H; [reflexivity|].
  cbn [List.filter]. rewrite (H x (or_introl eq_refl)).
  f_equal. apply IH. intros y Hy. apply H. now right.
Qed.

Lemma filter_none {A : Type} (p : A -> bool) (l : list A) :
  (forall x, In x l -> p x = false) -> List.filter p l = [].
Proof.
  induction l as [|x l IH]; intros H; [reflexivity|].
  cbn [List.filter]. rewrite (H x (or_introl eq_refl)).
  apply IH. intros y Hy. apply H. now right.
Qed.

Lemma select_nodes_fixed (priority_nodes kept : list node) :
  (forall n, In n priority_nodes -> is_priority n = true) ->
  (forall n, In n kept -> is_priority n = false) ->
  Z.of_nat (length kept) <= 2000 ->
  (Z.of_nat (length kept) > 1500 -> forall n, In n kept -> is_same_ip n = true) ->
  select_nodes (priority_nodes ++ kept) = (priority_nodes ++ kept)%list.
Proof.
  intros Hp Hk Hlen Hsame. unfold select_nodes. rewrite classify_filter.
  rewrite !List.filter_app.
  rewrite (filter_all is_priority priority_nodes Hp).
  rewrite (filter_none is_priority kept Hk).
  rewrite (filter_none (fun n => negb (is_priority n)) priority_nodes)
    by (intros n Hn; now rewrite (Hp n Hn)).
  rewrite (filter_all (fun n => negb (is_priority n)) kept)
    by (intros n Hn; now rewrite (Hk n Hn)).
  rewrite app_nil_r. cbn [app].
  destruct (Z.gtb_spec (Z.of_nat (length kept)) 1500) as [Hbig | Hsmall];
    [|reflexivity].
  rewrite (filter_all is_same_ip kept) by (apply Hsame; lia).
  cbn [List.filter app]. rewrite sample_rate_small by lia.
  unfold slice_step. change (Z.to_nat 1) with 1%nat. now rewrite every_from_one.
Qed.

Lemma select_nodes_idempotent (ns : list node) :
  select_nodes (select_nodes ns) = select_nodes ns.
Proof.
  destruct (select_nodes_kept ns) as (kept & -> & Hk & Hlen & Hsame).
  apply select_nodes_fixed; auto.
  intros n Hn. now apply filter_In in Hn.
Qed.

(** Selecting from a selection changes nothing: what the selector returns is
    already as small as the selector makes it. *)
Theorem smart_optimize_idempotent (g : graph_data) :
  _smart_optimize_network (_smart_optimize_network g) = _smart_optimize_network g.
Proof.
  unfold _smart_optimize_network. cbn [nodes links].
  rewrite select_nodes_idempotent. f_equal.
  unfold filter_links. apply filter_idem.
Qed.

Lemma crypto_is_priority (n : node) :
  HtmlStats.has_type "crypto" n = true -> is_priority n = true.
Proof.
  unfold HtmlStats.has_type, is_priority.
  destruct (type n) as [s|]; [|discriminate]. intros H.
  cbv zeta. change (default "" (Some s)) with s. rewrite H.
  now destruct (String.eqb (role n) "source_domain").
Qed.

(** The statistics shown on the page against those of the whole graph: the
    selection never shows more nodes or links, and it shows every crypto
    address, so the address count is that of the whole graph. *)
Theorem page_stats_after_selection (g : graph_data) :
  let whole := HtmlStats._calculate_stats g in
  let page := HtmlStats.page_stats g in
  HtmlStats.total_nodes page <= HtmlStats.total_nodes whole
  /\ HtmlStats.total_links page <= HtmlStats.total_links whole
  /\ HtmlStats.crypto_nodes page = HtmlStats.crypto_nodes whole.
Proof.
  cbn zeta. unfold HtmlStats.page_stats, optimized_data.
  destruct (_ >? 1000); [|repeat split; reflexivity].
  unfold HtmlStats._calculate_stats, _smart_optimize_network.
  cbn [HtmlStats.total_nodes HtmlStats.total_links HtmlStats.crypto_nodes
       nodes links].
  split; [|split].
  - apply inj_le, select_nodes_length.
  - apply inj_le. unfold filter_links. apply filter_length_le.
  - do 2 f_equal.
    destruct (select_nodes_kept (nodes g)) as (kept & -> & Hk & _).
    rewrite List.filter_app, filter_filter.
    rewrite (filter_none (HtmlStats.has_type "crypto") kept).
    + rewrite app_nil_r. apply filter_ext. intros n.
      destruct (HtmlStats.has_type "crypto" n) eqn:E.
      * now rewrite (crypto_is_priority n E).
      * apply andb_false_r.
    + intros n Hn. destruct (HtmlStats.has_type "crypto" n) eqn:E; [|reflexivity].
      apply crypto_is_priority in E. now rewrite (Hk n Hn) in E.
Qed.

End SelectionBounds.

(** ** The manager: create, look up, label *)

Section ManagerFacts.

Import PyStr NodeManager.

Lemma length_append (a b : string) :
  String.length (a ++ b) = (String.length a + String.length b)%nat.
Proof.
  induction a as [|c a IH]; [reflexivity|].
  rewrite append_cons. cbn [String.length]. now rewrite IH.
Qed.

Lemma length_take (n : nat) (s : string) :
  String.length (take n s) = Nat.min n (String.length s).
Proof.
  revert s. induction n as [|n IH]; intros [|c s]; cbn [take String.length];
    try reflexivity.
  now rewrite IH.
Qed.

Lemma length_drop (n : nat) (s : string) :
  String.length (drop n s) = (String.length s - n)%nat.
Proof.
  revert s. induction n as [|n IH]; intros [|c s]; cbn [drop String.length];
    try reflexivity.
  now rewrite IH.
Qed.

Lemma domain_label_length (d : string) :
  (String.length (domain_label d) <= 25)%nat.
Proof.
  unfold domain_label.
  set (label := replace (replace (replace d "https://" "") "http://" "") "www." "").
  destruct (Z.ltb_spec 25 (Z.of_nat (String.length label))) as [Hlong | Hshort].
  - rewrite length_append, length_take. cbn [String.length]. lia.
  - lia.
Qed.

Lemma crypto_label_length (a : string) :
  String.length (crypto_label a)
  = if (12 <? Z.of_nat (String.length a)) then 15%nat else String.length a.
Proof.
  unfold crypto_label, take_last.
  destruct (Z.ltb_spec 12 (Z.of_nat (String.length a))) as [Hlong | Hshort];
    [|reflexivity].
  rewrite !length_append, length_take, length_drop. cbn [String.length]. lia.
Qed.

(** Labels fit: a domain label has at most 25 characters, an address label
    at most 15; an address of at most 12 characters is its own label, a
    longer one is shown by its first six and last six characters. *)
Theorem labels_are_short (d a : string) :
  (String.length (domain_label d) <= 25)%nat
  /\ (String.length (crypto_label a) <= 15)%nat
  /\ ((String.length a <= 12)%nat -> crypto_label a = a)
  /\ ((12 < String.length a)%nat ->
      crypto_label a = take 6 a ++ "..." ++ take_last 6 a
      /\ String.length (take 6 a) = 6%nat
      /\ String.length (take_last 6 a) = 6%nat).
Proof.
  split; [apply domain_label_length|]. split; [|split].
  - rewrite crypto_label_length.
    destruct (Z.ltb_spec 12 (Z.of_nat (String.length a))); lia.
  - intros H. unfold crypto_label.
    destruct (Z.ltb_spec 12 (Z.of_nat (String.length a))); [lia | reflexivity].
  - intros H. unfold crypto_label, take_last.
    destruct (Z.ltb_spec 12 (Z.of_nat (String.length a))); [|lia].
    split; [reflexivity|]. rewrite length_take, length_drop. lia.
Qed.

Lemma stored_node (k : string) (node : NodeData) (self self' : t) :
  nodes self' = PyDict.set k node (nodes self) ->
  get_node k self' = Some node
  /\ (forall k', k' <> k -> get_node k' self' = get_node k' self)
  /\ PyDict.keys (nodes self')
     = match get_node k self with
       | Some _ => PyDict.keys (nodes self)
       | None => (PyDict.keys (nodes self) ++ [k])%list
       end.
Proof.
  intros E. unfold get_node. rewrite E. split; [apply get_set_same|].
  split; [intros k' Hne; now apply get_set_other | apply keys_set].
Qed.

(** Creating a node stores it under its id: looking the id up gives the new
    node, whatever was there before; every other id is looked up as before;
    and the id keeps its place in the order of the nodes if it had one, and
    otherwise comes last. This holds for domains and for addresses. *)
Theorem create_then_get (k ty chain : string) (md : gmap string Pandas.cell)
    (self : t) :
  let stored (created : t * NodeData) : Prop :=
    id (snd created) = k
    /\ get_node k (fst created) = Some (snd created)
    /\ (forall k', k' <> k -> get_node k' (fst created) = get_node k' self)
    /\ PyDict.keys (nodes (fst created))
       = match get_node k self with
         | Some _ => PyDict.keys (nodes self)
         | None => (PyDict.keys (nodes self) ++ [k])%list
         end in
  stored (create_domain_node k ty md self)
  /\ stored (create_crypto_node k chain md self).
Proof.
  cbn zeta. split; (split; [reflexivity | now apply stored_node]).
Qed.

End ManagerFacts.

(** ** The node list as a function of the rows *)

Section NodesOfRows.

Import Pandas Builder Spec RowLinks RowKeys.
Local Open Scope builder_scope.

Lemma existsb_keys {V : Type} (k : string) (d : PyDict.dict V) :
  existsb (String.eqb k) (PyDict.keys d)
  = match PyDict.get k d with Some _ => true | None => false end.
Proof.
  induction d as [|[k0 v0] d IH]; [reflexivity|].
  cbn [PyDict.keys map fst existsb PyDict.get].
  destruct (String.eqb k k0); [reflexivity | exact IH].
Qed.

Lemma keys_adds (k : string) (node : NodeManager.NodeData) (self self' : t) :
  adds k node self self' ->
  PyDict.keys (registry self') = add_key (PyDict.keys (registry self)) k.
Proof.
  intros Hadd. destruct (registry_adds _ _ _ _ Hadd) as (-> & _).
  destruct Hadd as [Hfresh _]. unfold add_key.
  now rewrite existsb_keys, keys_set, Hfresh.
Qed.

Lemma keys_present (k : string) (n : NodeManager.NodeData) (self : t) :
  PyDict.get k (registry self) = Some n ->
  PyDict.keys (registry self) = add_key (PyDict.keys (registry self)) k.
Proof. intros H. unfold add_key. now rewrite existsb_keys, H. Qed.

Lemma keys_create_or_get_domain (d ty : string) (md : gmap string cell)
    (self : t) :
  PyDict.keys (registry (fst (_create_or_get_domain_node d ty md self)))
  = add_key (PyDict.keys (registry self)) d.
Proof.
  destruct (create_or_get_domain_cases d ty md self) as [(n & Hn & ->) | Hadd].
  - now apply (keys_present d n).
  - now apply keys_adds in Hadd.
Qed.

Lemma keys_create_or_get_crypto (a c : string) (md : gmap string cell)
    (self : t) :
  PyDict.keys (registry (fst (_create_or_get_crypto_node a (Str c) md self)))
  = add_key (PyDict.keys (registry self)) a.
Proof.
  unfold _create_or_get_crypto_node, create_crypto_node, NodeManager.get_node.
  fold (registry self).
  destruct (PyDict.get a (registry self)) as [n|] eqn:E; cbn [fst].
  - now apply (keys_present a n).
  - apply (keys_adds a
             (snd (NodeManager.create_crypto_node a c md (node_manager self)))).
    split; [exact E | reflexivity].
Qed.

Lemma keys_domain_relationship (s d col : string) (row : Row) (self : t) :
  PyDict.keys (registry (fst (_create_domain_relationship s d col row self)))
  = fold_left add_key (map target (domain_link s col row d))
      (PyDict.keys (registry self)).
Proof.
  unfold _create_domain_relationship, domain_link.
  destruct (_ || _); [reflexivity|].
  destruct (create_or_get_domain_returns (_normalize_domain (Str d)) col
              (domain_metadata row (_normalize_domain (Str d))) self)
    as [[n Hn] _].
  rewrite (bind_returns _ _ _ _ Hn).
  cbn [map target fold_left].
  apply keys_create_or_get_domain.
Qed.

Lemma keys_crypto_relationship (s a c : string) (row : Row) (self : t) :
  PyDict.keys (registry (fst (_create_crypto_relationship s a (Str c) row self)))
  = fold_left add_key (map target (crypto_link s row a))
      (PyDict.keys (registry self)).
Proof.
  unfold _create_crypto_relationship, crypto_link.
  destruct (PyStr.is_empty a); [reflexivity|].
  set (md := ({[ "discovery_method" := get row "discovery_method" (Str "");
                 "source_domain" := Str s ]} : gmap string cell)).
  assert (Hn : exists n, snd (_create_or_get_crypto_node a (Str c) md self) = Ok n).
  { unfold _create_or_get_crypto_node, create_crypto_node.
    destruct (NodeManager.get_node a (node_manager self)) as [n|]; [now exists n|].
    destruct (NodeManager.create_crypto_node a c md (node_manager self)) as [nm n].
    now exists n. }
  destruct Hn as [n Hn].
  rewrite (bind_returns _ _ _ _ Hn).
  cbn [map target fold_left].
  apply keys_create_or_get_crypto.
Qed.

Lemma keys_for_each {A : Type} (f : A -> list Edge) (xs : list A)
    (body : A -> M unit) (self : t) :
  (forall x b, snd (body x b) = Ok tt) ->
  (forall x b,
     PyDict.keys (registry (fst (body x b)))
     = fold_left add_key (map target (f x)) (PyDict.keys (registry b))) ->
  PyDict.keys (registry (fst (for_each xs body self)))
  = fold_left add_key (map target (flat_map f xs)) (PyDict.keys (registry self)).
Proof.
  intros Hok Hkeys. revert self.
  induction xs as [|x xs IH]; intros self; cbn [for_each flat_map];
    [reflexivity|].
  rewrite (bind_returns _ _ _ _ (Hok x self)).
  now rewrite IH, Hkeys, map_app, fold_left_app.
Qed.

Lemma keys_domain_column (s col : string) (row : Row) (self : t) :
  PyDict.keys (registry (fst (process_domain_column s col row self)))
  = fold_left add_key (map target (domain_links s col row))
      (PyDict.keys (registry self)).
Proof.
  unfold process_domain_column, domain_links, get_none, getitem.
  destruct (row !! col) as [v|]; cbn [default id]; [|reflexivity].
  destruct (notna v) eqn:Hv.
  - change (bind (ret v) ?k self) with (k v self). cbv beta.
    apply (keys_for_each (domain_link s col row)).
    + intros. apply domain_relationship_returns.
    + intros. apply keys_domain_relationship.
  - destruct v; try discriminate. reflexivity.
Qed.

Lemma keys_crypto_column (s : string) (row : Row) (self : t) :
  chain_usable row ->
  PyDict.keys (registry (fst (process_crypto_column s row self)))
  = fold_left add_key (map target (crypto_links s row))
      (PyDict.keys (registry self)).
Proof.
  intros Hchain.
  assert (Hc : exists c, get row "chain" (Str "BTC") = Str c).
  { unfold get. destruct Hchain as [-> | [c ->]]; cbn [default id]; eauto. }
  destruct Hc as [c Hc].
  unfold process_crypto_column, crypto_links, get_none, getitem.
  destruct (row !! "crypto_address") as [v|]; cbn [default id]; [|reflexivity].
  destruct (notna v) eqn:Hv.
  - change (bind (ret v) ?k self) with (k v self). cbv beta. rewrite Hc.
    apply (keys_for_each (crypto_link s row)).
    + intros a b.
      destruct (crypto_relationship_registers s a c row b) as [[[] Hu] _].
      exact Hu.
    + intros a b. apply keys_crypto_relationship.
  - destruct v; try discriminate. reflexivity.
Qed.

Lemma keys_process_row (row : Row) (self : t) :
  chain_usable row ->
  PyDict.keys (registry (fst (_process_row row self)))
  = fold_left add_key (row_keys row) (PyDict.keys (registry self)).
Proof.
  intros Hchain. unfold _process_row, row_keys, row_links, get_none, getitem.
  destruct (row !! "source_domain") as [raw|]; cbn [default id];
    [|reflexivity].
  change (bind (ret raw) ?k self) with (k raw self). cbv beta.
  destruct (PyStr.is_empty (_normalize_domain raw)); [reflexivity|].
  set (s := _normalize_domain raw).
  destruct (create_or_get_domain_returns s "source_domain"
              (domain_metadata row s) self) as [[n Hn] _].
  rewrite (bind_returns _ _ _ _ Hn).
  set (b1 := fst (_create_or_get_domain_node s "source_domain"
                    (domain_metadata row s) self)).
  assert (E1 : PyDict.keys (registry b1) = add_key (PyDict.keys (registry self)) s)
    by apply keys_create_or_get_domain.
  rewrite (bind_returns _ _ _ _ (domain_column_returns s "lookalike_domain" row b1)).
  set (b2 := fst (process_domain_column s "lookalike_domain" row b1)).
  pose proof (keys_domain_column s "lookalike_domain" row b1) as E2. fold b2 in E2.
  rewrite (bind_returns _ _ _ _ (domain_column_returns s "same_ip_domain" row b2)).
  set (b3 := fst (process_domain_column s "same_ip_domain" row b2)).
  pose proof (keys_domain_column s "same_ip_domain" row b2) as E3. fold b3 in E3.
  rewrite (keys_crypto_column s row b3 Hchain), E3, E2, E1.
  cbn [fold_left]. now rewrite !map_app, !fold_left_app.
Qed.

Lemma keys_process_rows (df : list Row) (self : t) :
  (forall row, In row df -> chain_usable row) ->
  PyDict.keys (registry (process_rows df self))
  = fold_left add_key (flat_map row_keys df) (PyDict.keys (registry self)).
Proof.
  revert self. induction df as [|row df IH]; intros self Hall; [reflexivity|].
  change (process_rows (row :: df) self)
    with (process_rows df (process_one row self)).
  rewrite IH by (intros r Hr; apply Hall; now right).
  cbn [flat_map]. rewrite fold_left_app. f_equal.
  pose proof (keys_process_row row self (Hall row (or_introl eq_refl))) as E.
  unfold process_one.
  destruct (_process_row row self) as [self' [[] | e]]; exact E.
Qed.

(** When the chain of every row is absent or text, the nodes of the snapshot
    are, by id, the keys the rows name (for each row its source, then the
    targets of its links), each once, in the order of first appearance. *)
Theorem nodes_of_build (df : list Row) (self : t) :
  (forall row, In row df -> chain_usable row) ->
  map NodeManager.id (nodes (snd (build_graph df self)))
  = first_appearances (flat_map row_keys df).
Proof.
  intros Hall. rewrite snapshot_ids. now rewrite keys_process_rows.
Qed.

Lemma nodes_of_build_witness :
  map NodeManager.id
    (nodes (snd (build_graph [SampleRows.evil; SampleRows.no_chain_row] init)))
  = first_appearances
      (flat_map row_keys [SampleRows.evil; SampleRows.no_chain_row]).
Proof.
  apply (nodes_of_build [SampleRows.evil; SampleRows.no_chain_row] init).
  intros row [<- | [<- | []]].
  - right. now exists "BTC".
  - now left.
Defined.

End NodesOfRows.

(** ** The builder's nodes before the selector *)

Section BuilderToSelector.

Import Pandas Builder Spec Entity NodeDict.

Lemma entity_priority (n : NodeManager.NodeData) :
  entity n ->
  Selector.is_priority (to_dict n) = true
  \/ (NodeManager.node_type n = "same_ip_domain"
      /\ Selector.is_same_ip (to_dict n) = true).
Proof.
  intros [Hd | Hc].
  - destruct Hd as (_ & Hrole & _ & _ & _ & ip & shot & summary & disc & style & Hmeta).
    unfold Selector.is_priority, Selector.is_same_ip, Selector.role, to_dict.
    cbn [Selector.domain_type Selector.node_type Selector.type]. rewrite Hmeta.
    unfold is_domain_role in Hrole.
    apply orb_true_iff in Hrole as [Hrole | Hrole];
      [apply orb_true_iff in Hrole as [Hrole | Hrole]|];
      apply String.eqb_eq in Hrole; rewrite Hrole.
    + left. reflexivity.
    + left. cbn [Selector.truthy PyStr.is_empty negb default id].
      replace (String.eqb "lookalike_domain" "source_domain") with false
        by reflexivity.
      replace (String.eqb "lookalike_domain" "lookalike_domain") with true
        by reflexivity.
      now destruct (String.eqb _ "crypto").
    + right. split; reflexivity.
  - destruct Hc as (Htype & _).
    left. unfold Selector.is_priority, to_dict.
    cbn [Selector.type default id]. rewrite Htype.
    replace (String.eqb "crypto" "crypto") with true by reflexivity.
    now destruct (String.eqb _ "source_domain").
Qed.

(** Of the nodes a build makes, the selector can drop none but same-IP
    domains: wherever a built node is among the nodes given to the selector,
    it is among the selected nodes unless its role is [same_ip_domain]. *)
Theorem only_same_ip_nodes_dropped (df : list Row) (self : t)
    (n : NodeManager.NodeData) (ns : list Selector.node) :
  In n (nodes (snd (build_graph df self))) ->
  In (to_dict n) ns ->
  In (to_dict n) (Selector.select_nodes ns)
  \/ NodeManager.node_type n = "same_ip_domain".
Proof.
  intros Hn Hin. rewrite snapshot_nodes in Hn.
  apply registry_values in Hn as [k Hn].
  destruct (entity_priority n (proj1 (sound_built df self) k n Hn))
    as [Hp | [Hrole _]].
  - left. now apply priority_selected.
  - now right.
Qed.

Lemma only_same_ip_nodes_dropped_witness :
  let n :=
    snd (NodeManager.create_domain_node "evil-2.com" "lookalike_domain"
           (domain_metadata SampleRows.evil "evil-2.com")
           (NodeManager.mkManager [] 0)) in
  In (to_dict n) (Selector.select_nodes [to_dict n])
  \/ NodeManager.node_type n = "same_ip_domain".
Proof.
  cbn zeta.
  apply (only_same_ip_nodes_dropped [SampleRows.evil] init).
  - vm_compute. right. left. reflexivity.
  - left. reflexivity.
Defined.

End BuilderToSelector.
